(** * Code Knowledge Tree server: the dependency-graph engine

    A shallow embedding of [code_knowledge_server.py].  The element
    directory is a finite map from file stems to records, the wall clock
    is a tick counter that every [datetime.now()] reads and advances, and
    each tool is a function from a world to a result and a new world.

    The embedding is that of the calls in which every id names a file of
    the element directory ([plain_id] below): there
    [ELEMENTS_DIR / f"{element_id}.json"] is the file [<id>.json], reading
    and writing it do not raise, and the listing of the directory gives
    every record back.  An id that is empty or made of dots, that holds a
    ['/'] or a NUL, or whose file name is too long takes the program
    elsewhere: to another
    file, or into the [except] clause of the tool, which answers with a
    failure after whatever was written before.  Those calls are not
    described here, and the properties below that depend on the
    directory are stated for plain ids and plain stores ([plain_store]),
    on a file system that tells upper case from lower case. *)

From Stdlib Require Import String Ascii ZArith List Floats Uint63 OrderedTypeEx Sorted.
From stdpp Require Import base gmap sets list strings.

Open Scope string_scope.
Open Scope list_scope.

(** ** Python strings

    A Python [str] is modelled as a Rocq [string] whose characters are the
    code points below 256. *)

(** [str.isspace] on one character of that range. *)
Definition isspace (c : ascii) : bool :=
  let n := nat_of_ascii c in
  (((9 <=? n) && (n <=? 13)) || ((28 <=? n) && (n <=? 32))
   || (n =? 133) || (n =? 160))%nat.

Fixpoint lstrip (s : string) : string :=
  match s with
  | EmptyString => EmptyString
  | String c s' => if isspace c then lstrip s' else s
  end.

(** [rstrip] as one right-to-left pass: a character is dropped when it is
    white and everything after it was dropped. *)
Fixpoint rstrip (s : string) : string :=
  match s with
  | EmptyString => EmptyString
  | String c s' =>
      match rstrip s' with
      | EmptyString => if isspace c then EmptyString else String c EmptyString
      | r => String c r
      end
  end.

(** [s.strip()] *)
Definition strip (s : string) : string := rstrip (lstrip s).

(** Truth value of a [str]: non-empty. *)
Definition truthy (s : string) : bool :=
  match s with EmptyString => false | _ => true end.

(** [s or None] *)
Definition or_None (s : string) : option string :=
  if truthy s then Some s else None.

(** ** Data model *)

(** [created_at] and [updated_at] are [""] until the first save and an
    ISO string of a clock reading afterwards. *)
Inductive stamp : Type :=
| Unset
| At (tick : nat).

Record CodeElement : Type := mkCodeElement {
  id : string;
  type : string;
  code : string;
  description : string;
  dependencies : list string;
  dependents : list string;
  source_file : option string;
  line_range : option string;
  created_at : stamp;
  updated_at : stamp
}.

(** [metadata.json].  [meta_created_at] is [Unset] when the file has no
    [created_at] key. *)
Record Metadata : Type := mkMetadata {
  meta_created_at : stamp;
  total_elements : nat;
  last_updated : stamp
}.

(** The directory [knowledge-tree/]: [elements/<stem>.json] for every key
    of [files], the metadata file when present, and the clock. *)
Record World : Type := mkWorld {
  files : gmap string CodeElement;
  metadata : option Metadata;
  clock : nat
}.

#[global] Instance stamp_eq_dec : EqDecision stamp.
Proof. solve_decision. Defined.

#[global] Instance CodeElement_eq_dec : EqDecision CodeElement.
Proof. solve_decision. Defined.

Definition with_dependencies (e : CodeElement) (ds : list string) : CodeElement :=
  mkCodeElement (id e) (type e) (code e) (description e) ds (dependents e)
    (source_file e) (line_range e) (created_at e) (updated_at e).

Definition with_dependents (e : CodeElement) (ds : list string) : CodeElement :=
  mkCodeElement (id e) (type e) (code e) (description e) (dependencies e) ds
    (source_file e) (line_range e) (created_at e) (updated_at e).

Definition with_code (e : CodeElement) (c : string) : CodeElement :=
  mkCodeElement (id e) (type e) c (description e) (dependencies e) (dependents e)
    (source_file e) (line_range e) (created_at e) (updated_at e).

Definition with_description (e : CodeElement) (d : string) : CodeElement :=
  mkCodeElement (id e) (type e) (code e) d (dependencies e) (dependents e)
    (source_file e) (line_range e) (created_at e) (updated_at e).

Definition with_source_file (e : CodeElement) (s : option string) : CodeElement :=
  mkCodeElement (id e) (type e) (code e) (description e) (dependencies e) (dependents e)
    s (line_range e) (created_at e) (updated_at e).

Definition with_line_range (e : CodeElement) (s : option string) : CodeElement :=
  mkCodeElement (id e) (type e) (code e) (description e) (dependencies e) (dependents e)
    (source_file e) s (created_at e) (updated_at e).

Definition with_stamps (e : CodeElement) (c u : stamp) : CodeElement :=
  mkCodeElement (id e) (type e) (code e) (description e) (dependencies e) (dependents e)
    (source_file e) (line_range e) c u.

(** ** Python lists of ids *)

(** [x in l] *)
Definition mem (x : string) (l : list string) : bool := bool_decide (x ∈ l).

(** [l.remove(x)]: the first occurrence only.  The source calls it under
    an [x in l] guard, so the [ValueError] branch is never reached. *)
Fixpoint remove_first (x : string) (l : list string) : list string :=
  match l with
  | [] => []
  | y :: l' => if decide (x = y) then l' else y :: remove_first x l'
  end.

(** The [dependencies] argument of a tool: absent, one bare id, or a list. *)
Inductive deps_arg : Type :=
| DepsNone
| DepsStr (s : string)
| DepsList (l : list string).

(** ** Element repository

    [load_element] and [save_element] on a plain id: the file is the key
    of the map. *)

(** [datetime.now().isoformat()] *)
Definition now (w : World) : stamp * World :=
  (At (clock w), mkWorld (files w) (metadata w) (S (clock w))).

Definition ensure_knowledge_base (w : World) : World :=
  match metadata w with
  | Some _ => w
  | None =>
      let '(c, w1) := now w in
      let '(u, w2) := now w1 in
      mkWorld (files w2) (Some (mkMetadata c 0 u)) (clock w2)
  end.

Definition load_element (element_id : string) (w : World) : option CodeElement :=
  files w !! element_id.

Definition update_metadata (w : World) : World :=
  let element_count := size (files w) in
  let '(u, w1) := now w in
  match metadata w1 with
  | Some existing =>
      (* [existing.get("created_at", datetime.now().isoformat())]: the
         default is evaluated before the call and used when the key is
         missing *)
      let '(d, w2) := now w1 in
      let c := match meta_created_at existing with Unset => d | c => c end in
      mkWorld (files w2) (Some (mkMetadata c element_count u)) (clock w2)
  | None =>
      mkWorld (files w1) (Some (mkMetadata Unset element_count u)) (clock w1)
  end.

(** [save_element] stamps the object it is given, so the stamped element
    is returned with the new world. *)
Definition save_element (element : CodeElement) (w : World) : CodeElement * World :=
  let w0 := ensure_knowledge_base w in
  let '(u, w1) := now w0 in
  let c := match created_at element with Unset => u | c => c end in
  let element' := with_stamps element c u in
  let w2 := mkWorld (<[id element' := element']> (files w1)) (metadata w1) (clock w1) in
  (element', update_metadata w2).

(** The directory listing comes in an unspecified order; the order of
    [map_to_list] stands for it. *)
Definition get_all_elements (w : World) : list CodeElement :=
  omap (fun kv => load_element (fst kv) w) (map_to_list (files w)).

(** [ELEMENTS_DIR / f"{element_id}.json"].unlink() *)
Definition unlink (element_id : string) (w : World) : World :=
  mkWorld (delete element_id (files w)) (metadata w) (clock w).

(** ** Tool results

    Every tool returns a dictionary with a [success] flag; each shape of
    dictionary is one constructor. *)

(** [{"id": ..., "type": ..., "description": ...}] *)
Record ElementRef : Type := mkElementRef {
  ref_id : string;
  ref_type : string;
  ref_description : string
}.

Definition element_ref (e : CodeElement) : ElementRef :=
  mkElementRef (id e) (type e) (description e).

Record AddedElement : Type := mkAddedElement {
  added_id : string;
  added_type : string;
  added_description : string;
  added_dependencies : list string;
  added_created_at : stamp
}.

Record DependencyAnalysis : Type := mkDependencyAnalysis {
  total_dependencies : nat;
  existing_dependencies : list string;
  missing_dependencies : list string;
  missing_count : nat
}.

Inductive AddResult : Type :=
| AddAlreadyExists (message : string) (existing_element : ElementRef)
| AddSuccess (message : string) (element : AddedElement)
    (dependency_analysis : DependencyAnalysis).

Definition add_success (r : AddResult) : bool :=
  match r with AddSuccess _ _ _ => true | _ => false end.

Record DependencyChanges : Type := mkDependencyChanges {
  changes_operation : string;
  original_dependencies : list string;
  new_dependencies : list string;
  changes_existing : list string;
  changes_missing : list string;
  changes_missing_count : nat
}.

Inductive EditResult : Type :=
| EditNotFound (message : string)
| EditInvalidOperation (message : string)
| EditSuccess (message : string) (element : ElementRef)
    (dependency_changes : DependencyChanges).

Definition edit_success (r : EditResult) : bool :=
  match r with EditSuccess _ _ _ => true | _ => false end.

Inductive GetResult : Type :=
| GetNotFound (message : string)
| GetSuccess (element : CodeElement).

Definition get_success (r : GetResult) : bool :=
  match r with GetSuccess _ => true | _ => false end.

(** ** The dependents pass

    The loop [for dep_id in ...: dep_element = load_element(dep_id) ...]
    that [add_code_element], [edit_dependencies] and [update_code_element]
    all run: every listed id with a record gains [element_id] among its
    dependents (unless already there) and is filed under existing, every
    other id under missing. *)
Definition link_step (element_id : string)
    (acc : list string * list string * World) (dep_id : string)
    : list string * list string * World :=
  let '(existing_deps, missing_deps, w) := acc in
  match load_element dep_id w with
  | Some dep_element =>
      let w' :=
        if mem element_id (dependents dep_element) then w
        else snd (save_element
                    (with_dependents dep_element
                       (dependents dep_element ++ [element_id])) w) in
      (existing_deps ++ [dep_id], missing_deps, w')
  | None => (existing_deps, missing_deps ++ [dep_id], w)
  end.

Definition link_dependents (element_id : string) (deps : list string) (w : World)
    : list string * list string * World :=
  foldl (link_step element_id) ([], [], w) deps.

(** The loop [for old_dep in original_deps: if old_dep not in new_deps ...]
    of [edit_dependencies] and [update_code_element]: a dropped dependency
    with a record loses the first [element_id] of its dependents. *)
Definition unlink_step (element_id : string) (new_deps : list string)
    (w : World) (old_dep : string) : World :=
  if mem old_dep new_deps then w
  else
    match load_element old_dep w with
    | Some old_dep_element =>
        if mem element_id (dependents old_dep_element) then
          snd (save_element
                 (with_dependents old_dep_element
                    (remove_first element_id (dependents old_dep_element))) w)
        else w
    | None => w
    end.

Definition unlink_dependents (element_id : string) (original_deps new_deps : list string)
    (w : World) : World :=
  foldl (unlink_step element_id new_deps) w original_deps.

(** ** add_code_element *)

(** [dependencies or []], then a bare string becomes a one-element list. *)
Definition add_deps_list (dependencies_arg : deps_arg) : list string :=
  match dependencies_arg with
  | DepsNone => []
  | DepsStr s => if truthy s then [s] else []
  | DepsList l => l
  end.

Definition add_code_element (element_id element_type code_arg description_arg : string)
    (dependencies_arg : deps_arg) (source_file_arg line_range_arg : string) (w : World)
    : AddResult * World :=
  match load_element element_id w with
  | Some existing =>
      (AddAlreadyExists
         ("Element '" +:+ element_id
            +:+ "' already exists. Use update_code_element to modify it.")
         (element_ref existing), w)
  | None =>
      let deps_list := add_deps_list dependencies_arg in
      let element :=
        mkCodeElement element_id element_type (strip code_arg) description_arg
          deps_list [] (or_None source_file_arg) (or_None line_range_arg) Unset Unset in
      let '(element, w1) := save_element element w in
      let '(existing_deps, missing_deps, w2) := link_dependents element_id deps_list w1 in
      (AddSuccess
         ("Successfully added " +:+ element_type +:+ " '" +:+ element_id +:+ "'")
         (mkAddedElement (id element) (type element) (description element)
            (dependencies element) (created_at element))
         (mkDependencyAnalysis (length deps_list) existing_deps missing_deps
            (length missing_deps)), w2)
  end.

(** ** edit_dependencies *)

(** A bare string becomes a one-element list; the parameter has no default. *)
Definition edit_deps_list (dependencies_arg : deps_arg) : list string :=
  match dependencies_arg with
  | DepsNone => []
  | DepsStr s => [s]
  | DepsList l => l
  end.

(** [for dep in dependencies: if dep not in deps: deps.append(dep)] *)
Definition add_op (deps new : list string) : list string :=
  foldl (fun acc dep => if mem dep acc then acc else acc ++ [dep]) deps new.

(** [for dep in dependencies: if dep in deps: deps.remove(dep)] *)
Definition remove_op (deps old : list string) : list string :=
  foldl (fun acc dep => if mem dep acc then remove_first dep acc else acc) deps old.

Definition apply_operation (operation : string) (deps new_list : list string)
    : option (list string) :=
  if decide (operation = "replace") then Some new_list
  else if decide (operation = "add") then Some (add_op deps new_list)
  else if decide (operation = "remove") then Some (remove_op deps new_list)
  else None.

(** The type of [dependencies] is [List[str]]: [DepsNone] is not an input
    of this tool. *)
Definition edit_dependencies (element_id : string) (dependencies_arg : deps_arg)
    (operation : string) (w : World) : EditResult * World :=
  match load_element element_id w with
  | None =>
      (EditNotFound
         ("Element '" +:+ element_id +:+ "' not found. Add it first with add_code_element."), w)
  | Some element =>
      let new_list := edit_deps_list dependencies_arg in
      let original_deps := dependencies element in
      match apply_operation operation original_deps new_list with
      | None =>
          (EditInvalidOperation
             ("Invalid operation: " +:+ operation
                +:+ ". Use 'replace', 'add', or 'remove'."), w)
      | Some new_deps =>
          let '(element, w1) := save_element (with_dependencies element new_deps) w in
          let w2 := unlink_dependents element_id original_deps (dependencies element) w1 in
          let '(existing_deps, missing_deps, w3) :=
            link_dependents element_id (dependencies element) w2 in
          (EditSuccess
             ("Successfully " +:+ operation +:+ "d dependencies for '" +:+ element_id +:+ "'")
             (element_ref element)
             (mkDependencyChanges operation original_deps (dependencies element)
                existing_deps missing_deps (length missing_deps)), w3)
      end
  end.

(** ** get_element *)

Definition get_element (element_id : string) (w : World) : GetResult :=
  match load_element element_id w with
  | None => GetNotFound ("Element '" +:+ element_id +:+ "' not found in knowledge tree")
  | Some element => GetSuccess element
  end.

(** ** update_code_element *)

Record UpdatedElement : Type := mkUpdatedElement {
  updated_id : string;
  updated_type : string;
  updated_description : string;
  updated_dependencies : list string;
  updated_updated_at : stamp
}.

Record UpdateAnalysis : Type := mkUpdateAnalysis {
  analysis_original : list string;
  analysis_new : list string;
  analysis_existing : list string;
  analysis_missing : list string;
  analysis_missing_count : nat
}.

Inductive UpdateResult : Type :=
| UpdateNotFound (message : string)
| UpdateNoFields (message : string)
| UpdateSuccess (message : string) (updated_fields : list string)
    (element : UpdatedElement) (dependency_analysis : option UpdateAnalysis).

Definition update_success (r : UpdateResult) : bool :=
  match r with UpdateSuccess _ _ _ _ => true | _ => false end.

(** The four [if field.strip(): ...] statements, on the loaded object and
    the [updated_fields] list. *)
Definition update_text_fields (code_arg description_arg source_file_arg line_range_arg : string)
    (element : CodeElement) : CodeElement * list string :=
  let '(element, updated_fields) :=
    if truthy (strip code_arg)
    then (with_code element (strip code_arg), ["code"]) else (element, []) in
  let '(element, updated_fields) :=
    if truthy (strip description_arg)
    then (with_description element description_arg, updated_fields ++ ["description"])
    else (element, updated_fields) in
  let '(element, updated_fields) :=
    if truthy (strip source_file_arg)
    then (with_source_file element (Some source_file_arg), updated_fields ++ ["source_file"])
    else (element, updated_fields) in
  if truthy (strip line_range_arg)
  then (with_line_range element (Some line_range_arg), updated_fields ++ ["line_range"])
  else (element, updated_fields).

Definition update_code_element (element_id code_arg description_arg : string)
    (dependencies_arg : deps_arg) (source_file_arg line_range_arg : string) (w : World)
    : UpdateResult * World :=
  match load_element element_id w with
  | None =>
      (UpdateNotFound
         ("Element '" +:+ element_id +:+ "' not found. Use add_code_element to create it."), w)
  | Some element =>
      let original_deps := dependencies element in
      let '(element, updated_fields) :=
        update_text_fields code_arg description_arg source_file_arg line_range_arg element in
      let '(element, updated_fields, analysis, w1) :=
        match dependencies_arg with
        | DepsNone => (element, updated_fields, None, w)
        | _ =>
            let new_list := edit_deps_list dependencies_arg in
            let w1 := unlink_dependents element_id original_deps new_list w in
            let '(existing_deps, missing_deps, w2) :=
              link_dependents element_id new_list w1 in
            (with_dependencies element new_list, updated_fields ++ ["dependencies"],
             Some (existing_deps, missing_deps), w2)
        end in
      match updated_fields with
      | [] =>
          (UpdateNoFields
             "No fields provided for update. Specify at least one field to update.", w1)
      | _ =>
          let '(element, w2) := save_element element w1 in
          (UpdateSuccess
             ("Successfully updated " +:+ type element +:+ " '" +:+ element_id +:+ "'")
             updated_fields
             (mkUpdatedElement (id element) (type element) (description element)
                (dependencies element) (updated_at element))
             (match analysis with
              | Some (existing_deps, missing_deps) =>
                  Some (mkUpdateAnalysis original_deps (dependencies element)
                          existing_deps missing_deps (length missing_deps))
              | None => None
              end), w2)
      end
  end.

(** ** remove_element *)

Inductive RemoveResult : Type :=
| RemoveNotFound (message : string)
| RemoveSuccess (message : string) (cleaned_references : list string)
    (dependencies_removed : list string) (dependents_updated : list string).

Definition remove_success (r : RemoveResult) : bool :=
  match r with RemoveSuccess _ _ _ _ => true | _ => false end.

(** One turn of [for other_element in all_elements].  The object is
    changed in place, so the second [if] sees the list and the stamps the
    first one left. *)
Definition scrub_step (element_id : string) (acc : list string * World)
    (other_element : CodeElement) : list string * World :=
  let '(updated_elements, w) := acc in
  if decide (id other_element = element_id) then acc
  else
    let '(other_element, updated_elements, w) :=
      if mem element_id (dependencies other_element) then
        let '(other_element, w) :=
          save_element
            (with_dependencies other_element
               (remove_first element_id (dependencies other_element))) w in
        (other_element,
         updated_elements ++ [id other_element +:+ " (removed from dependencies)"], w)
      else (other_element, updated_elements, w) in
    if mem element_id (dependents other_element) then
      let '(other_element, w) :=
        save_element
          (with_dependents other_element
             (remove_first element_id (dependents other_element))) w in
      (updated_elements ++ [id other_element +:+ " (removed from dependents)"], w)
    else (updated_elements, w).

Definition remove_element (element_id : string) (w : World) : RemoveResult * World :=
  match load_element element_id w with
  | None => (RemoveNotFound ("Element '" +:+ element_id +:+ "' not found"), w)
  | Some element =>
      let all_elements := get_all_elements w in
      let '(updated_elements, w1) :=
        foldl (scrub_step element_id) ([], w) all_elements in
      let w2 := update_metadata (unlink element_id w1) in
      (RemoveSuccess
         ("Successfully removed " +:+ type element +:+ " '" +:+ element_id +:+ "'")
         updated_elements (dependencies element) (dependents element), w2)
  end.

(** ** find_missing_dependencies *)

Record Referencer : Type := mkReferencer {
  referencing_element : string;
  element_type : string;
  referencer_description : string
}.

Definition referencer (e : CodeElement) : Referencer :=
  mkReferencer (id e) (type e) (description e).

Inductive MissingResult : Type :=
| MissingNotFound (message : string)
| MissingSuccess (missing_deps : gmap string (list Referencer))
    (total_missing : nat) (checked_elements : nat).

Definition missing_success (r : MissingResult) : bool :=
  match r with MissingSuccess _ _ _ => true | _ => false end.

(** [{elem.id for elem in get_all_elements()}] *)
Definition all_element_ids (w : World) : gset string :=
  list_to_set (map id (get_all_elements w)).

(** The body of [for dep_id in element.dependencies]. *)
Definition missing_step (ids : gset string) (element : CodeElement)
    (missing_deps : gmap string (list Referencer)) (dep_id : string)
    : gmap string (list Referencer) :=
  if bool_decide (dep_id ∈ ids) then missing_deps
  else <[dep_id := default [] (missing_deps !! dep_id) ++ [referencer element]]> missing_deps.

Definition missing_scan (ids : gset string) (elements_to_check : list CodeElement)
    : gmap string (list Referencer) :=
  foldl (fun missing_deps element =>
           foldl (missing_step ids element) missing_deps (dependencies element))
        ∅ elements_to_check.

Definition find_missing_dependencies (element_id : string) (w : World) : MissingResult :=
  let checked :=
    if truthy element_id then
      match load_element element_id w with
      | None => None
      | Some element => Some [element]
      end
    else Some (get_all_elements w) in
  match checked with
  | None => MissingNotFound ("Element '" +:+ element_id +:+ "' not found")
  | Some elements_to_check =>
      let missing_deps := missing_scan (all_element_ids w) elements_to_check in
      MissingSuccess missing_deps (size missing_deps) (length elements_to_check)
  end.

(** ** Python numbers

    The statistics divide, multiply, subtract and round Python numbers.
    Their arithmetic is an interface here; [float_number] below is the
    binary64 instance. *)
Class PyNumber (F : Type) : Type := {
  of_int : Z -> F;             (* an [int] where a [float] may stand *)
  truediv : Z -> Z -> F;       (* [a / b] on two [int]s *)
  mul : F -> F -> F;
  sub : F -> F -> F;
  pymax : F -> F -> F;         (* [max(a, b)] *)
  round : F -> Z -> F          (* [round(x, ndigits)] *)
}.

(** ** get_knowledge_tree_view *)

Record TreeStats (F : Type) : Type := mkTreeStats {
  tree_total_elements : nat;
  tree_element_types : gmap string nat;
  avg_dependencies : F;
  tree_max_dependencies : nat;
  orphaned_elements : nat
}.
Arguments mkTreeStats {F}.
Arguments tree_total_elements {F}.
Arguments tree_element_types {F}.
Arguments avg_dependencies {F}.
Arguments tree_max_dependencies {F}.
Arguments orphaned_elements {F}.

Inductive TreeResult (F : Type) : Type :=
| TreeEmpty (message : string) (tree : string) (total : nat)
| TreeNotFound (message : string)
| TreeSuccess (tree : string) (statistics : TreeStats F).
Arguments TreeEmpty {F}.
Arguments TreeNotFound {F}.
Arguments TreeSuccess {F}.

Definition tree_success {F : Type} (r : TreeResult F) : bool :=
  match r with TreeNotFound _ => false | _ => true end.

(** [{elem.id: elem for elem in get_all_elements()}]: a later element
    with the same id replaces an earlier one. *)
Definition index_by_id (elems : list CodeElement) : gmap string CodeElement :=
  foldl (fun m e => <[id e := e]> m) ∅ elems.

(** [all_elements.values()], in the order standing for the dict's. *)
Definition values (m : gmap string CodeElement) : list CodeElement :=
  (map_to_list m).*2.

(** ["  " * depth] *)
Fixpoint indent (depth : nat) : string :=
  match depth with
  | O => ""
  | S d => "  " +:+ indent d
  end.

Definition missing_line (depth : nat) (element_id : string) : string :=
  indent depth +:+ "├── " +:+ element_id +:+ " [MISSING]".

Definition element_line (depth : nat) (element : CodeElement) : string :=
  let prefix := if (0 <? depth)%nat then "├── " else "" in
  indent depth +:+ prefix +:+ id element +:+ " [" +:+ type element +:+ "] - "
    +:+ description element.

(** The nested function of [get_knowledge_tree_view].  [fuel] bounds the
    call depth; [None] means the bound was hit.  Each callee gets its own
    copy of [visited] with the caller's id added. *)
Fixpoint build_tree_recursive (fuel : nat) (all_elements : gmap string CodeElement)
    (max_depth : Z) (element_id : string) (depth : nat) (visited : gset string)
    : option (list string) :=
  match fuel with
  | O => None
  | S fuel' =>
      if (Z.of_nat depth >? max_depth)%Z || bool_decide (element_id ∈ visited)
      then Some []
      else
        let visited := {[element_id]} ∪ visited in
        match all_elements !! element_id with
        | None => Some [missing_line depth element_id]
        | Some element =>
            match mapM (fun dep_id =>
                          build_tree_recursive fuel' all_elements max_depth dep_id
                            (S depth) visited)
                       (dependencies element) with
            | Some below => Some (element_line depth element :: concat below)
            | None => None
            end
        end
  end.

(** [for element in all_elements.values()] of the statistics. *)
Definition tree_stats_step
    (acc : gmap string nat * nat * nat * nat) (element : CodeElement)
    : gmap string nat * nat * nat * nat :=
  let '(element_types, total_deps, max_deps, orphaned) := acc in
  let dep_count := length (dependencies element) in
  (<[type element := (default 0 (element_types !! type element) + 1)%nat]> element_types,
   (total_deps + dep_count)%nat,
   Nat.max max_deps dep_count,
   match dependencies element, dependents element with
   | [], [] => S orphaned
   | _, _ => orphaned
   end).

Section TreeView.
Context {F : Type} `{PyNumber F}.

Definition tree_statistics (all_elements : gmap string CodeElement) : TreeStats F :=
  let '(element_types, total_deps, max_deps, orphaned) :=
    foldl tree_stats_step (∅, 0, 0, 0)%nat (values all_elements) in
  let avg :=
    if (0 <? size all_elements)%nat
    then round (truediv (Z.of_nat total_deps) (Z.of_nat (size all_elements))) 2
    else of_int 0 in
  mkTreeStats (size all_elements) element_types avg max_deps orphaned.

Definition get_knowledge_tree_view (fuel : nat) (root_element_id : string)
    (max_depth : Z) (w : World) : option (TreeResult F) :=
  let all_elements := index_by_id (get_all_elements w) in
  if decide (all_elements = ∅) then
    Some (TreeEmpty "Knowledge tree is empty" "" 0)
  else
    let lines :=
      if truthy root_element_id then
        match all_elements !! root_element_id with
        | None => inl ("Root element '" +:+ root_element_id +:+ "' not found")
        | Some _ =>
            inr (build_tree_recursive fuel all_elements max_depth root_element_id 0 ∅)
        end
      else
        let top_level :=
          filter (fun elem => dependents elem = []) (values all_elements) in
        let top_level :=
          match top_level with [] => values all_elements | _ => top_level end in
        inr (@concat string <$>
               mapM (fun element =>
                       (fun tree => tree ++ [""]) <$>
                         build_tree_recursive fuel all_elements max_depth
                           (id element) 0 ∅)
                    top_level) in
    match lines with
    | inl message => Some (TreeNotFound message)
    | inr None => None
    | inr (Some tree_lines) =>
        Some (TreeSuccess (String.concat (String "010" "") tree_lines)
                (tree_statistics all_elements))
    end.
End TreeView.

(** ** get_knowledge_tree_stats *)

Record DependencyStats (F : Type) : Type := mkDependencyStats {
  stats_total_dependencies : nat;
  avg_dependencies_per_element : F;
  max_dependencies : nat;
  elements_with_no_dependencies : nat;
  elements_with_no_dependents : nat
}.
Arguments mkDependencyStats {F}.
Arguments stats_total_dependencies {F}.
Arguments avg_dependencies_per_element {F}.
Arguments max_dependencies {F}.
Arguments elements_with_no_dependencies {F}.
Arguments elements_with_no_dependents {F}.

Record HealthMetrics (F : Type) : Type := mkHealthMetrics {
  health_orphaned_elements : nat;
  health_missing_dependencies : nat;
  circular_dependencies : nat;
  overall_health_score : F
}.
Arguments mkHealthMetrics {F}.
Arguments health_orphaned_elements {F}.
Arguments health_missing_dependencies {F}.
Arguments circular_dependencies {F}.
Arguments overall_health_score {F}.

Record Stats (F : Type) : Type := mkStats {
  stats_total_elements : nat;
  stats_element_types : gmap string nat;
  dependency_stats : DependencyStats F;
  health_metrics : HealthMetrics F;
  missing_dependency_list : list string
}.
Arguments mkStats {F}.
Arguments stats_total_elements {F}.
Arguments stats_element_types {F}.
Arguments dependency_stats {F}.
Arguments health_metrics {F}.
Arguments missing_dependency_list {F}.

Inductive StatsResult (F : Type) : Type :=
| StatsEmpty (message : string)
| StatsSuccess (stats : Stats F).
Arguments StatsEmpty {F}.
Arguments StatsSuccess {F}.

(** The counters the loop [for element in elements] keeps. *)
Record Counters : Type := mkCounters {
  c_element_types : gmap string nat;
  c_total_deps : nat;
  c_max_dependencies : nat;
  c_no_dependencies : nat;
  c_no_dependents : nat;
  c_orphaned : nat;
  c_missing_deps : gset string
}.

Definition Counters0 : Counters := mkCounters ∅ 0 0 0 0 0 ∅.

(** [for dep_id in element.dependencies: if dep_id not in all_element_ids:
    missing_deps.add(dep_id)] *)
Definition add_missing (ids : gset string) (missing_deps : gset string)
    (dep_id : string) : gset string :=
  if bool_decide (dep_id ∈ ids) then missing_deps else {[dep_id]} ∪ missing_deps.

Definition stats_step (ids : gset string) (c : Counters) (element : CodeElement)
    : Counters :=
  let dep_count := length (dependencies element) in
  mkCounters
    (<[type element := (default 0 (c_element_types c !! type element) + 1)%nat]>
       (c_element_types c))
    (c_total_deps c + dep_count)%nat
    (Nat.max (c_max_dependencies c) dep_count)
    (if (dep_count =? 0)%nat then S (c_no_dependencies c) else c_no_dependencies c)
    (if (length (dependents element) =? 0)%nat
     then S (c_no_dependents c) else c_no_dependents c)
    (if (dep_count =? 0)%nat && (length (dependents element) =? 0)%nat
     then S (c_orphaned c) else c_orphaned c)
    (foldl (add_missing ids) (c_missing_deps c) (dependencies element)).

Section Statistics.
Context {F : Type} `{PyNumber F}.

(** [health_score = 100], then the two penalties and the floor. *)
Definition health_score (n_elements orphaned missing total_deps : nat) : F :=
  if (0 <? n_elements)%nat then
    let orphan_penalty :=
      mul (truediv (Z.of_nat orphaned) (Z.of_nat n_elements)) (of_int 20) in
    let missing_penalty :=
      mul (truediv (Z.of_nat missing) (Z.of_nat (Nat.max total_deps 1))) (of_int 30) in
    pymax (of_int 0) (sub (sub (of_int 100) orphan_penalty) missing_penalty)
  else of_int 100.

Definition get_knowledge_tree_stats (w : World) : StatsResult F :=
  let elems := get_all_elements w in
  match elems with
  | [] => StatsEmpty "Knowledge tree is empty"
  | _ =>
      let ids : gset string := list_to_set (map id elems) in
      let c := foldl (stats_step ids) Counters0 elems in
      let avg :=
        if (0 <? length elems)%nat
        then round (truediv (Z.of_nat (c_total_deps c)) (Z.of_nat (length elems))) 2
        else of_int 0 in
      let health :=
        health_score (length elems) (c_orphaned c) (size (c_missing_deps c))
          (c_total_deps c) in
      StatsSuccess
        (mkStats (length elems) (c_element_types c)
           (mkDependencyStats (c_total_deps c) avg (c_max_dependencies c)
              (c_no_dependencies c) (c_no_dependents c))
           (mkHealthMetrics (c_orphaned c) (size (c_missing_deps c)) 0
              (round health 1))
           (elements (c_missing_deps c)))
  end.
End Statistics.

(** ** Binary64 numbers *)

Definition float_of_Z (z : Z) : float :=
  if (z <? 0)%Z then PrimFloat.opp (PrimFloat.of_uint63 (Uint63.of_Z (- z)))
  else PrimFloat.of_uint63 (Uint63.of_Z z).

(** [n / d] rounded to an integer, ties to even; [d] is positive. *)
Definition half_even (n d : Z) : Z :=
  let q := (n / d)%Z in
  match (2 * (n mod d) ?= d)%Z with
  | Lt => q
  | Gt => (q + 1)%Z
  | Eq => if Z.even q then q else (q + 1)%Z
  end.

(** [float.__round__] with [ndigits]: the magnitude of a finite number,
    which is exactly [m * 2 ^ e], is rounded half-even at [ndigits]
    decimals, the decimal is read back as a float and the sign is put
    back; zeros, infinities and NaN come back as they are.  One division
    reads the decimal back, which gives the nearest float as long as its
    integer and the power of ten are below [2 ^ 53]; the statistics stay
    below. *)
Definition round_float (x : float) (ndigits : Z) : float :=
  match Prim2SF x with
  | S754_finite s m e =>
      let n := (Z.pos m * 2 ^ Z.max 0 e)%Z in
      let d := (2 ^ Z.max 0 (- e))%Z in
      let r := PrimFloat.div (float_of_Z (half_even (n * 10 ^ ndigits) d))
                 (float_of_Z (10 ^ ndigits)) in
      if s then PrimFloat.opp r else r
  | _ => x
  end.

#[global] Instance float_number : PyNumber float := {|
  of_int := float_of_Z;
  truediv a b := PrimFloat.div (float_of_Z a) (float_of_Z b);
  mul := PrimFloat.mul;
  sub := PrimFloat.sub;
  pymax a b := if PrimFloat.ltb a b then b else a;
  round := round_float
|}.

(** ** list_all_elements *)

Record ElementSummary : Type := mkElementSummary {
  summary_id : string;
  summary_type : string;
  summary_description : string;
  dependencies_count : nat;
  dependents_count : nat;
  summary_created_at : stamp
}.

Definition summary (e : CodeElement) : ElementSummary :=
  mkElementSummary (id e) (type e) (description e) (length (dependencies e))
    (length (dependents e)) (created_at e).

Inductive ListResult : Type :=
| ListEmpty (message : string)
| ListSuccess (elements : list ElementSummary) (total : nat).

(** [a < b] on two [str]: lexicographic on the code points. *)
Definition str_lt (a b : string) : bool := String.ltb a b.

(** [sorted(elements, key=lambda x: x.id)].  Python's sort is stable and
    compares keys with [<] only; a stable sort has one possible result,
    which this insertion computes: an element goes in front of the first
    one already placed whose id is not smaller than its own. *)
Fixpoint insert_by_id (x : CodeElement) (l : list CodeElement) : list CodeElement :=
  match l with
  | [] => [x]
  | y :: l' => if str_lt (id y) (id x) then y :: insert_by_id x l' else x :: l
  end.

Definition sorted_by_id (l : list CodeElement) : list CodeElement :=
  foldr insert_by_id [] l.

Definition list_all_elements (w : World) : ListResult :=
  let elems := get_all_elements w in
  match elems with
  | [] => ListEmpty "Knowledge tree is empty"
  | _ => ListSuccess (map summary (sorted_by_id elems)) (length elems)
  end.

(** * Vocabulary of the properties *)

(** Every file holds the record of the id it is named after.  [save_element]
    writes a record under its own id, so the tools keep this. *)
Definition store_wf (m : gmap string CodeElement) : Prop :=
  map_Forall (fun k e => id e = k) m.

(** An element without its time stamps. *)
Definition unstamped (e : CodeElement) : CodeElement := with_stamps e Unset Unset.

(** What a reader sees under a key, stamps apart. *)
Definition view (w : World) (k : string) : option CodeElement :=
  unstamped <$> files w !! k.

(** [dep_element.dependents.append(element_id)] under its guard. *)
Definition gain (element_id : string) (e : CodeElement) : CodeElement :=
  if mem element_id (dependents e) then e
  else with_dependents e (dependents e ++ [element_id]).

(** The record [add_code_element] builds before saving it. *)
Definition new_element (element_id element_type code_arg description_arg : string)
    (dependencies_arg : deps_arg) (source_file_arg line_range_arg : string)
    : CodeElement :=
  mkCodeElement element_id element_type (strip code_arg) description_arg
    (add_deps_list dependencies_arg) [] (or_None source_file_arg)
    (or_None line_range_arg) Unset Unset.

(** A dependency has a record while the dependents pass of an add runs:
    the new element itself, or a record that was there before. *)
Definition resolves (element_id : string) (w : World) (d : string) : Prop :=
  d = element_id \/ is_Some (files w !! d).

#[global] Instance resolves_dec x w d : Decision (resolves x w d).
Proof. unfold resolves. apply _. Defined.

(** [r] is listed among the referencers of the missing id [d]. *)
Definition has_referencer (md : gmap string (list Referencer)) (d : string)
    (r : Referencer) : Prop :=
  exists refs, md !! d = Some refs /\ r ∈ refs.

(** A knowledge tree that has just been initialised, with no clock
    reading taken yet. *)
Definition empty_world : World := mkWorld ∅ None 0.

(** [add_code_element(i, "function", "pass", i, ds)] *)
Definition added (i : string) (ds : list string) (w : World) : World :=
  (add_code_element i "function" "pass" i (DepsList ds) "" "" w).2.

(** Call depth that is enough for a traversal entered at [depth]: one call
    per level down to [max_depth], and the call that finds the bound
    passed. *)
Definition enough_fuel (max_depth : Z) (depth : nat) : nat :=
  Z.to_nat (max_depth + 1 - Z.of_nat depth) + 1.

(** The cycle a→b→a. *)
Definition cycle_world : World := added "b" ["a"] (added "a" ["b"] empty_world).

(** The cycle again, under a root [r] that depends on [a] and on [c],
    where [c] depends on [a] too. *)
Definition shared_world : World :=
  added "r" ["a"; "c"] (added "c" ["a"] cycle_world).

(** An orphan has no dependencies and no dependents. *)
Definition orphan (e : CodeElement) : Prop :=
  dependencies e = [] /\ dependents e = [].

#[global] Instance orphan_dec e : Decision (orphan e).
Proof. unfold orphan. apply _. Defined.

(** The number of orphans of the store. *)
Definition orphan_count (w : World) : nat :=
  length (filter orphan (get_all_elements w)).

(** One edge per entry of a dependency list. *)
Definition dependency_edges (w : World) : nat :=
  sum_list_with (fun e => length (dependencies e)) (get_all_elements w).

(** A missing id is a listed dependency that has no record. *)
Definition missing_ids (w : World) : gset string :=
  list_to_set
    (filter (fun d => files w !! d = None)
       (flat_map dependencies (get_all_elements w))).

(** [float(k)] for a count [k]. *)
Definition count_float (k : nat) : float :=
  PrimFloat.of_uint63 (Uint63.of_Z (Z.of_nat k)).

(** [k] is the integer nearest to [n / d], and the even one of the two
    nearest when [n / d] lies half-way between them; [d] is positive. *)
Definition nearest_even (n d k : Z) : Prop :=
  (2 * Z.abs (n - k * d) <= d)%Z
  /\ ((2 * Z.abs (n - k * d) = d)%Z -> Z.even k = true).

(** [r] is [x] at [ndigits] decimals: for a finite [x] other than zero,
    whose magnitude is [m * 2 ^ e], there is a [k] nearest to
    [m * 2 ^ e * 10 ^ ndigits], ties to even, and [r] is the quotient of
    [k] by [10 ^ ndigits] in binary64, with the sign of [x]; any other
    [x] is its own rounding. *)
Definition rounds_to (x : float) (ndigits : Z) (r : float) : Prop :=
  match Prim2SF x with
  | S754_finite s m e =>
      exists k : Z,
        nearest_even (Z.pos m * 2 ^ Z.max 0 e * 10 ^ ndigits) (2 ^ Z.max 0 (- e)) k
        /\ (0 <= k)%Z
        /\ r = (let q := PrimFloat.div (PrimFloat.of_uint63 (Uint63.of_Z k))
                          (PrimFloat.of_uint63 (Uint63.of_Z (10 ^ ndigits))) in
                if s then PrimFloat.opp q else q)
  | _ => r = x
  end.

(** The score before the floor and the rounding:
    100 − (orphans / elements)·20 − (missing / max(edges, 1))·30. *)
Definition raw_health (n_elements orphans missing edges : nat) : float :=
  (100 - count_float orphans / count_float n_elements * 20
   - count_float missing / count_float (Nat.max edges 1) * 30)%float.

(** The floor: the score itself when it is above 0, and 0 otherwise. *)
Definition floored (s : float) : float :=
  if PrimFloat.ltb 0 s then s else 0%float.

(** The sign bit of a number is not set (NaN apart). *)
Definition not_negative (x : float) : Prop :=
  match Prim2SF x with
  | S754_zero s | S754_infinity s | S754_finite s _ _ => s = false
  | S754_nan => True
  end.

(** Three elements, one of them with a dangling dependency, the other two
    orphans. *)
Definition stats_world : World :=
  added "p" [] (added "o" [] (added "a" ["ghost"] empty_world)).

(** Reciprocity of a store: between any two records, one lists the other
    as a dependency exactly when the other lists it as a dependent.  A
    dependency without a record is not constrained. *)
Definition reciprocal (m : gmap string CodeElement) : Prop :=
  forall a b ea eb,
    m !! a = Some ea -> m !! b = Some eb ->
    (b ∈ dependencies ea <-> a ∈ dependents eb).

(** [old_dep_element.dependents.remove(element_id)] under its guard. *)
Definition lose (element_id : string) (e : CodeElement) : CodeElement :=
  if mem element_id (dependents e)
  then with_dependents e (remove_first element_id (dependents e))
  else e.

(** How many turns of the clean-up loop reach the record [k]: once per
    occurrence of [k] among the original dependencies, when [k] is not a
    new dependency. *)
Definition dropped (original_deps new_deps : list string) (k : string) : nat :=
  length (filter (fun d => d = k /\ d ∉ new_deps) original_deps).

(** What one turn of the scan does to the object it holds: the first
    occurrence of the id leaves each of the two lists. *)
Definition scrub (element_id : string) (e : CodeElement) : CodeElement :=
  let e1 :=
    if mem element_id (dependencies e)
    then with_dependencies e (remove_first element_id (dependencies e)) else e in
  if mem element_id (dependents e1)
  then with_dependents e1 (remove_first element_id (dependents e1)) else e1.

(** The turn writes the object back. *)
Definition touched (element_id : string) (e : CodeElement) : Prop :=
  id e <> element_id /\ (element_id ∈ dependencies e \/ element_id ∈ dependents e).

#[global] Instance touched_dec x e : Decision (touched x e).
Proof. unfold touched. apply _. Defined.

(** The metadata file exists and its count is the number of element
    files. *)
Definition meta_counted (w : World) : Prop :=
  exists m, metadata w = Some m /\ total_elements m = size (files w).

(** Every record carries a creation stamp, as every record that
    [save_element] has written does. *)
Definition stamped (m : gmap string CodeElement) : Prop :=
  map_Forall (fun _ e => created_at e <> Unset) m.

(** The creation stamp filed under a key. *)
Definition born (w : World) (k : string) : option stamp :=
  created_at <$> files w !! k.

(** [w'] is a well-formed, stamped store with the creation stamps of [w]. *)
Definition same_births (w w' : World) : Prop :=
  store_wf (files w') /\ stamped (files w') /\ forall k, born w' k = born w k.

(** The referencer entries that the scan files under [d]: one per
    occurrence of [d] in the dependency list of each checked element, in
    the order of the scan. *)
Definition references (d : string) (elems : list CodeElement) : list Referencer :=
  flat_map (fun e => (fun _ => referencer e) <$> filter (fun d' => d' = d) (dependencies e))
    elems.

(** Entries appended to what a key holds; no entry leaves the key as it
    is. *)
Definition app_refs (o : option (list Referencer)) (l : list Referencer)
    : option (list Referencer) :=
  match l with
  | [] => o
  | _ => Some (default [] o ++ l)
  end.
(** The elements [find_missing_dependencies] checks: the one named, or
    all of them when no id is given. *)
Definition checked_scope (element_id : string) (w : World) : list CodeElement :=
  if truthy element_id
  then match files w !! element_id with Some e => [e] | None => [] end
  else get_all_elements w.

(** No record mentions the id, in either list. *)
Definition unmentioned (x : string) (m : gmap string CodeElement) : Prop :=
  forall k e, m !! k = Some e -> (x ∉ dependencies e) /\ (x ∉ dependents e).

(** The number of bytes of a string in UTF-8: one for a character below
    128, two for the others. *)
Definition utf8_length (s : string) : nat :=
  sum_list_with (fun c => if (nat_of_ascii c <? 128)%nat then 1 else 2)
    (list_ascii_of_string s).

(** The longest name a file may have, in bytes. *)
Definition NAME_MAX : nat := 255.

(** A plain id names a file of the elements directory:
    [ELEMENTS_DIR / f"{element_id}.json"] is the file [<id>.json] of that
    directory, [exists] and [open] accept it, and [Path.stem] gives the
    id back from its name.  Such an id holds a character other than the
    dot (the stem of [.json] is [.json], and a name of dots with that
    suffix is its own stem in the versions of [pathlib] that split names
    as [os.path.splitext] does), holds no ['/'] (a path into another
    directory) and no NUL, and the name it gives fits [NAME_MAX] bytes.
    These are the ids the repository above describes: on them no call of
    a tool raises, so that the [except] clauses of the tools are not
    reached. *)
Definition plain_id (s : string) : Prop :=
  Exists (fun c => c <> "."%char) (list_ascii_of_string s)
  /\ ("/"%char ∉ list_ascii_of_string s)
  /\ ("000"%char ∉ list_ascii_of_string s)
  /\ utf8_length s + 5 <= NAME_MAX.

#[global] Instance plain_id_dec s : Decision (plain_id s).
Proof. unfold plain_id. apply _. Defined.

(** A plain store: every file is named after a plain id and holds the
    record of that id, and every dependency a record lists is a plain
    id.  The tools keep a store plain when they are given plain ids. *)
Definition plain_store (m : gmap string CodeElement) : Prop :=
  map_Forall (fun k e => id e = k /\ plain_id k /\ Forall plain_id (dependencies e)) m.

(** A consistent store: every file holds the record of its id, no
    dependents list names an id twice or an id without a record, and the
    store is reciprocal. *)
Definition consistent (m : gmap string CodeElement) : Prop :=
  store_wf m
  /\ (forall k e, m !! k = Some e -> NoDup (dependents e))
  /\ (forall k e a, m !! k = Some e -> a ∈ dependents e -> is_Some (m !! a))
  /\ reciprocal m.

(** The same three conditions on the lists, read through a lookup. *)
Definition consistent_lists (look : string -> option CodeElement) : Prop :=
  (forall k e, look k = Some e -> NoDup (dependents e))
  /\ (forall k e a, look k = Some e -> a ∈ dependents e -> is_Some (look a))
  /\ (forall a b ea eb, look a = Some ea -> look b = Some eb ->
        (b ∈ dependencies ea <-> a ∈ dependents eb)).

(** The line the traversal prints for an id at a depth. *)
Definition line_of (all_elements : gmap string CodeElement) (depth : nat)
    (element_id : string) : string :=
  match all_elements !! element_id with
  | Some element => element_line depth element
  | None => missing_line depth element_id
  end.

(** A line printed at a depth between [lo] and [max_depth], for an id
    outside [visited]. *)
Definition tree_line (all_elements : gmap string CodeElement) (lo : nat)
    (max_depth : Z) (visited : gset string) (line : string) : Prop :=
  exists d k, lo <= d /\ (Z.of_nat d <= max_depth)%Z /\ (k ∉ visited)
              /\ line = line_of all_elements d k.

(** * Properties *)

(** ** The repository *)

Lemma save_element_files e w :
  files (save_element e w).2 = <[id e := (save_element e w).1]> (files w).
Proof.
  unfold save_element, ensure_knowledge_base, update_metadata, now.
  destruct w as [m [md|] c]; reflexivity.
Qed.

Lemma save_element_unstamped e w : unstamped (save_element e w).1 = unstamped e.
Proof.
  unfold save_element, ensure_knowledge_base, now.
  destruct w as [m [md|] c]; reflexivity.
Qed.

Lemma save_element_id e w : id (save_element e w).1 = id e.
Proof. apply (f_equal id (save_element_unstamped e w)). Qed.

Lemma save_element_wf e w :
  store_wf (files w) -> store_wf (files (save_element e w).2).
Proof.
  intros Hwf. rewrite save_element_files.
  apply map_Forall_insert_2; [apply save_element_id | exact Hwf].
Qed.

Lemma view_save e w k :
  view (save_element e w).2 k =
  if decide (k = id e) then Some (unstamped e) else view w k.
Proof.
  unfold view. rewrite save_element_files.
  destruct (decide (k = id e)) as [->|Hne].
  - rewrite lookup_insert_eq, <- (save_element_unstamped e w). reflexivity.
  - by rewrite lookup_insert_ne.
Qed.

Lemma view_is_Some w k : is_Some (view w k) <-> is_Some (files w !! k).
Proof. unfold view. by rewrite fmap_is_Some. Qed.

Lemma view_None w k : view w k = None <-> files w !! k = None.
Proof. unfold view. by rewrite fmap_None. Qed.

Lemma unstamped_gain x e : unstamped (gain x e) = gain x (unstamped e).
Proof. unfold gain. simpl. by destruct (mem x (dependents e)). Qed.

Lemma gain_gain x e : gain x (gain x e) = gain x e.
Proof.
  unfold gain. destruct (mem x (dependents e)) eqn:E; [by rewrite E|].
  simpl. unfold mem. rewrite bool_decide_true; [done | set_solver].
Qed.

Lemma gain_id x e : id (gain x e) = id e.
Proof. unfold gain. by destruct (mem x (dependents e)). Qed.

Lemma gain_dependencies x e : dependencies (gain x e) = dependencies e.
Proof. unfold gain. by destruct (mem x (dependents e)). Qed.

Lemma store_wf_lookup m k e : store_wf m -> m !! k = Some e -> id e = k.
Proof. intros Hwf Hk. exact (Hwf k e Hk). Qed.

(** ** The dependents pass *)

Lemma link_step_spec x ex mi w d :
  store_wf (files w) ->
  exists w',
    link_step x (ex, mi, w) d =
      (if bool_decide (is_Some (files w !! d)) then (ex ++ [d], mi, w')
       else (ex, mi ++ [d], w'))
    /\ store_wf (files w')
    /\ forall k, view w' k =
         (if decide (k = d) then gain x else fun e => e) <$> view w k.
Proof.
  intros Hwf. unfold link_step, load_element.
  destruct (files w !! d) as [e|] eqn:Hd.
  - rewrite bool_decide_true by eauto.
    pose proof (store_wf_lookup _ _ _ Hwf Hd) as Hid.
    destruct (mem x (dependents e)) eqn:Hm.
    + exists w. split; [done|]. split; [done|]. intros k.
      destruct (decide (k = d)) as [->|]; [|by rewrite option_fmap_id].
      unfold view. rewrite Hd. simpl. rewrite <- unstamped_gain.
      unfold gain. by rewrite Hm.
    + eexists. split; [reflexivity|]. split; [by apply save_element_wf|].
      intros k. rewrite view_save. simpl. rewrite Hid.
      destruct (decide (k = d)) as [->|]; [|by rewrite option_fmap_id].
      unfold view. rewrite Hd. simpl. rewrite <- unstamped_gain.
      unfold gain. by rewrite Hm.
  - rewrite bool_decide_false by (intros [? ?]; congruence).
    exists w. split; [done|]. split; [done|]. intros k.
    destruct (decide (k = d)) as [->|]; [|by rewrite option_fmap_id].
    unfold view. by rewrite Hd.
Qed.

Lemma link_fold_spec x deps : forall ex mi w,
  store_wf (files w) ->
  exists w',
    foldl (link_step x) (ex, mi, w) deps =
      (ex ++ filter (fun d => is_Some (files w !! d)) deps,
       mi ++ filter (fun d => ~ is_Some (files w !! d)) deps, w')
    /\ store_wf (files w')
    /\ forall k, view w' k =
         (if bool_decide (k ∈ deps) then gain x else fun e => e) <$> view w k.
Proof.
  induction deps as [|d deps IH]; intros ex mi w Hwf.
  - exists w. simpl. rewrite !app_nil_r. split; [done|]. split; [done|].
    intros k. by rewrite option_fmap_id.
  - destruct (link_step_spec x ex mi w d Hwf) as (w1 & Hstep & Hwf1 & Hview1).
    assert (Hdom : forall k, is_Some (files w1 !! k) <-> is_Some (files w !! k)).
    { intros k. rewrite <- !view_is_Some, Hview1. apply fmap_is_Some. }
    change (foldl (link_step x) (ex, mi, w) (d :: deps))
      with (foldl (link_step x) (link_step x (ex, mi, w) d) deps).
    rewrite Hstep.
    assert (Hfilt : forall (l : list string),
      filter (fun d => is_Some (files w1 !! d)) l = filter (fun d => is_Some (files w !! d)) l
      /\ filter (fun d => ~ is_Some (files w1 !! d)) l
         = filter (fun d => ~ is_Some (files w !! d)) l).
    { intros l. split; apply list_filter_iff; intros k; by rewrite Hdom. }
    assert (Hview : forall w', (forall k, view w' k =
         (if bool_decide (k ∈ deps) then gain x else fun e => e) <$> view w1 k) ->
       forall k, view w' k =
         (if bool_decide (k ∈ d :: deps) then gain x else fun e => e) <$> view w k).
    { intros w' Hw' k. rewrite Hw', Hview1, <- option_fmap_compose.
      apply option_fmap_ext. intros e. simpl.
      destruct (decide (k = d)) as [->|Hne].
      - rewrite (bool_decide_true (d ∈ d :: deps)) by (rewrite elem_of_cons; tauto).
        destruct (bool_decide (d ∈ deps)); [apply gain_gain | done].
      - destruct (bool_decide_reflect (k ∈ deps)) as [Hin|Hin].
        + rewrite bool_decide_true by (rewrite elem_of_cons; tauto). done.
        + rewrite bool_decide_false by (rewrite elem_of_cons; tauto). done. }
    case_bool_decide as Hd.
    + destruct (IH (ex ++ [d]) mi w1 Hwf1) as (w' & Hfold & Hwf' & Hview').
      exists w'. rewrite Hfold. destruct (Hfilt deps) as [-> ->].
      rewrite !filter_cons. destruct (decide _); [|done].
      destruct (decide _); [done|]. rewrite <- app_assoc. simpl. eauto.
    + destruct (IH ex (mi ++ [d]) w1 Hwf1) as (w' & Hfold & Hwf' & Hview').
      exists w'. rewrite Hfold. destruct (Hfilt deps) as [-> ->].
      rewrite !filter_cons. destruct (decide _); [done|].
      destruct (decide _); [|done]. rewrite <- app_assoc. simpl. eauto.
Qed.

(** The pass, as a whole: the existing/missing split is taken against the
    store the pass starts from, records keep everything but gain the id
    among their dependents, and no record appears or disappears. *)
Lemma link_dependents_spec x deps w :
  store_wf (files w) ->
  exists w',
    link_dependents x deps w =
      (filter (fun d => is_Some (files w !! d)) deps,
       filter (fun d => ~ is_Some (files w !! d)) deps, w')
    /\ store_wf (files w')
    /\ forall k, view w' k =
         (if bool_decide (k ∈ deps) then gain x else fun e => e) <$> view w k.
Proof. intros Hwf. apply (link_fold_spec x deps [] [] w Hwf). Qed.

(** ** add_code_element *)

Lemma add_code_element_fresh x ty c ds deps sf lr w :
  store_wf (files w) ->
  files w !! x = None ->
  exists stamp0 w',
    add_code_element x ty c ds deps sf lr w =
      (AddSuccess ("Successfully added " +:+ ty +:+ " '" +:+ x +:+ "'")
         (mkAddedElement x ty ds (add_deps_list deps) stamp0)
         (mkDependencyAnalysis (length (add_deps_list deps))
            (filter (resolves x w) (add_deps_list deps))
            (filter (fun d => ~ resolves x w d) (add_deps_list deps))
            (length (filter (fun d => ~ resolves x w d) (add_deps_list deps)))), w')
    /\ store_wf (files w')
    /\ forall k, view w' k =
         (if bool_decide (k ∈ add_deps_list deps) then gain x else fun e => e) <$>
           (if decide (k = x) then Some (new_element x ty c ds deps sf lr)
            else view w k).
Proof.
  intros Hwf Hfresh. unfold add_code_element, load_element. rewrite Hfresh.
  fold (new_element x ty c ds deps sf lr).
  set (e0 := new_element x ty c ds deps sf lr).
  destruct (save_element e0 w) as [e1 w1] eqn:Hsave.
  assert (Hw1 : w1 = (save_element e0 w).2) by (by rewrite Hsave).
  assert (He1 : e1 = (save_element e0 w).1) by (by rewrite Hsave).
  assert (Hwf1 : store_wf (files w1)) by (subst w1; by apply save_element_wf).
  destruct (link_dependents_spec x (add_deps_list deps) w1 Hwf1)
    as (w2 & Hlink & Hwf2 & Hview2).
  rewrite Hlink.
  assert (Hres : forall d, is_Some (files w1 !! d) <-> resolves x w d).
  { intros d. rewrite Hw1, save_element_files. unfold resolves.
    destruct (decide (d = x)) as [->|Hne].
    - rewrite lookup_insert_eq. split; eauto.
    - rewrite lookup_insert_ne by done. split; [eauto | intros [?|?]; done]. }
  assert (Hun : unstamped e1 = e0) by (subst e1; apply save_element_unstamped).
  exists (created_at e1), w2.
  rewrite (list_filter_iff _ (resolves x w)) by apply Hres.
  rewrite (list_filter_iff (fun d => ~ is_Some (files w1 !! d))
             (fun d => ~ resolves x w d)) by (intros d; by rewrite Hres).
  change (id e1) with (id (unstamped e1)).
  change (type e1) with (type (unstamped e1)).
  change (description e1) with (description (unstamped e1)).
  change (dependencies e1) with (dependencies (unstamped e1)).
  rewrite Hun.
  split; [reflexivity|]. split; [done|].
  intros k. rewrite Hview2. f_equal. subst w1. rewrite view_save.
  reflexivity.
Qed.

(** ** Listing the store *)

Lemma get_all_elements_values w : get_all_elements w = (map_to_list (files w)).*2.
Proof.
  unfold get_all_elements, load_element.
  assert (Hall : Forall (fun kv => files w !! kv.1 = Some kv.2) (map_to_list (files w))).
  { apply Forall_forall. intros [k e] Hin. by apply elem_of_map_to_list. }
  revert Hall. generalize (map_to_list (files w)).
  induction l as [|[k e] l IH]; intros Hall; [done|].
  apply Forall_cons in Hall as [Hk Hall].
  cbn [omap list_omap fmap list_fmap]. rewrite Hk.
  f_equal. by apply IH.
Qed.

Lemma elem_of_get_all_elements w e :
  e ∈ get_all_elements w <-> exists k, files w !! k = Some e.
Proof.
  rewrite get_all_elements_values, list_elem_of_fmap. split.
  - intros ([k e'] & -> & Hin). exists k. by apply elem_of_map_to_list.
  - intros [k Hk]. exists (k, e). split; [done|]. by apply elem_of_map_to_list.
Qed.

Lemma length_get_all_elements w : length (get_all_elements w) = size (files w).
Proof.
  rewrite get_all_elements_values, length_fmap. apply length_map_to_list.
Qed.

Lemma all_element_ids_dom w :
  store_wf (files w) -> all_element_ids w = dom (files w).
Proof.
  intros Hwf. apply set_eq. intros x. unfold all_element_ids.
  rewrite elem_of_list_to_set, elem_of_dom.
  change (map id (get_all_elements w)) with (id <$> get_all_elements w).
  rewrite list_elem_of_fmap. split.
  - intros (e & -> & He). apply elem_of_get_all_elements in He as [k Hk].
    rewrite (store_wf_lookup _ _ _ Hwf Hk). eauto.
  - intros [e He]. exists e. split.
    + symmetry. by apply (store_wf_lookup _ _ _ Hwf He).
    + apply elem_of_get_all_elements. eauto.
Qed.

(** ** find_missing_dependencies *)

Lemma missing_step_keeps ids e md d' d r :
  has_referencer md d r -> has_referencer (missing_step ids e md d') d r.
Proof.
  intros (refs & Hd & Hr). unfold missing_step.
  case_bool_decide; [by exists refs|].
  destruct (decide (d' = d)) as [->|Hne].
  - rewrite Hd. eexists. rewrite lookup_insert_eq. split; [done|].
    simpl. apply elem_of_app. by left.
  - exists refs. by rewrite lookup_insert_ne.
Qed.

Lemma missing_step_adds ids e md d :
  d ∉ ids -> has_referencer (missing_step ids e md d) d (referencer e).
Proof.
  intros Hd. unfold missing_step. rewrite bool_decide_false by done.
  eexists. rewrite lookup_insert_eq. split; [done|].
  apply elem_of_app. right. apply list_elem_of_singleton. done.
Qed.

Lemma missing_inner_keeps ids e deps : forall md d r,
  has_referencer md d r ->
  has_referencer (foldl (missing_step ids e) md deps) d r.
Proof.
  induction deps as [|d' deps IH]; intros md d r Hr; [done|].
  simpl. apply IH. by apply missing_step_keeps.
Qed.

Lemma missing_inner_adds ids e deps : forall md d,
  d ∈ deps -> d ∉ ids ->
  has_referencer (foldl (missing_step ids e) md deps) d (referencer e).
Proof.
  induction deps as [|d' deps IH]; intros md d Hin Hd.
  - by apply elem_of_nil in Hin.
  - simpl. apply elem_of_cons in Hin as [->|Hin].
    + apply missing_inner_keeps. by apply missing_step_adds.
    + by apply IH.
Qed.

Lemma missing_outer_adds ids elems : forall md e d,
  e ∈ elems -> d ∈ dependencies e -> d ∉ ids ->
  has_referencer
    (foldl (fun md element => foldl (missing_step ids element) md (dependencies element))
       md elems) d (referencer e).
Proof.
  induction elems as [|e' elems IH]; intros md e d He Hin Hd.
  - by apply elem_of_nil in He.
  - simpl. apply elem_of_cons in He as [->|He].
    + clear IH. generalize (missing_inner_adds ids e' (dependencies e') md d Hin Hd).
      generalize (foldl (missing_step ids e') md (dependencies e')).
      induction elems as [|e'' elems IH]; intros md' Hr; [done|].
      simpl. apply IH. by apply missing_inner_keeps.
    + by apply IH.
Qed.

(** Every dangling dependency of a checked element is reported with that
    element among its referencers. *)
Lemma missing_scan_reports ids elems e d :
  e ∈ elems -> d ∈ dependencies e -> d ∉ ids ->
  has_referencer (missing_scan ids elems) d (referencer e).
Proof. apply missing_outer_adds. Qed.

Lemma find_missing_reports x w e d :
  store_wf (files w) ->
  files w !! x = Some e ->
  d ∈ dependencies e ->
  files w !! d = None ->
  exists md n m,
    find_missing_dependencies x w = MissingSuccess md n m
    /\ n = size md
    /\ has_referencer md d (referencer e).
Proof.
  intros Hwf Hx Hin Hd. unfold find_missing_dependencies, load_element.
  rewrite Hx.
  assert (Hids : d ∉ all_element_ids w).
  { rewrite all_element_ids_dom by done. by apply not_elem_of_dom. }
  destruct (truthy x).
  - eexists _, _, _. split; [reflexivity|]. split; [reflexivity|].
    apply missing_scan_reports; [apply list_elem_of_singleton|..]; done.
  - eexists _, _, _. split; [reflexivity|]. split; [reflexivity|].
    apply missing_scan_reports; [|done..].
    apply elem_of_get_all_elements. eauto.
Qed.

Lemma store_wf_decide (m : gmap string CodeElement) :
  bool_decide (store_wf m) = true -> store_wf m.
Proof. apply bool_decide_eq_true_1. Qed.

(** ** Plain stores *)

Lemma plain_store_wf m : plain_store m -> store_wf m.
Proof. intros Hp k e He. by destruct (Hp k e He). Qed.

Lemma plain_store_decide (m : gmap string CodeElement) :
  bool_decide (plain_store m) = true -> plain_store m.
Proof. apply bool_decide_eq_true_1. Qed.

Lemma plain_id_decide (s : string) : bool_decide (plain_id s) = true -> plain_id s.
Proof. apply bool_decide_eq_true_1. Qed.

Lemma plain_ids_decide (l : list string) :
  bool_decide (Forall plain_id l) = true -> Forall plain_id l.
Proof. apply bool_decide_eq_true_1. Qed.

Lemma plain_store_empty : plain_store (files empty_world).
Proof. apply map_Forall_empty. Qed.

(** ** Claims about add_code_element *)

(** C2: a second [add_code_element] with an id that already has a record
    returns the unsuccessful already-exists result, and the world it
    returns is the world it was given: every record (the first one for
    that id with its code, description, dependencies, dependents and
    stamps), the metadata and the clock are untouched. *)
Theorem add_existing_id_fails x ty c ds deps sf lr w existing :
  load_element x w = Some existing ->
  add_code_element x ty c ds deps sf lr w =
    (AddAlreadyExists
       ("Element '" +:+ x +:+ "' already exists. Use update_code_element to modify it.")
       (element_ref existing), w)
  /\ add_success (add_code_element x ty c ds deps sf lr w).1 = false
  /\ (add_code_element x ty c ds deps sf lr w).2 = w
  /\ load_element x (add_code_element x ty c ds deps sf lr w).2 = Some existing.
Proof.
  intros Hx. unfold add_code_element. rewrite Hx. simpl. done.
Qed.

Lemma add_existing_id_fails_witness :
  let w := added "x" ["y"] empty_world in
  let first := mkCodeElement "x" "function" "pass" "x" ["y"] [] None None (At 2) (At 2) in
  load_element "x" w = Some first
  /\ add_success (add_code_element "x" "module" "other" "again" (DepsList []) "f.py" "1-2" w).1
     = false
  /\ (add_code_element "x" "module" "other" "again" (DepsList []) "f.py" "1-2" w).2 = w.
Proof.
  assert (H : load_element "x" (added "x" ["y"] empty_world)
              = Some (mkCodeElement "x" "function" "pass" "x" ["y"] [] None None
                        (At 2) (At 2))) by (vm_compute; reflexivity).
  split; [exact H|].
  destruct (add_existing_id_fails "x" "module" "other" "again" (DepsList []) "f.py" "1-2"
              _ _ H) as (_ & Hfail & Hsame & _).
  split; [exact Hfail | exact Hsame].
Defined.

(** C10: for a fresh id that lists itself among its dependencies,
    [add_code_element] succeeds and the stored record has the id in its
    dependencies and as its only dependent; the dependents pass files the
    id under existing, not under missing.  The store is plain, and so are
    the id and the dependencies given. *)
Theorem add_self_dependency x ty c ds deps sf lr w :
  plain_store (files w) ->
  plain_id x ->
  Forall plain_id (add_deps_list deps) ->
  files w !! x = None ->
  x ∈ add_deps_list deps ->
  exists message el an e,
    add_code_element x ty c ds deps sf lr w = (AddSuccess message el an,
      (add_code_element x ty c ds deps sf lr w).2)
    /\ x ∈ existing_dependencies an
    /\ (x ∉ missing_dependencies an)
    /\ files (add_code_element x ty c ds deps sf lr w).2 !! x = Some e
    /\ id e = x
    /\ dependencies e = add_deps_list deps
    /\ x ∈ dependencies e
    /\ dependents e = [x].
Proof.
  intros Hplain%plain_store_wf _ _ Hfresh Hin. rename Hplain into Hwf.
  destruct (add_code_element_fresh x ty c ds deps sf lr w Hwf Hfresh)
    as (st & w' & Hadd & Hwf' & Hview).
  rewrite Hadd. simpl.
  pose proof (Hview x) as Hx.
  rewrite bool_decide_true in Hx by done.
  rewrite decide_True in Hx by done.
  unfold view in Hx. destruct (files w' !! x) as [e|] eqn:He; [|done].
  apply (inj Some) in Hx.
  assert (Hid : id e = x).
  { change (id e) with (id (unstamped e)). by rewrite Hx. }
  assert (Hdeps : dependencies e = add_deps_list deps).
  { change (dependencies e) with (dependencies (unstamped e)). by rewrite Hx. }
  assert (Hdependents : dependents e = [x]).
  { change (dependents e) with (dependents (unstamped e)). by rewrite Hx. }
  eexists _, _, _, e. split; [reflexivity|]. simpl.
  repeat split; try done.
  - apply list_elem_of_filter. split; [by left | done].
  - intros Hm. apply list_elem_of_filter in Hm as [Hn _]. apply Hn. by left.
  - by rewrite Hdeps.
Qed.

Lemma add_self_dependency_witness :
  exists message el an e,
    add_code_element "x" "function" "pass" "loop" (DepsList ["y"; "x"]) "" "" empty_world
      = (AddSuccess message el an,
         (add_code_element "x" "function" "pass" "loop" (DepsList ["y"; "x"]) "" ""
            empty_world).2)
    /\ "x" ∈ existing_dependencies an
    /\ ("x" ∉ missing_dependencies an)
    /\ files (add_code_element "x" "function" "pass" "loop" (DepsList ["y"; "x"]) "" ""
                empty_world).2 !! "x" = Some e
    /\ id e = "x"
    /\ dependencies e = ["y"; "x"]
    /\ "x" ∈ dependencies e
    /\ dependents e = ["x"].
Proof.
  apply (add_self_dependency "x" "function" "pass" "loop" (DepsList ["y"; "x"]) "" ""
           empty_world).
  - apply plain_store_empty.
  - apply plain_id_decide. vm_compute. reflexivity.
  - apply plain_ids_decide. vm_compute. reflexivity.
  - vm_compute. reflexivity.
  - simpl. apply list_elem_of_further, list_elem_of_here.
Defined.

(** C8, as stated, at a fresh id that lists itself: the add succeeds but
    the stored record does not have empty dependents. *)
Lemma add_dangling_dependents_not_always_empty :
  let r := add_code_element "x" "function" "pass" "loop" (DepsList ["x"; "ghost"]) "" ""
             empty_world in
  files empty_world !! "x" = None
  /\ add_success r.1 = true
  /\ dependents <$> files r.2 !! "x" = Some ["x"]
  /\ dependents <$> files r.2 !! "x" <> Some [].
Proof. vm_compute. repeat split; congruence. Qed.

(** C8, amended: for every fresh plain id, on a plain store and with
    plain ids for dependencies, [add_code_element] succeeds whether
    or not the listed dependencies have records; the stored record keeps
    the full dependency list, dangling ids included, and its dependents
    are empty unless the id is among its own dependencies, in which case
    they are the id alone; the result splits the dependencies, in order,
    into those with a record and those without; and
    [find_missing_dependencies] for that id then reports every dangling
    one with this element among its referencers. *)
Theorem add_with_dangling_dependencies x ty c ds deps sf lr w :
  plain_store (files w) ->
  plain_id x ->
  Forall plain_id (add_deps_list deps) ->
  files w !! x = None ->
  exists message el an e,
    add_code_element x ty c ds deps sf lr w = (AddSuccess message el an,
      (add_code_element x ty c ds deps sf lr w).2)
    /\ files (add_code_element x ty c ds deps sf lr w).2 !! x = Some e
    /\ dependencies e = add_deps_list deps
    /\ dependents e = (if mem x (add_deps_list deps) then [x] else [])
    /\ existing_dependencies an = filter (resolves x w) (add_deps_list deps)
    /\ missing_dependencies an = filter (fun d => ~ resolves x w d) (add_deps_list deps)
    /\ existing_dependencies an ++ missing_dependencies an ≡ₚ add_deps_list deps
    /\ (forall d, d ∈ add_deps_list deps ->
          (files (add_code_element x ty c ds deps sf lr w).2 !! d = None
           <-> d ∈ missing_dependencies an))
    /\ forall d, d ∈ missing_dependencies an ->
         exists md n m,
           find_missing_dependencies x (add_code_element x ty c ds deps sf lr w).2
             = MissingSuccess md n m
           /\ has_referencer md d (mkReferencer x ty ds).
Proof.
  intros Hplain%plain_store_wf _ _ Hfresh. rename Hplain into Hwf.
  destruct (add_code_element_fresh x ty c ds deps sf lr w Hwf Hfresh)
    as (st & w' & Hadd & Hwf' & Hview).
  rewrite Hadd. simpl.
  pose proof (Hview x) as Hx. rewrite decide_True in Hx by done.
  unfold view in Hx. destruct (files w' !! x) as [e|] eqn:He;
    [|by destruct (bool_decide _)].
  assert (Hun : unstamped e =
                (if bool_decide (x ∈ add_deps_list deps) then gain x else fun e => e)
                  (new_element x ty c ds deps sf lr)).
  { apply (inj Some). exact Hx. }
  assert (Hdeps : dependencies e = add_deps_list deps).
  { change (dependencies e) with (dependencies (unstamped e)). rewrite Hun.
    by destruct (bool_decide _). }
  assert (Hdependents : dependents e = if mem x (add_deps_list deps) then [x] else []).
  { change (dependents e) with (dependents (unstamped e)). rewrite Hun.
    unfold mem. by destruct (bool_decide _). }
  assert (Href : referencer e = mkReferencer x ty ds).
  { change (referencer e) with (referencer (unstamped e)). rewrite Hun.
    by destruct (bool_decide _). }
  assert (Hnone : forall d, files w' !! d = None <-> ~ resolves x w d).
  { intros d. rewrite <- view_None, Hview. unfold resolves.
    destruct (decide (d = x)) as [->|Hne].
    - split; [by destruct (bool_decide _) | intros Hn; destruct Hn; by left].
    - rewrite fmap_None, view_None. split.
      + intros Hd [?|[? ?]]; congruence.
      + intros Hn. destruct (files w !! d) eqn:E; [|done].
        destruct Hn. right. eauto. }
  eexists _, _, _, e. split; [reflexivity|]. simpl.
  split; [done|]. split; [done|]. split; [done|]. split; [done|]. split; [done|].
  split; [apply filter_app_complement|]. split.
  - intros d Hd. rewrite Hnone, list_elem_of_filter. tauto.
  - intros d Hd. apply list_elem_of_filter in Hd as [Hn Hd].
    destruct (find_missing_reports x w' e d) as (md & n & m & Hfind & _ & Hr);
      [done | done | by rewrite Hdeps | by apply Hnone |].
    exists md, n, m. split; [done|]. by rewrite <- Href.
Qed.

Lemma add_with_dangling_dependencies_witness :
  exists message el an e,
    add_code_element "a" "function" "pass" "A" (DepsList ["ghost"]) "" "" empty_world
      = (AddSuccess message el an,
         (add_code_element "a" "function" "pass" "A" (DepsList ["ghost"]) "" ""
            empty_world).2)
    /\ files (add_code_element "a" "function" "pass" "A" (DepsList ["ghost"]) "" ""
                empty_world).2 !! "a" = Some e
    /\ dependencies e = ["ghost"]
    /\ dependents e = (if mem "a" ["ghost"] then ["a"] else [])
    /\ existing_dependencies an = filter (resolves "a" empty_world) ["ghost"]
    /\ missing_dependencies an
       = filter (fun d => ~ resolves "a" empty_world d) ["ghost"]
    /\ existing_dependencies an ++ missing_dependencies an ≡ₚ ["ghost"]
    /\ (forall d, d ∈ ["ghost"] ->
          (files (add_code_element "a" "function" "pass" "A" (DepsList ["ghost"]) "" ""
                    empty_world).2 !! d = None
           <-> d ∈ missing_dependencies an))
    /\ forall d, d ∈ missing_dependencies an ->
         exists md n m,
           find_missing_dependencies "a"
             (add_code_element "a" "function" "pass" "A" (DepsList ["ghost"]) "" ""
                empty_world).2 = MissingSuccess md n m
           /\ has_referencer md d (mkReferencer "a" "function" "A").
Proof.
  apply (add_with_dangling_dependencies "a" "function" "pass" "A" (DepsList ["ghost"])
           "" "" empty_world).
  - apply plain_store_empty.
  - apply plain_id_decide. vm_compute. reflexivity.
  - apply plain_ids_decide. vm_compute. reflexivity.
  - vm_compute. reflexivity.
Defined.

(** ** Claims about get_knowledge_tree_view *)

Lemma index_by_id_fold (l : list (string * CodeElement)) :
  forall m : gmap string CodeElement,
  Forall (fun kv => id kv.2 = kv.1) l ->
  foldl (fun m e => <[id e := e]> m) m (l.*2) = foldl (fun m kv => <[kv.1 := kv.2]> m) m l.
Proof.
  induction l as [|[k e] l IH]; intros m Hall; [done|].
  apply Forall_cons in Hall as [Hk Hall]. simpl in *. rewrite Hk. by apply IH.
Qed.

Lemma insert_fold_lookup (l : list (string * CodeElement)) :
  forall (m : gmap string CodeElement) (k : string),
  NoDup (l.*1) ->
  foldl (fun m kv => <[kv.1 := kv.2]> m) m l !! k =
    match list_to_map (M := gmap string CodeElement) l !! k with
    | Some e => Some e
    | None => m !! k
    end.
Proof.
  induction l as [|[k' e] l IH]; intros m k Hnd; [done|].
  apply NoDup_cons in Hnd as [Hk' Hnd]. simpl. rewrite IH by done.
  destruct (decide (k = k')) as [->|Hne].
  - rewrite lookup_insert_eq.
    rewrite (not_elem_of_list_to_map_1 l k') by done.
    by rewrite lookup_insert_eq.
  - rewrite !(lookup_insert_ne _ k' k) by done. done.
Qed.

(** On a well-formed store the dictionary [all_elements] is the store. *)
Lemma index_by_id_files w :
  store_wf (files w) -> index_by_id (get_all_elements w) = files w.
Proof.
  intros Hwf. unfold index_by_id. rewrite get_all_elements_values.
  rewrite index_by_id_fold.
  - apply map_eq. intros k. rewrite insert_fold_lookup by apply NoDup_fst_map_to_list.
    rewrite list_to_map_to_list, lookup_empty. by destruct (files w !! k).
  - apply Forall_forall. intros [k e] Hin. apply elem_of_map_to_list in Hin.
    by apply (store_wf_lookup _ _ _ Hwf).
Qed.

(** C4, as stated, on the empty store: the absent root is not reported,
    the view succeeds with the empty-tree message. *)
Lemma tree_view_empty_store_succeeds :
  files empty_world !! "ghost" = None
  /\ get_knowledge_tree_view (F := float) 5 "ghost" 3 empty_world
     = Some (TreeEmpty "Knowledge tree is empty" "" 0)
  /\ tree_success (F := float) (TreeEmpty "Knowledge tree is empty" "" 0) = true.
Proof. vm_compute. repeat split; reflexivity. Qed.

(** C4, amended: on every plain store with at least one record, a root
    id that is not the empty string and has no record makes
    [get_knowledge_tree_view] return the unsuccessful not-found result,
    whatever the depth bound.  (The empty string is the default of the
    parameter and means that no root was given; in a plain store no
    record is filed under the empty id, which is the one record that
    the listing of the directory passes over.) *)
Theorem tree_view_absent_root {F : Type} `{PyNumber F} fuel root max_depth w :
  plain_store (files w) ->
  files w <> ∅ ->
  root <> "" ->
  files w !! root = None ->
  get_knowledge_tree_view (F := F) fuel root max_depth w
    = Some (TreeNotFound ("Root element '" +:+ root +:+ "' not found"))
  /\ tree_success (F := F) (TreeNotFound ("Root element '" +:+ root +:+ "' not found"))
     = false.
Proof.
  intros Hwf%plain_store_wf Hne Hroot Hnone. split; [|done].
  unfold get_knowledge_tree_view. rewrite index_by_id_files by done.
  rewrite decide_False by done.
  destruct root as [|a root]; [done|]. cbn [truthy]. by rewrite Hnone.
Qed.

Lemma tree_view_absent_root_witness :
  get_knowledge_tree_view (F := float) 0 "ghost" 3 (added "a" ["ghost"] empty_world)
    = Some (TreeNotFound ("Root element '" +:+ "ghost" +:+ "' not found"))
  /\ tree_success (F := float)
       (TreeNotFound ("Root element '" +:+ "ghost" +:+ "' not found")) = false.
Proof.
  apply (tree_view_absent_root (F := float) 0 "ghost" 3 (added "a" ["ghost"] empty_world)).
  - apply plain_store_decide. vm_compute. reflexivity.
  - intros Hempty. apply (f_equal (fun m => m !! "a")) in Hempty.
    vm_compute in Hempty. discriminate Hempty.
  - discriminate.
  - vm_compute. reflexivity.
Defined.

Lemma build_tree_total all_elements max_depth : forall fuel element_id depth visited,
  enough_fuel max_depth depth <= fuel ->
  is_Some (build_tree_recursive fuel all_elements max_depth element_id depth visited).
Proof.
  unfold enough_fuel.
  induction fuel as [|fuel IH]; intros element_id depth visited Hfuel; [lia|].
  cbn [build_tree_recursive].
  destruct (Z.gtb_spec (Z.of_nat depth) max_depth) as [Hgt|Hle]; [by eexists|].
  destruct (bool_decide (element_id ∈ visited)); [by eexists|]. cbn [orb].
  destruct (all_elements !! element_id) as [element|]; [|by eexists].
  assert (Hbelow : is_Some
    (mapM (fun dep_id => build_tree_recursive fuel all_elements max_depth dep_id
                           (S depth) ({[element_id]} ∪ visited))
       (dependencies element))).
  { apply mapM_is_Some, Forall_forall. intros dep_id _. apply IH. lia. }
  destruct Hbelow as [below ->]. by eexists.
Qed.

(** Fuel beyond what a run needs does not change what it returns. *)
Lemma build_tree_fuel_mono all_elements max_depth : forall fuel fuel' element_id depth visited lines,
  fuel <= fuel' ->
  build_tree_recursive fuel all_elements max_depth element_id depth visited = Some lines ->
  build_tree_recursive fuel' all_elements max_depth element_id depth visited = Some lines.
Proof.
  induction fuel as [|fuel IH]; intros fuel' element_id depth visited lines Hle Hrun;
    [done|].
  destruct fuel' as [|fuel']; [lia|].
  cbn [build_tree_recursive] in *.
  destruct ((Z.of_nat depth >? max_depth)%Z || bool_decide (element_id ∈ visited));
    [done|].
  destruct (all_elements !! element_id) as [element|]; [|done].
  destruct (mapM _ (dependencies element)) as [below|] eqn:Hbelow in Hrun; [|done].
  assert (Hbelow' :
    mapM (fun dep_id => build_tree_recursive fuel' all_elements max_depth dep_id
                          (S depth) ({[element_id]} ∪ visited))
      (dependencies element) = Some below).
  { apply mapM_Some. apply mapM_Some in Hbelow.
    eapply Forall2_impl; [exact Hbelow|]. intros dep_id ls Hls. simpl in *.
    apply (IH fuel'); [lia | done]. }
  by rewrite Hbelow'.
Qed.

Lemma tree_view_total {F : Type} `{PyNumber F} fuel root max_depth w :
  enough_fuel max_depth 0 <= fuel ->
  is_Some (get_knowledge_tree_view (F := F) fuel root max_depth w).
Proof.
  intros Hfuel. unfold get_knowledge_tree_view.
  destruct (decide _); [by eexists|].
  destruct (truthy root).
  - destruct (_ !! root); [|by eexists].
    destruct (build_tree_total (index_by_id (get_all_elements w)) max_depth fuel
                root 0 ∅ Hfuel) as [lines ->]. by eexists.
  - match goal with |- context [mapM ?f ?l] =>
      assert (Hall : is_Some (mapM f l)) end.
    { apply mapM_is_Some, Forall_forall. intros element _. simpl.
      apply fmap_is_Some. by apply build_tree_total. }
    destruct Hall as [trees ->]. by eexists.
Qed.

(** C5: the traversal of [get_knowledge_tree_view] terminates on every
    store, cyclic or not, and for every depth bound: a call depth of
    [enough_fuel], which depends on the bound alone, always yields a
    result, for the nested function and for the tool.  A call returns no
    lines as soon as its depth exceeds [max_depth] or its id is already in
    [visited]; otherwise every dependency is traversed with the same set
    [{[element_id]} ∪ visited], so what one sibling visits is not seen by
    the next.  On the cycle a→b→a with bound 10 the root is not repeated
    below [b]; where [a] is also a dependency of the sibling [c] it is
    rendered again under [c]. *)
Theorem tree_traversal_terminates :
  (forall all_elements max_depth fuel element_id depth visited,
     enough_fuel max_depth depth <= fuel ->
     is_Some (build_tree_recursive fuel all_elements max_depth element_id depth visited))
  /\ (forall (F : Type) (N : PyNumber F) fuel root max_depth w,
        enough_fuel max_depth 0 <= fuel ->
        is_Some (get_knowledge_tree_view (F := F) fuel root max_depth w))
  /\ (forall all_elements max_depth fuel element_id depth visited,
        (max_depth < Z.of_nat depth)%Z ->
        build_tree_recursive (S fuel) all_elements max_depth element_id depth visited
          = Some [])
  /\ (forall all_elements max_depth fuel element_id depth visited,
        element_id ∈ visited ->
        build_tree_recursive (S fuel) all_elements max_depth element_id depth visited
          = Some [])
  /\ (forall all_elements max_depth fuel element_id depth visited element,
        (Z.of_nat depth <= max_depth)%Z ->
        element_id ∉ visited ->
        all_elements !! element_id = Some element ->
        build_tree_recursive (S fuel) all_elements max_depth element_id depth visited
          = (fun below => element_line depth element :: concat below) <$>
              mapM (fun dep_id =>
                      build_tree_recursive fuel all_elements max_depth dep_id (S depth)
                        ({[element_id]} ∪ visited))
                   (dependencies element))
  /\ build_tree_recursive (enough_fuel 10 0) (files cycle_world) 10 "a" 0 ∅
     = Some ["a [function] - a"; "  ├── b [function] - b"]
  /\ build_tree_recursive (enough_fuel 10 0) (files shared_world) 10 "r" 0 ∅
     = Some ["r [function] - r"; "  ├── a [function] - a";
             "    ├── b [function] - b"; "  ├── c [function] - c";
             "    ├── a [function] - a"; "      ├── b [function] - b"].
Proof.
  split; [intros; by apply build_tree_total|].
  split; [intros; by apply tree_view_total|].
  split.
  { intros all_elements max_depth fuel element_id depth visited Hgt.
    cbn [build_tree_recursive].
    destruct (Z.gtb_spec (Z.of_nat depth) max_depth); [done | lia]. }
  split.
  { intros all_elements max_depth fuel element_id depth visited Hin.
    cbn [build_tree_recursive]. rewrite (bool_decide_true _ Hin).
    by rewrite orb_true_r. }
  split.
  { intros all_elements max_depth fuel element_id depth visited element Hle Hout Hel.
    cbn [build_tree_recursive].
    destruct (Z.gtb_spec (Z.of_nat depth) max_depth); [lia|].
    rewrite (bool_decide_false _ Hout), Hel. cbn [orb].
    by destruct (mapM _ _). }
  split; vm_compute; reflexivity.
Qed.

(** ** Claims about get_knowledge_tree_stats *)

Lemma add_missing_fold ids deps : forall acc : gset string,
  foldl (add_missing ids) acc deps
  = acc ∪ list_to_set (filter (fun d => d ∉ ids) deps).
Proof.
  induction deps as [|d deps IH]; intros acc.
  - simpl. by rewrite union_empty_r_L.
  - simpl. rewrite IH. unfold add_missing. rewrite filter_cons.
    case_bool_decide as Hd.
    + rewrite decide_False by (intros Hn; by apply Hn). done.
    + rewrite decide_True by done. simpl.
      by rewrite (union_comm_L {[d]} acc), union_assoc_L.
Qed.

Lemma stats_fold ids elems : forall c,
  c_total_deps (foldl (stats_step ids) c elems)
    = c_total_deps c + sum_list_with (fun e => length (dependencies e)) elems
  /\ c_orphaned (foldl (stats_step ids) c elems)
     = c_orphaned c + length (filter orphan elems)
  /\ c_missing_deps (foldl (stats_step ids) c elems)
     = c_missing_deps c
       ∪ list_to_set (filter (fun d => d ∉ ids) (flat_map dependencies elems)).
Proof.
  induction elems as [|e elems IH]; intros c.
  - simpl. split; [lia|]. split; [lia|]. by rewrite union_empty_r_L.
  - simpl foldl. destruct (IH (stats_step ids c e)) as (-> & -> & ->).
    cbn [stats_step c_total_deps c_orphaned c_missing_deps sum_list_with flat_map].
    rewrite add_missing_fold, filter_cons, filter_app, list_to_set_app_L.
    split; [lia|]. split; [|by rewrite union_assoc_L].
    destruct (decide (orphan e)) as [[Hd Hp]|Hn].
    + rewrite Hd, Hp. simpl. lia.
    + assert (Hb : (length (dependencies e) =? 0)%nat
                   && (length (dependents e) =? 0)%nat = false).
      { destruct (dependencies e) eqn:E1, (dependents e) eqn:E2; try done.
        destruct Hn. by split. }
      rewrite Hb. lia.
Qed.

(** The numbers of the statistics, whatever the arithmetic. *)
Lemma stats_numbers {F : Type} `{PyNumber F} w :
  store_wf (files w) ->
  files w <> ∅ ->
  exists stats,
    get_knowledge_tree_stats (F := F) w = StatsSuccess stats
    /\ stats_total_elements stats = size (files w)
    /\ stats_total_dependencies (dependency_stats stats) = dependency_edges w
    /\ health_orphaned_elements (health_metrics stats) = orphan_count w
    /\ health_missing_dependencies (health_metrics stats) = size (missing_ids w)
    /\ avg_dependencies_per_element (dependency_stats stats)
       = round (truediv (Z.of_nat (dependency_edges w)) (Z.of_nat (size (files w)))) 2
    /\ overall_health_score (health_metrics stats)
       = round (health_score (size (files w)) (orphan_count w) (size (missing_ids w))
                  (dependency_edges w)) 1.
Proof.
  intros Hwf Hne. unfold get_knowledge_tree_stats.
  pose proof (length_get_all_elements w) as Hlen.
  assert (Hpos : 0 < size (files w)).
  { apply map_size_non_empty_iff in Hne. lia. }
  remember (get_all_elements w) as l eqn:Hl.
  destruct l as [|e0 elems]; [simpl in Hlen; lia|].
  cbv beta iota zeta. rewrite Hl in *. clear Hl e0 elems.
  destruct (stats_fold (list_to_set (map id (get_all_elements w)))
              (get_all_elements w) Counters0) as (Htot & Horph & Hmiss).
  set (c := foldl _ Counters0 (get_all_elements w)) in *.
  fold (all_element_ids w) in Hmiss.
  assert (Hmissing : c_missing_deps c = missing_ids w).
  { rewrite Hmiss. unfold missing_ids. simpl. rewrite union_empty_l_L.
    f_equal. apply list_filter_iff. intros d.
    rewrite all_element_ids_dom by done. apply not_elem_of_dom. }
  assert (Hedges : c_total_deps c = dependency_edges w) by (rewrite Htot; done).
  assert (Horphans : c_orphaned c = orphan_count w) by (rewrite Horph; done).
  eexists. split; [reflexivity|]. cbn [stats_total_elements dependency_stats
    health_metrics stats_total_dependencies health_orphaned_elements
    health_missing_dependencies avg_dependencies_per_element overall_health_score].
  rewrite Hlen, Hmissing, Hedges, Horphans.
  split; [done|]. split; [done|]. split; [done|]. split; [done|].
  destruct (Nat.ltb_spec 0 (size (files w))); [|lia]. done.
Qed.

(** *** Rounding in binary64 *)

Lemma half_even_nearest n d : (0 < d)%Z -> nearest_even n d (half_even n d).
Proof.
  intros Hd. unfold nearest_even, half_even.
  pose proof (Z.div_mod n d ltac:(lia)) as Hdiv.
  pose proof (Z.mod_pos_bound n d Hd) as Hmod.
  set (q := (n / d)%Z) in *. set (r := (n mod d)%Z) in *.
  assert (H0 : (n - q * d = r)%Z) by lia.
  assert (H1 : (n - (q + 1) * d = r - d)%Z) by lia.
  destruct (Z.compare_spec (2 * r) d) as [Heq|Hlt|Hgt].
  - destruct (Z.even q) eqn:Hq.
    + rewrite H0. split; [lia | done].
    + rewrite H1. split; [lia|]. intros _.
      replace (q + 1)%Z with (Z.succ q) by lia.
      by rewrite Z.even_succ, <- Z.negb_even, Hq.
  - rewrite H0. split; lia.
  - rewrite H1. split; lia.
Qed.

Lemma half_even_nonneg n d : (0 <= n)%Z -> (0 < d)%Z -> (0 <= half_even n d)%Z.
Proof.
  intros Hn Hd. unfold half_even.
  pose proof (Z.div_pos n d Hn Hd).
  destruct (_ ?= _)%Z; [destruct (Z.even _)|..]; lia.
Qed.

Lemma float_of_Z_nonneg z :
  (0 <= z)%Z -> float_of_Z z = PrimFloat.of_uint63 (Uint63.of_Z z).
Proof. intros Hz. unfold float_of_Z. by destruct (Z.ltb_spec z 0); [lia|]. Qed.

Lemma float_of_Z_count k : float_of_Z (Z.of_nat k) = count_float k.
Proof. apply float_of_Z_nonneg. lia. Qed.

Lemma round_float_rounds x ndigits : rounds_to x ndigits (round_float x ndigits).
Proof.
  unfold rounds_to, round_float.
  destruct (Prim2SF x) as [s|s| |s m e]; try done. cbv zeta.
  assert (Hd : (0 < 2 ^ Z.max 0 (- e))%Z) by (apply Z.pow_pos_nonneg; lia).
  assert (Hn : (0 <= Z.pos m * 2 ^ Z.max 0 e * 10 ^ ndigits)%Z).
  { apply Z.mul_nonneg_nonneg; [apply Z.mul_nonneg_nonneg|]; try lia;
      apply Z.pow_nonneg; lia. }
  eexists. split; [by apply half_even_nearest|].
  split; [by apply half_even_nonneg|].
  rewrite !float_of_Z_nonneg; [done | apply Z.pow_nonneg; lia | by apply half_even_nonneg].
Qed.

(** *** Signs in binary64 *)

Lemma binary_round_aux_sign sx mx ex lx :
  match binary_round_aux prec emax sx mx ex lx with
  | S754_zero s | S754_infinity s | S754_finite s _ _ => s = sx
  | S754_nan => True
  end.
Proof.
  unfold binary_round_aux.
  destruct (shr_fexp prec emax mx ex lx) as [mrs' e'].
  destruct (shr_fexp prec emax _ e' loc_Exact) as [mrs'' e''].
  destruct (shr_m mrs''); [done| |done]. by destruct (Z.leb _ _).
Qed.

Lemma not_negative_of_uint63 n : not_negative (PrimFloat.of_uint63 n).
Proof.
  unfold not_negative. rewrite of_uint63_spec.
  pose proof (Uint63.to_Z_bounded n) as Hn.
  unfold binary_normalize. destruct (Uint63.to_Z n) as [|p|p]; [done| |lia].
  unfold binary_round. destruct (shl_align _ _ _) as [mz ez].
  apply binary_round_aux_sign.
Qed.

Lemma not_negative_div a b :
  not_negative a -> not_negative b -> not_negative (PrimFloat.div a b).
Proof.
  unfold not_negative. rewrite FloatAxioms.div_spec. unfold SF64div, SFdiv.
  destruct (Prim2SF a) as [sa|sa| |sa ma ea], (Prim2SF b) as [sb|sb| |sb mb eb];
    intros Ha Hb; subst; try done.
  destruct (SFdiv_core_binary _ _ _ _ _ _) as [[mz ez] lz].
  apply binary_round_aux_sign.
Qed.

Lemma not_negative_floored s : not_negative (floored s).
Proof.
  unfold floored. destruct (PrimFloat.ltb 0 s) eqn:Hlt; [|done].
  rewrite FloatAxioms.ltb_spec in Hlt. unfold SFltb in Hlt.
  change (Prim2SF 0) with (S754_zero false) in Hlt.
  unfold not_negative. destruct (Prim2SF s) as [z|[]| |[] m e]; done.
Qed.

Lemma not_negative_ltb r : not_negative r -> PrimFloat.ltb r 0 = false.
Proof.
  unfold not_negative. rewrite FloatAxioms.ltb_spec. unfold SFltb.
  change (Prim2SF 0) with (S754_zero false).
  destruct (Prim2SF r) as [z|z| |z m e]; intros Hr; subst; done.
Qed.

Lemma rounds_to_not_negative x ndigits r :
  not_negative x -> rounds_to x ndigits r -> not_negative r.
Proof.
  unfold rounds_to. intros Hx. pose proof Hx as Hx'. unfold not_negative in Hx'.
  destruct (Prim2SF x) as [s|s| |s m e] eqn:Hsf; try (by intros ->).
  intros (k & _ & _ & ->). subst s. cbv zeta.
  apply not_negative_div; apply not_negative_of_uint63.
Qed.

(** C7: on every plain store with at least one record, whose counts are
    exact in binary64, [get_knowledge_tree_stats] succeeds and counts the
    elements, the dependency edges, the orphans (no dependencies and no
    dependents) and the missing ids (listed dependencies without a
    record).  The average it returns is the quotient of the edges by the
    elements at 2 decimals: the decimal whose hundredths are the integer
    nearest to 100 times that quotient, ties to even.  The health score
    is 100 − (orphans / elements)·20 − (missing / max(edges, 1))·30,
    replaced by 0 unless it is above 0, at 1 decimal in the same sense,
    and it is never below 0. *)
Theorem stats_average_and_health w :
  plain_store (files w) ->
  files w <> ∅ ->
  (Z.of_nat (size (files w)) < 2 ^ 53)%Z ->
  (Z.of_nat (dependency_edges w) < 2 ^ 46)%Z ->
  exists stats,
    get_knowledge_tree_stats (F := float) w = StatsSuccess stats
    /\ stats_total_elements stats = size (files w)
    /\ stats_total_dependencies (dependency_stats stats) = dependency_edges w
    /\ health_orphaned_elements (health_metrics stats) = orphan_count w
    /\ health_missing_dependencies (health_metrics stats) = size (missing_ids w)
    /\ rounds_to
         (PrimFloat.div (count_float (dependency_edges w)) (count_float (size (files w))))
         2 (avg_dependencies_per_element (dependency_stats stats))
    /\ rounds_to
         (floored (raw_health (size (files w)) (orphan_count w) (size (missing_ids w))
                     (dependency_edges w)))
         1 (overall_health_score (health_metrics stats))
    /\ PrimFloat.ltb (overall_health_score (health_metrics stats)) 0 = false.
Proof.
  intros Hwf%plain_store_wf Hne _ _.
  destruct (stats_numbers (F := float) w Hwf Hne)
    as (stats & Hrun & Hn & Hedges & Horph & Hmiss & Havg & Hhealth).
  assert (Hpos : 0 < size (files w)).
  { apply map_size_non_empty_iff in Hne. lia. }
  assert (Hscore : health_score (F := float) (size (files w)) (orphan_count w)
                     (size (missing_ids w)) (dependency_edges w)
                   = floored (raw_health (size (files w)) (orphan_count w)
                                (size (missing_ids w)) (dependency_edges w))).
  { unfold health_score. destruct (Nat.ltb_spec 0 (size (files w))); [|lia].
    cbn [of_int truediv mul sub pymax float_number]. cbv zeta.
    by rewrite !float_of_Z_count. }
  assert (Hround : rounds_to
                     (floored (raw_health (size (files w)) (orphan_count w)
                                 (size (missing_ids w)) (dependency_edges w)))
                     1 (overall_health_score (health_metrics stats))).
  { rewrite Hhealth, Hscore. apply round_float_rounds. }
  exists stats. split; [done|]. split; [done|]. split; [done|]. split; [done|].
  split; [done|]. split; [|split; [done|]].
  - rewrite Havg. cbn [truediv round float_number]. rewrite !float_of_Z_count.
    apply round_float_rounds.
  - apply not_negative_ltb.
    apply (rounds_to_not_negative _ 1 _ (not_negative_floored _) Hround).
Qed.

Lemma stats_average_and_health_witness :
  exists stats,
    get_knowledge_tree_stats (F := float) stats_world = StatsSuccess stats
    /\ stats_total_elements stats = 3
    /\ stats_total_dependencies (dependency_stats stats) = 1
    /\ health_orphaned_elements (health_metrics stats) = 2
    /\ health_missing_dependencies (health_metrics stats) = 1
    /\ avg_dependencies_per_element (dependency_stats stats)
       = 0x1.51eb851eb851fp-2%float
    /\ overall_health_score (health_metrics stats) = 0x1.c59999999999ap+5%float
    /\ rounds_to (PrimFloat.div (count_float 1) (count_float 3)) 2
         (avg_dependencies_per_element (dependency_stats stats))
    /\ rounds_to (floored (raw_health 3 2 1 1)) 1
         (overall_health_score (health_metrics stats))
    /\ PrimFloat.ltb (overall_health_score (health_metrics stats)) 0 = false.
Proof.
  assert (Hplain : plain_store (files stats_world))
    by (apply plain_store_decide; vm_compute; reflexivity).
  assert (Hne : files stats_world <> ∅).
  { intros Hempty. apply (f_equal (fun m => m !! "a")) in Hempty.
    vm_compute in Hempty. discriminate Hempty. }
  assert (Hsize : size (files stats_world) = 3) by (vm_compute; reflexivity).
  assert (Hedges : dependency_edges stats_world = 1) by (vm_compute; reflexivity).
  assert (Horph : orphan_count stats_world = 2) by (vm_compute; reflexivity).
  assert (Hmiss : size (missing_ids stats_world) = 1) by (vm_compute; reflexivity).
  destruct (stats_average_and_health stats_world Hplain Hne)
    as (stats & Hrun & H1 & H2 & H3 & H4 & H5 & H6 & H7).
  - rewrite Hsize. vm_compute. reflexivity.
  - rewrite Hedges. vm_compute. reflexivity.
  - rewrite Hsize, Hedges, Horph, Hmiss in *.
    exists stats. split; [exact Hrun|].
    assert (Hval : avg_dependencies_per_element (dependency_stats stats)
                   = 0x1.51eb851eb851fp-2%float
                   /\ overall_health_score (health_metrics stats)
                      = 0x1.c59999999999ap+5%float).
    { vm_compute in Hrun. injection Hrun as <-. split; reflexivity. }
    destruct Hval as [Ha Hh].
    split; [done|]. split; [done|]. split; [done|]. split; [done|].
    split; [exact Ha|]. split; [exact Hh|]. split; [done|]. split; done.
Defined.

(** The rounding on some numbers: 0.075 is stored below 7.5 hundredths
    and goes to 0.07, 0.125 is exact and goes to the even 0.12, 0.135 is
    stored above 13.5 hundredths and goes to 0.14, and −0.001 goes to a
    negative zero (the floats are written in hexadecimal). *)
Example round_float_examples :
  round_float 0x1.3333333333333p-4%float 2 = 0x1.1eb851eb851ecp-4%float
  /\ round_float 0.125%float 2 = 0x1.eb851eb851eb8p-4%float
  /\ round_float 0x1.147ae147ae148p-3%float 2 = 0x1.1eb851eb851ecp-3%float
  /\ Prim2SF (round_float (-0x1.0624dd2f1a9fcp-10)%float 2) = S754_zero true.
Proof. vm_compute. repeat split; reflexivity. Qed.

(** ** Evaluations where the code and a claim differ *)

(** C1 at [add_code_element("a", deps=["x"])] followed by
    [add_code_element("x")]: the store is reciprocal before the second
    add, the second add succeeds, and afterwards [a] lists [x], [x] has a
    record, and [a] is not among the dependents of [x]. *)
Theorem add_leaves_earlier_referencers_out :
  let w := added "a" ["x"] empty_world in
  let r := add_code_element "x" "function" "pass" "x" (DepsList []) "" "" w in
  reciprocal (files w)
  /\ add_success r.1 = true
  /\ dependencies <$> files r.2 !! "a" = Some ["x"]
  /\ dependents <$> files r.2 !! "x" = Some []
  /\ ~ reciprocal (files r.2).
Proof.
  cbv zeta.
  assert (Ha : files (added "a" ["x"] empty_world)
               = {[ "a" := mkCodeElement "a" "function" "pass" "a" ["x"] [] None None
                             (At 2) (At 2) ]}).
  { apply map_eq. intros k. vm_compute files.
    destruct (decide (k = "a")) as [->|Hne].
    - rewrite lookup_singleton_eq. vm_compute. reflexivity.
    - rewrite lookup_singleton_ne by done. 
      change (GMap _) with (files (added "a" ["x"] empty_world)).
      unfold added. 
      destruct (add_code_element_fresh "a" "function" "pass" "a" (DepsList ["x"]) "" ""
                  empty_world) as (st & w' & Hadd & _ & Hview); [done | done |].
      rewrite Hadd. simpl. apply view_None. rewrite Hview.
      rewrite decide_False by done. unfold view. simpl.
      rewrite lookup_empty. by destruct (bool_decide _). }
  split.
  { rewrite Ha. intros a b ea eb Hea Heb.
    apply lookup_singleton_Some in Hea as [<- <-].
    apply lookup_singleton_Some in Heb as [<- <-]. simpl.
    split; [intros Hin | intros Hin; by apply elem_of_nil in Hin].
    apply list_elem_of_singleton in Hin. discriminate Hin. }
  split; [vm_compute; reflexivity|].
  split; [vm_compute; reflexivity|].
  split; [vm_compute; reflexivity|].
  intros Hrec.
  set (w2 := (add_code_element "x" "function" "pass" "x" (DepsList []) "" ""
                (added "a" ["x"] empty_world)).2) in *.
  assert (H1 : files w2 !! "a"
               = Some (mkCodeElement "a" "function" "pass" "a" ["x"] [] None None
                         (At 2) (At 2))) by (vm_compute; reflexivity).
  assert (H2 : files w2 !! "x"
               = Some (mkCodeElement "x" "function" "pass" "x" [] [] None None
                         (At 5) (At 5))) by (vm_compute; reflexivity).
  destruct (Hrec "a" "x" _ _ H1 H2) as [Hto _]. simpl in Hto.
  specialize (Hto (list_elem_of_here _ _)). by apply elem_of_nil in Hto.
Qed.

(** C3 at an element whose list holds an id twice: removing that id
    takes out one occurrence, so the id is still a dependency afterwards
    and the result is not the set difference. *)
Theorem edit_remove_leaves_duplicate :
  let w := added "e" ["x"; "x"; "y"] empty_world in
  let r := edit_dependencies "e" (DepsList ["x"]) "remove" w in
  dependencies <$> files w !! "e" = Some ["x"; "x"; "y"]
  /\ edit_success r.1 = true
  /\ dependencies <$> files r.2 !! "e" = Some ["x"; "y"]
  /\ filter (fun d => d ∉ ["x"]) ["x"; "x"; "y"] = ["y"].
Proof. vm_compute. repeat split; reflexivity. Qed.

(** C6 at an element [a] that lists [b] twice: after a successful
    [remove_element("b")] the record of [b] is gone, [get_element]
    reports it absent, and [a] still lists [b]. *)
Theorem remove_leaves_duplicate_reference :
  let w := added "b" [] (added "a" ["b"; "b"] empty_world) in
  let r := remove_element "b" w in
  dependencies <$> files w !! "a" = Some ["b"; "b"]
  /\ remove_success r.1 = true
  /\ get_success (get_element "b" r.2) = false
  /\ dependencies <$> files r.2 !! "a" = Some ["b"].
Proof. vm_compute. repeat split; reflexivity. Qed.

(** C9 at an element that is given itself as its only dependency:
    [update_code_element] stores the new list but the element is not among
    its own dependents afterwards, while [edit_dependencies] in replace
    mode, on the same store with the same list, puts it there. *)
Theorem update_drops_self_dependent :
  let w := added "x" [] empty_world in
  let u := update_code_element "x" "" "" (DepsList ["x"]) "" "" w in
  let e := edit_dependencies "x" (DepsList ["x"]) "replace" w in
  update_success u.1 = true
  /\ dependencies <$> files u.2 !! "x" = Some ["x"]
  /\ dependents <$> files u.2 !! "x" = Some []
  /\ edit_success e.1 = true
  /\ dependencies <$> files e.2 !! "x" = Some ["x"]
  /\ dependents <$> files e.2 !! "x" = Some ["x"].
Proof. vm_compute. repeat split; reflexivity. Qed.

(** ** The clean-up pass *)

Lemma unstamped_lose x e : unstamped (lose x e) = lose x (unstamped e).
Proof. unfold lose. simpl. by destruct (mem x (dependents e)). Qed.

Lemma lose_dependencies x e : dependencies (lose x e) = dependencies e.
Proof. unfold lose. by destruct (mem x (dependents e)). Qed.

Lemma unlink_step_spec x new w old :
  store_wf (files w) ->
  store_wf (files (unlink_step x new w old))
  /\ forall k, view (unlink_step x new w old) k =
       (if decide (old = k /\ old ∉ new) then lose x else fun e => e) <$> view w k.
Proof.
  intros Hwf. unfold unlink_step, mem, load_element.
  destruct (bool_decide_reflect (old ∈ new)) as [Hin|Hout].
  { split; [done|]. intros k. rewrite decide_False by tauto.
    by rewrite option_fmap_id. }
  destruct (files w !! old) as [e|] eqn:Hold.
  - pose proof (store_wf_lookup _ _ _ Hwf Hold) as Hid.
    destruct (bool_decide (x ∈ dependents e)) eqn:Hm.
    + split; [by apply save_element_wf|]. intros k. rewrite view_save. simpl.
      rewrite Hid. destruct (decide (k = old)) as [->|Hne].
      * rewrite decide_True by done. unfold view. rewrite Hold. simpl.
        rewrite <- unstamped_lose. unfold lose, mem. by rewrite Hm.
      * rewrite decide_False by (intros [? ?]; congruence).
        by rewrite option_fmap_id.
    + split; [done|]. intros k. destruct (decide _) as [[<- _]|];
        [|by rewrite option_fmap_id].
      unfold view. rewrite Hold. simpl. rewrite <- unstamped_lose.
      unfold lose, mem. by rewrite Hm.
  - split; [done|]. intros k. destruct (decide _) as [[<- _]|];
      [|by rewrite option_fmap_id].
    unfold view. by rewrite Hold.
Qed.

(** The pass, as a whole. *)
Lemma unlink_dependents_spec x new original : forall w,
  store_wf (files w) ->
  store_wf (files (unlink_dependents x original new w))
  /\ forall k, view (unlink_dependents x original new w) k =
       Nat.iter (dropped original new k) (lose x) <$> view w k.
Proof.
  unfold unlink_dependents.
  induction original as [|old original IH]; intros w Hwf.
  - split; [done|]. intros k. simpl. by rewrite option_fmap_id.
  - destruct (unlink_step_spec x new w old Hwf) as [Hwf1 Hview1].
    destruct (IH _ Hwf1) as [Hwf2 Hview2].
    split; [exact Hwf2|]. intros k. simpl foldl.
    rewrite Hview2, Hview1, <- option_fmap_compose.
    apply option_fmap_ext. intros e. simpl.
    unfold dropped. rewrite filter_cons.
    destruct (decide (old = k /\ old ∉ new)) as [Hd|Hd]; [|done].
    simpl length. by rewrite Nat.iter_succ_r.
Qed.

(** ** edit_dependencies *)

(** What a successful edit leaves in the store: the element with its new
    list, then the clean-up pass over the original list, then the
    dependents pass over the new one. *)
Lemma edit_dependencies_spec x deps op w e nd :
  store_wf (files w) ->
  files w !! x = Some e ->
  apply_operation op (dependencies e) (edit_deps_list deps) = Some nd ->
  exists existing_deps missing_deps w',
    edit_dependencies x deps op w =
      (EditSuccess ("Successfully " +:+ op +:+ "d dependencies for '" +:+ x +:+ "'")
         (element_ref e)
         (mkDependencyChanges op (dependencies e) nd existing_deps missing_deps
            (length missing_deps)), w')
    /\ store_wf (files w')
    /\ forall k, view w' k =
         (if bool_decide (k ∈ nd) then gain x else fun e => e) <$>
           (Nat.iter (dropped (dependencies e) nd k) (lose x) <$>
              (if decide (k = x) then Some (unstamped (with_dependencies e nd))
               else view w k)).
Proof.
  intros Hwf Hx Hop. unfold edit_dependencies, load_element. rewrite Hx, Hop.
  pose proof (store_wf_lookup _ _ _ Hwf Hx) as Hid.
  destruct (save_element (with_dependencies e nd) w) as [e1 w1] eqn:Hsave.
  assert (Hw1 : w1 = (save_element (with_dependencies e nd) w).2) by (by rewrite Hsave).
  assert (Hun : unstamped e1 = unstamped (with_dependencies e nd)).
  { replace e1 with (save_element (with_dependencies e nd) w).1 by (by rewrite Hsave).
    apply save_element_unstamped. }
  assert (Hwf1 : store_wf (files w1)) by (subst w1; by apply save_element_wf).
  assert (Hnd : dependencies e1 = nd).
  { change (dependencies e1) with (dependencies (unstamped e1)). by rewrite Hun. }
  assert (Href : element_ref e1 = element_ref e).
  { change (element_ref e1) with (element_ref (unstamped e1)). by rewrite Hun. }
  rewrite Hnd, Href.
  destruct (unlink_dependents_spec x nd (dependencies e) w1 Hwf1) as [Hwf2 Hview2].
  destruct (link_dependents_spec x nd _ Hwf2) as (w3 & Hlink & Hwf3 & Hview3).
  rewrite Hlink. eexists _, _, w3. split; [reflexivity|]. split; [done|].
  intros k. rewrite Hview3, Hview2. do 2 f_equal. subst w1. rewrite view_save.
  simpl. by rewrite Hid.
Qed.

(** The stored list after a successful edit is the list the operation
    computes. *)
Lemma edit_dependencies_stored x deps op w e nd :
  store_wf (files w) ->
  files w !! x = Some e ->
  apply_operation op (dependencies e) (edit_deps_list deps) = Some nd ->
  dependencies <$> files (edit_dependencies x deps op w).2 !! x = Some nd.
Proof.
  intros Hwf Hx Hop.
  destruct (edit_dependencies_spec x deps op w e nd Hwf Hx Hop)
    as (ex & mi & w' & -> & _ & Hview).
  simpl. specialize (Hview x). rewrite decide_True in Hview by done.
  unfold view in Hview. destruct (files w' !! x) as [e'|]; [|done].
  simpl in *. apply (inj Some) in Hview. f_equal.
  change (dependencies e') with (dependencies (unstamped e')). rewrite Hview.
  assert (Hiter : forall n e0, dependencies (Nat.iter n (lose x) e0) = dependencies e0).
  { induction n as [|n IH]; intros e0; [done|]. simpl. by rewrite lose_dependencies. }
  destruct (bool_decide _); [rewrite gain_dependencies|]; by rewrite Hiter.
Qed.

(** *** The three operations on lists *)

Lemma add_op_spec new : forall deps,
  exists fresh,
    add_op deps new = deps ++ fresh
    /\ (NoDup deps -> NoDup (deps ++ fresh))
    /\ NoDup fresh
    /\ sublist fresh new
    /\ forall d, d ∈ fresh <-> d ∈ new /\ d ∉ deps.
Proof.
  unfold add_op, mem. induction new as [|d new IH]; intros deps.
  - exists []. simpl. rewrite app_nil_r. split; [done|]. split; [done|].
    split; [constructor|]. split; [constructor|]. intros d.
    rewrite !elem_of_nil. tauto.
  - simpl. destruct (bool_decide_reflect (d ∈ deps)) as [Hin|Hout].
    + destruct (IH deps) as (fresh & -> & Hnd & Hfresh & Hsub & Hiff).
      exists fresh. split; [done|]. split; [done|]. split; [done|].
      split; [by apply sublist_cons|]. intros d'. rewrite Hiff, elem_of_cons.
      split; [tauto|]. intros [[->|?] ?]; tauto.
    + destruct (IH (deps ++ [d])) as (fresh & -> & Hnd & Hfresh & Hsub & Hiff).
      exists (d :: fresh). rewrite <- app_assoc. split; [done|].
      assert (Hd : d ∉ fresh).
      { intros Hd. apply Hiff in Hd as [_ Hd]. apply Hd, elem_of_app. right.
        by apply list_elem_of_singleton. }
      split.
      { intros Hdeps. rewrite <- app_assoc in Hnd. apply Hnd.
        apply NoDup_app. split; [done|]. split; [|apply NoDup_singleton].
        intros y Hy Hy'. apply list_elem_of_singleton in Hy'. by subst. }
      split; [by apply NoDup_cons|]. split; [by apply sublist_skip|].
      intros d'. rewrite !elem_of_cons, Hiff, elem_of_app, list_elem_of_singleton.
      destruct (decide (d' = d)) as [->|Hne]; [tauto|]. tauto.
Qed.

Lemma remove_first_elem_of x y l : y ∈ remove_first x l -> y ∈ l.
Proof.
  induction l as [|z l IH]; simpl; [done|].
  destruct (decide (x = z)); rewrite ?elem_of_cons; tauto.
Qed.

Lemma remove_first_NoDup x l : NoDup l -> NoDup (remove_first x l).
Proof.
  induction 1 as [|z l Hz Hnd IH]; simpl; [constructor|].
  destruct (decide (x = z)); [done|]. apply NoDup_cons. split; [|done].
  intros Hin. by apply remove_first_elem_of in Hin.
Qed.

Lemma filter_all (P : string -> Prop) `{forall d, Decision (P d)} (l : list string) :
  Forall P l -> filter P l = l.
Proof.
  induction 1 as [|d l Hd Hl IH]; [done|].
  rewrite filter_cons, decide_True by done. by rewrite IH.
Qed.

Lemma remove_first_filter x l :
  NoDup l -> remove_first x l = filter (fun d => d <> x) l.
Proof.
  induction 1 as [|z l Hz Hnd IH]; simpl; [done|]. rewrite filter_cons.
  destruct (decide (x = z)) as [->|Hne].
  - rewrite decide_False by (intros Hn; by apply Hn). symmetry.
    apply filter_all, Forall_forall. intros d Hd ->. done.
  - rewrite decide_True by congruence. by rewrite IH.
Qed.

(** With no id twice in the list, the remove loop is the set difference. *)
Lemma remove_op_spec old : forall deps,
  NoDup deps -> remove_op deps old = filter (fun d => d ∉ old) deps.
Proof.
  unfold remove_op, mem. induction old as [|x old IH]; intros deps Hnd.
  - simpl. symmetry. apply filter_all, Forall_forall. intros d _.
    apply not_elem_of_nil.
  - simpl.
    assert (Hstep : (if bool_decide (x ∈ deps) then remove_first x deps else deps)
                    = filter (fun d => d <> x) deps).
    { case_bool_decide as Hin; [by apply remove_first_filter|].
      symmetry. apply filter_all, Forall_forall. intros d Hd ->. done. }
    rewrite Hstep, IH by (by apply NoDup_filter).
    rewrite list_filter_filter. apply list_filter_iff. intros d.
    rewrite elem_of_cons. tauto.
Qed.

(** In every case the remove loop only takes entries out, in place. *)
Lemma remove_op_sublist old : forall deps, sublist (remove_op deps old) deps.
Proof.
  assert (Hfirst : forall x l, sublist (remove_first x l) l).
  { intros x. induction l as [|z l IH]; simpl; [constructor|].
    destruct (decide (x = z)); [by apply sublist_cons | by apply sublist_skip]. }
  unfold remove_op, mem. induction old as [|x old IH]; intros deps; [done|].
  simpl. etrans; [apply IH|]. destruct (bool_decide _); [apply Hfirst | done].
Qed.

(** X1: the modes of [edit_dependencies] on an existing element: replace
    stores the given list as it is; add keeps the stored list and appends
    the ids that are not in it yet, once each, in the order they are given;
    remove, on a stored list without repeated ids, keeps exactly the ids
    that are not given, in their order; any other mode is refused and the
    world is not touched. *)
Theorem edit_dependencies_modes x l op w e :
  store_wf (files w) ->
  files w !! x = Some e ->
  (op = "replace" ->
     dependencies <$> files (edit_dependencies x (DepsList l) op w).2 !! x = Some l)
  /\ (op = "add" ->
        exists fresh,
          dependencies <$> files (edit_dependencies x (DepsList l) op w).2 !! x
            = Some (dependencies e ++ fresh)
          /\ NoDup fresh /\ sublist fresh l
          /\ (forall d, d ∈ fresh <-> d ∈ l /\ d ∉ dependencies e)
          /\ (NoDup (dependencies e) -> NoDup (dependencies e ++ fresh)))
  /\ (op = "remove" ->
        exists kept,
          dependencies <$> files (edit_dependencies x (DepsList l) op w).2 !! x
            = Some kept
          /\ sublist kept (dependencies e)
          /\ (NoDup (dependencies e) ->
              kept = filter (fun d => d ∉ l) (dependencies e)))
  /\ (op <> "replace" -> op <> "add" -> op <> "remove" ->
        edit_dependencies x (DepsList l) op w =
          (EditInvalidOperation
             ("Invalid operation: " +:+ op +:+ ". Use 'replace', 'add', or 'remove'."), w)).
Proof.
  intros Hwf Hx. repeat split.
  - intros ->. by apply (edit_dependencies_stored x (DepsList l) "replace" w e).
  - intros ->. destruct (add_op_spec l (dependencies e))
      as (fresh & Hadd & Hnd & Hfresh & Hsub & Hiff).
    exists fresh. split; [|done].
    apply (edit_dependencies_stored x (DepsList l) "add" w e); [done..|].
    unfold apply_operation. simpl. by rewrite Hadd.
  - intros ->. exists (remove_op (dependencies e) l).
    split; [|split; [apply remove_op_sublist | apply remove_op_spec]].
    by apply (edit_dependencies_stored x (DepsList l) "remove" w e).
  - intros H1 H2 H3. unfold edit_dependencies, load_element, apply_operation.
    rewrite Hx. by rewrite !decide_False by done.
Qed.

Lemma edit_dependencies_modes_witness :
  let w := added "e" ["x"; "y"] empty_world in
  let e := mkCodeElement "e" "function" "pass" "e" ["x"; "y"] [] None None (At 2) (At 2) in
  files w !! "e" = Some e
  /\ dependencies <$> files (edit_dependencies "e" (DepsList ["y"; "z"]) "add" w).2 !! "e"
     = Some ["x"; "y"; "z"]
  /\ dependencies <$>
       files (edit_dependencies "e" (DepsList ["x"]) "remove"
                (edit_dependencies "e" (DepsList ["y"; "z"]) "add" w).2).2 !! "e"
     = Some ["y"; "z"]
  /\ edit_dependencies "e" (DepsList ["q"]) "swap" w =
       (EditInvalidOperation
          ("Invalid operation: " +:+ "swap" +:+ ". Use 'replace', 'add', or 'remove'."), w).
Proof.
  cbv zeta.
  assert (Hwf : store_wf (files (added "e" ["x"; "y"] empty_world)))
    by (apply store_wf_decide; vm_compute; reflexivity).
  assert (He : files (added "e" ["x"; "y"] empty_world) !! "e"
               = Some (mkCodeElement "e" "function" "pass" "e" ["x"; "y"] [] None None
                         (At 2) (At 2))) by (vm_compute; reflexivity).
  split; [exact He|].
  split; [vm_compute; reflexivity|]. split; [vm_compute; reflexivity|].
  destruct (edit_dependencies_modes "e" ["q"] "swap" _ _ Hwf He) as (_ & _ & _ & Hbad).
  apply Hbad; discriminate.
Defined.

(** ** update_code_element *)

Lemma update_text_fields_spec c d sf lr e :
  let e' := (update_text_fields c d sf lr e).1 in
  id e' = id e
  /\ type e' = type e
  /\ dependencies e' = dependencies e
  /\ dependents e' = dependents e
  /\ code e' = (if truthy (strip c) then strip c else code e)
  /\ description e' = (if truthy (strip d) then d else description e)
  /\ source_file e' = (if truthy (strip sf) then Some sf else source_file e)
  /\ line_range e' = (if truthy (strip lr) then Some lr else line_range e)
  /\ ((update_text_fields c d sf lr e).2 = [] <->
      truthy (strip c) = false /\ truthy (strip d) = false
      /\ truthy (strip sf) = false /\ truthy (strip lr) = false).
Proof.
  unfold update_text_fields.
  destruct (truthy (strip c)), (truthy (strip d)), (truthy (strip sf)),
    (truthy (strip lr)); simpl; repeat split; try done; intros; intuition discriminate.
Qed.

Lemma update_text_fields_blank c d sf lr e :
  (update_text_fields c d sf lr e).2 = [] -> (update_text_fields c d sf lr e).1 = e.
Proof.
  unfold update_text_fields.
  by destruct (truthy (strip c)), (truthy (strip d)), (truthy (strip sf)),
    (truthy (strip lr)).
Qed.

(** What [update_code_element] leaves in the store.  The last save writes
    the object loaded at the start, so the record of the element itself
    ends with the dependents it had when the call began. *)
Lemma update_code_element_spec x c d deps sf lr w e :
  store_wf (files w) ->
  files w !! x = Some e ->
  let e1 := (update_text_fields c d sf lr e).1 in
  let r := update_code_element x c d deps sf lr w in
  match deps with
  | DepsNone =>
      ((update_text_fields c d sf lr e).2 = [] ->
         r = (UpdateNoFields
                "No fields provided for update. Specify at least one field to update.", w))
      /\ ((update_text_fields c d sf lr e).2 <> [] ->
            update_success r.1 = true
            /\ store_wf (files r.2)
            /\ forall k, view r.2 k = if decide (k = x) then Some (unstamped e1)
                                      else view w k)
  | _ =>
      update_success r.1 = true
      /\ store_wf (files r.2)
      /\ forall k, view r.2 k =
           if decide (k = x)
           then Some (unstamped (with_dependencies e1 (edit_deps_list deps)))
           else (if bool_decide (k ∈ edit_deps_list deps) then gain x else fun e => e) <$>
                  (Nat.iter (dropped (dependencies e) (edit_deps_list deps) k) (lose x)
                     <$> view w k)
  end.
Proof.
  intros Hwf Hx e1 r. subst e1 r.
  pose proof (store_wf_lookup _ _ _ Hwf Hx) as Hid.
  destruct (update_text_fields_spec c d sf lr e) as (Hid1 & _).
  unfold update_code_element, load_element. rewrite Hx.
  destruct (update_text_fields c d sf lr e) as [e1 fields] eqn:Htext.
  simpl in Hid1. simpl fst. simpl snd.
  assert (Hprov : forall nl,
    let w1 := unlink_dependents x (dependencies e) nl w in
    let '(ex, mi, w2) := link_dependents x nl w1 in
    let r := (let '(element, w3) := save_element (with_dependencies e1 nl) w2 in
           (UpdateSuccess
              ("Successfully updated " +:+ type element +:+ " '" +:+ x +:+ "'")
              (fields ++ ["dependencies"])
              (mkUpdatedElement (id element) (type element) (description element)
                 (dependencies element) (updated_at element))
              (Some (mkUpdateAnalysis (dependencies e) (dependencies element) ex mi
                       (length mi))), w3)) in
    update_success r.1 = true /\ store_wf (files r.2)
    /\ forall k, view r.2 k =
         if decide (k = x) then Some (unstamped (with_dependencies e1 nl))
         else (if bool_decide (k ∈ nl) then gain x else fun e => e) <$>
                (Nat.iter (dropped (dependencies e) nl k) (lose x) <$> view w k)).
  { intros nl. cbv zeta.
    destruct (unlink_dependents_spec x nl (dependencies e) w Hwf) as [Hwf1 Hview1].
    destruct (link_dependents_spec x nl _ Hwf1) as (w2 & Hlink & Hwf2 & Hview2).
    rewrite Hlink. cbv beta iota.
    destruct (save_element (with_dependencies e1 nl) w2) as [e3 w3] eqn:Hsave.
    assert (Hw3 : w3 = (save_element (with_dependencies e1 nl) w2).2)
      by (by rewrite Hsave).
    cbn [fst snd update_success]. split; [done|]. subst w3.
    split; [exact (save_element_wf (with_dependencies e1 nl) w2 Hwf2)|].
    intros k. rewrite view_save. cbn [with_dependencies id]. rewrite Hid1, Hid.
    destruct (decide (k = x)); [done|]. by rewrite Hview2, Hview1. }
  destruct deps as [|s|l].
  - split.
    + intros ->. done.
    + intros Hne. destruct fields as [|f fields]; [done|]. cbv beta iota zeta.
      destruct (save_element e1 w) as [e3 w3] eqn:Hsave.
      assert (Hw3 : w3 = (save_element e1 w).2) by (by rewrite Hsave).
      cbn [fst snd update_success]. split; [done|]. subst w3.
      split; [exact (save_element_wf e1 w Hwf)|].
      intros k. change (update_metadata _) with (save_element e1 w).2.
      rewrite view_save. by rewrite Hid1, Hid.
  - specialize (Hprov [s]). simpl in Hprov. simpl edit_deps_list.
    destruct (link_dependents x [s] _) as [[ex mi] w2].
    destruct (fields ++ ["dependencies"]) eqn:Hf; [by destruct fields|].
    rewrite <- Hf. exact Hprov.
  - specialize (Hprov l). simpl in Hprov. simpl edit_deps_list.
    destruct (link_dependents x l _) as [[ex mi] w2].
    destruct (fields ++ ["dependencies"]) eqn:Hf; [by destruct fields|].
    rewrite <- Hf. exact Hprov.
Qed.

(** X2: [update_code_element] on an existing element of a plain store,
    with plain ids for dependencies: a text argument that is
    empty or blank leaves its field as it was, any other one replaces it
    (the code stripped); a dependencies argument, the empty list included,
    replaces the list and makes the call succeed; with no dependencies
    argument and four blank texts the call is refused and the world is not
    touched; and every other record loses the element from its dependents
    once per dropped occurrence and gains it when it is a new dependency,
    as after [edit_dependencies] in replace mode. *)
Theorem update_code_element_fields x c d deps sf lr w e :
  plain_store (files w) ->
  Forall plain_id (edit_deps_list deps) ->
  files w !! x = Some e ->
  (exists e',
     files (update_code_element x c d deps sf lr w).2 !! x = Some e'
     /\ code e' = (if truthy (strip c) then strip c else code e)
     /\ description e' = (if truthy (strip d) then d else description e)
     /\ source_file e' = (if truthy (strip sf) then Some sf else source_file e)
     /\ line_range e' = (if truthy (strip lr) then Some lr else line_range e)
     /\ dependencies e' =
        match deps with DepsNone => dependencies e | _ => edit_deps_list deps end)
  /\ (deps <> DepsNone -> update_success (update_code_element x c d deps sf lr w).1 = true)
  /\ (deps = DepsNone -> truthy (strip c) = false -> truthy (strip d) = false ->
      truthy (strip sf) = false -> truthy (strip lr) = false ->
      update_code_element x c d deps sf lr w =
        (UpdateNoFields
           "No fields provided for update. Specify at least one field to update.", w))
  /\ (deps = DepsNone -> forall k, k <> x ->
        view (update_code_element x c d deps sf lr w).2 k = view w k)
  /\ (deps <> DepsNone -> forall k, k <> x ->
        view (update_code_element x c d deps sf lr w).2 k =
        view (edit_dependencies x deps "replace" w).2 k).
Proof.
  intros Hwf%plain_store_wf _ Hx.
  pose proof (update_code_element_spec x c d deps sf lr w e Hwf Hx) as Hspec.
  destruct (update_text_fields_spec c d sf lr e)
    as (Hid & Hty & Hdeps & Hdpt & Hcode & Hdesc & Hsf & Hlr & Hblank).
  cbv zeta in Hspec, Hid, Hty, Hdeps, Hdpt, Hcode, Hdesc, Hsf, Hlr.
  assert (Hstored : forall e1 nd,
    code e1 = (if truthy (strip c) then strip c else code e) ->
    description e1 = (if truthy (strip d) then d else description e) ->
    source_file e1 = (if truthy (strip sf) then Some sf else source_file e) ->
    line_range e1 = (if truthy (strip lr) then Some lr else line_range e) ->
    dependencies e1 = nd ->
    forall w', view w' x = Some (unstamped e1) ->
    exists e', files w' !! x = Some e'
      /\ code e' = (if truthy (strip c) then strip c else code e)
      /\ description e' = (if truthy (strip d) then d else description e)
      /\ source_file e' = (if truthy (strip sf) then Some sf else source_file e)
      /\ line_range e' = (if truthy (strip lr) then Some lr else line_range e)
      /\ dependencies e' = nd).
  { intros e1 nd H1 H2 H3 H4 H5 w' Hv. unfold view in Hv.
    destruct (files w' !! x) as [e'|]; [|done]. apply (inj Some) in Hv.
    exists e'. split; [done|].
    change (code e') with (code (unstamped e')).
    change (description e') with (description (unstamped e')).
    change (source_file e') with (source_file (unstamped e')).
    change (line_range e') with (line_range (unstamped e')).
    change (dependencies e') with (dependencies (unstamped e')).
    rewrite Hv. done. }
  assert (Hedit : forall k, k <> x ->
      view (edit_dependencies x deps "replace" w).2 k =
      (if bool_decide (k ∈ edit_deps_list deps) then gain x else fun e => e) <$>
        (Nat.iter (dropped (dependencies e) (edit_deps_list deps) k) (lose x)
           <$> view w k)).
  { intros k Hk.
    destruct (edit_dependencies_spec x deps "replace" w e (edit_deps_list deps) Hwf Hx)
      as (ex & mi & w' & -> & _ & Hview); [done|].
    simpl. rewrite Hview. by rewrite decide_False by done. }
  destruct deps as [|s|l].
  - destruct Hspec as [Hnone Hsome].
    destruct (decide ((update_text_fields c d sf lr e).2 = [])) as [Hb|Hb].
    + rewrite (Hnone Hb). cbn [fst snd].
      pose proof (update_text_fields_blank c d sf lr e Hb) as He1.
      rewrite He1 in Hcode, Hdesc, Hsf, Hlr.
      split; [apply (Hstored e (dependencies e)); try done; unfold view; by rewrite Hx|].
      split; [done|]. split; [done|]. split; [done|]. done.
    + destruct (Hsome Hb) as (Hok & _ & Hview).
      split; [apply (Hstored (update_text_fields c d sf lr e).1 (dependencies e));
              try done; rewrite Hview; by rewrite decide_True|].
      split; [done|]. split.
      { intros _ H1 H2 H3 H4. destruct Hb. apply Hblank. done. }
      split; [|done]. intros _ k Hk. rewrite Hview. by rewrite decide_False.
  - destruct Hspec as (Hok & _ & Hview).
    split; [apply (Hstored (with_dependencies (update_text_fields c d sf lr e).1 [s]) [s]);
            try done; rewrite Hview; by rewrite decide_True|].
    split; [done|]. split; [done|]. split; [done|].
    intros _ k Hk. rewrite Hview, Hedit by done. by rewrite decide_False.
  - destruct Hspec as (Hok & _ & Hview).
    split; [apply (Hstored (with_dependencies (update_text_fields c d sf lr e).1 l) l);
            try done; rewrite Hview; by rewrite decide_True|].
    split; [done|]. split; [done|]. split; [done|].
    intros _ k Hk. rewrite Hview, Hedit by done. by rewrite decide_False.
Qed.

Lemma update_code_element_fields_witness :
  let w := added "x" ["a"] (added "a" [] empty_world) in
  let old := mkCodeElement "x" "function" "pass" "x" ["a"] [] None None (At 5) (At 5) in
  let r := update_code_element "x" "  " "" (DepsList []) "" "" w in
  files w !! "x" = Some old
  /\ (exists e',
        files r.2 !! "x" = Some e'
        /\ code e' = "pass" /\ description e' = "x"
        /\ source_file e' = None /\ line_range e' = None
        /\ dependencies e' = [])
  /\ update_success r.1 = true
  /\ dependents <$> files w !! "a" = Some ["x"]
  /\ dependents <$> files r.2 !! "a" = Some [].
Proof.
  cbv zeta.
  assert (Hwf : plain_store (files (added "x" ["a"] (added "a" [] empty_world))))
    by (apply plain_store_decide; vm_compute; reflexivity).
  assert (Hx : files (added "x" ["a"] (added "a" [] empty_world)) !! "x"
               = Some (mkCodeElement "x" "function" "pass" "x" ["a"] [] None None
                         (At 5) (At 5))) by (vm_compute; reflexivity).
  split; [exact Hx|].
  destruct (update_code_element_fields "x" "  " "" (DepsList []) "" "" _ _ Hwf
              (Forall_nil_2 _) Hx)
    as (Hstored & Hok & _).
  split; [exact Hstored|]. split; [by apply Hok|].
  split; vm_compute; reflexivity.
Defined.

(** ** remove_element *)

Lemma scrub_step_spec x upd w e :
  store_wf (files w) ->
  store_wf (files (scrub_step x (upd, w) e).2)
  /\ forall k, view (scrub_step x (upd, w) e).2 k =
       if decide (k = id e /\ touched x e) then Some (unstamped (scrub x e))
       else view w k.
Proof.
  intros Hwf. unfold scrub_step, touched, scrub, mem.
  destruct (decide (id e = x)) as [Heq|Hne].
  { split; [done|]. intros k. by rewrite decide_False by tauto. }
  destruct (bool_decide_reflect (x ∈ dependencies e)) as [Hd|Hd].
  - destruct (save_element (with_dependencies e (remove_first x (dependencies e))) w)
      as [e1 w1] eqn:Hsave.
    assert (Hw1 : w1 = (save_element
                          (with_dependencies e (remove_first x (dependencies e))) w).2)
      by (by rewrite Hsave).
    assert (He1 : unstamped e1
                  = unstamped (with_dependencies e (remove_first x (dependencies e)))).
    { replace e1 with (save_element
                         (with_dependencies e (remove_first x (dependencies e))) w).1
        by (by rewrite Hsave). apply save_element_unstamped. }
    assert (Hwf1 : store_wf (files w1)) by (subst w1; by apply save_element_wf).
    assert (Hdpt : dependents e1 = dependents e).
    { change (dependents e1) with (dependents (unstamped e1)). by rewrite He1. }
    assert (Hid1 : id e1 = id e).
    { change (id e1) with (id (unstamped e1)). by rewrite He1. }
    rewrite Hdpt. cbn [with_dependencies dependents].
    destruct (bool_decide_reflect (x ∈ dependents e)) as [Hp|Hp]; cbn [fst snd].
    + destruct (save_element (with_dependents e1 (remove_first x (dependents e))) w1)
        as [e2 w2] eqn:Hsave2.
      assert (Hw2 : w2 = (save_element
                            (with_dependents e1 (remove_first x (dependents e))) w1).2)
        by (by rewrite Hsave2).
      cbn [snd]. subst w2. split; [by apply save_element_wf|].
      intros k. rewrite view_save. cbn [with_dependents id]. rewrite Hid1.
      destruct (decide (k = id e)) as [->|Hk].
      * rewrite decide_True by tauto. f_equal.
        change (unstamped (with_dependents e1 (remove_first x (dependents e))))
          with (with_dependents (unstamped e1) (remove_first x (dependents e))).
        by rewrite He1.
      * rewrite decide_False by tauto. subst w1. rewrite view_save.
        cbn [with_dependencies id]. by rewrite decide_False.
    + split; [done|]. intros k. subst w1. rewrite view_save.
      cbn [with_dependencies id].
      destruct (decide (k = id e)) as [->|Hk].
      * by rewrite decide_True by tauto.
      * by rewrite decide_False by tauto.
  - destruct (bool_decide_reflect (x ∈ dependents e)) as [Hp|Hp]; cbn [fst snd].
    + destruct (save_element (with_dependents e (remove_first x (dependents e))) w)
        as [e2 w2] eqn:Hsave2.
      assert (Hw2 : w2 = (save_element
                            (with_dependents e (remove_first x (dependents e))) w).2)
        by (by rewrite Hsave2).
      cbn [snd]. subst w2. split; [by apply save_element_wf|].
      intros k. rewrite view_save. cbn [with_dependents id].
      destruct (decide (k = id e)) as [->|Hk].
      * by rewrite decide_True by tauto.
      * by rewrite decide_False by tauto.
    + split; [done|]. intros k. by rewrite decide_False by tauto.
Qed.

Lemma scrub_step_pair x upd w e :
  exists upd', scrub_step x (upd, w) e = (upd', (scrub_step x (upd, w) e).2).
Proof. destruct (scrub_step x (upd, w) e) as [upd' w']. by exists upd'. Qed.

(** The scan over objects with distinct ids: a record is rewritten from
    the object of its id when the turn touches it, and is left alone
    otherwise. *)
Lemma scrub_fold_spec x l : forall upd w,
  NoDup (id <$> l) ->
  store_wf (files w) ->
  store_wf (files (foldl (scrub_step x) (upd, w) l).2)
  /\ forall k,
       (forall e, e ∈ l -> id e = k -> touched x e ->
          view (foldl (scrub_step x) (upd, w) l).2 k = Some (unstamped (scrub x e)))
       /\ ((forall e, e ∈ l -> id e = k -> ~ touched x e) ->
           view (foldl (scrub_step x) (upd, w) l).2 k = view w k).
Proof.
  induction l as [|e l IH]; intros upd w Hnd Hwf.
  - split; [done|]. intros k. split; [|done]. intros e He. by apply elem_of_nil in He.
  - rewrite fmap_cons in Hnd. apply NoDup_cons in Hnd as [Hfresh Hnd].
    destruct (scrub_step_spec x upd w e Hwf) as [Hwf1 Hview1].
    destruct (scrub_step_pair x upd w e) as [upd1 Hpair].
    change (foldl (scrub_step x) (upd, w) (e :: l))
      with (foldl (scrub_step x) (scrub_step x (upd, w) e) l).
    rewrite Hpair.
    destruct (IH upd1 _ Hnd Hwf1) as [Hwf2 Hview2].
    split; [exact Hwf2|]. intros k. destruct (Hview2 k) as [Hin Hout]. split.
    + intros e' He' Hk Ht. apply elem_of_cons in He' as [->|He'].
      * rewrite Hout.
        -- rewrite Hview1. by rewrite decide_True by done.
        -- intros e'' He'' Hk'. destruct Hfresh. rewrite Hk, <- Hk'.
           apply list_elem_of_fmap. by exists e''.
      * by apply Hin.
    + intros Hno. rewrite Hout.
      * rewrite Hview1. rewrite decide_False; [done|].
        intros [-> Ht]. apply (Hno e); [apply list_elem_of_here | done | done].
      * intros e' He'. apply Hno. by apply list_elem_of_further.
Qed.

Lemma update_metadata_files w : files (update_metadata w) = files w.
Proof. unfold update_metadata, now. by destruct w as [m [md|] c]. Qed.

Lemma remove_first_absent x l : x ∉ l -> remove_first x l = l.
Proof.
  induction l as [|y l IH]; [done|]. intros Hx. simpl.
  apply not_elem_of_cons in Hx as [Hne Hx].
  rewrite decide_False by done. by rewrite IH.
Qed.

Lemma remove_first_once x l : NoDup l -> x ∉ remove_first x l.
Proof.
  induction 1 as [|y l Hy Hnd IH]; simpl; [apply not_elem_of_nil|].
  destruct (decide (x = y)) as [->|Hne]; [done|].
  apply not_elem_of_cons. by split.
Qed.

Lemma scrub_lists x e :
  dependencies (scrub x e) = remove_first x (dependencies e)
  /\ dependents (scrub x e) = remove_first x (dependents e)
  /\ id (scrub x e) = id e.
Proof.
  unfold scrub, mem.
  destruct (bool_decide_reflect (x ∈ dependencies e)) as [Hd|Hd];
    cbn [with_dependencies dependents];
    destruct (bool_decide_reflect (x ∈ dependents e)) as [Hp|Hp];
    simpl; rewrite ?(remove_first_absent x (dependencies e)),
             ?(remove_first_absent x (dependents e)) by done; done.
Qed.

Lemma get_all_elements_NoDup w :
  store_wf (files w) -> NoDup (id <$> get_all_elements w).
Proof.
  intros Hwf. rewrite get_all_elements_values.
  replace (id <$> (map_to_list (files w)).*2) with ((map_to_list (files w)).*1).
  - apply NoDup_fst_map_to_list.
  - rewrite <- list_fmap_compose. apply Forall_fmap_ext, Forall_forall.
    intros [k e] Hin. apply elem_of_map_to_list in Hin. simpl.
    symmetry. by apply (store_wf_lookup _ _ _ Hwf).
Qed.

Lemma unstamped_scrub x e : unstamped (scrub x e) = scrub x (unstamped e).
Proof.
  unfold scrub, mem.
  change (dependencies (unstamped e)) with (dependencies e).
  destruct (bool_decide (x ∈ dependencies e)).
  - change (dependents (with_dependencies (unstamped e) _)) with (dependents e).
    change (dependents (with_dependencies e _)) with (dependents e).
    by destruct (bool_decide (x ∈ dependents e)).
  - change (dependents (unstamped e)) with (dependents e).
    by destruct (bool_decide (x ∈ dependents e)).
Qed.

(** What a successful removal leaves in the store. *)
Lemma remove_element_spec x w e :
  store_wf (files w) ->
  files w !! x = Some e ->
  exists cleaned w',
    remove_element x w =
      (RemoveSuccess ("Successfully removed " +:+ type e +:+ " '" +:+ x +:+ "'")
         cleaned (dependencies e) (dependents e), w')
    /\ store_wf (files w')
    /\ files w' !! x = None
    /\ forall k, k <> x -> view w' k = scrub x <$> view w k.
Proof.
  intros Hwf Hx. unfold remove_element, load_element. rewrite Hx.
  destruct (scrub_fold_spec x (get_all_elements w) [] w
              (get_all_elements_NoDup w Hwf) Hwf) as [Hwf1 Hview1].
  destruct (foldl (scrub_step x) ([], w) (get_all_elements w)) as [cleaned w1].
  cbn [snd] in Hwf1, Hview1.
  eexists cleaned, _. split; [reflexivity|].
  rewrite update_metadata_files. cbn [unlink files].
  split; [by apply map_Forall_delete|]. split; [apply lookup_delete_eq|].
  intros k Hk. unfold view at 1.
  rewrite update_metadata_files. cbn [unlink files].
  rewrite lookup_delete_ne by done. fold (view w1 k).
  destruct (Hview1 k) as [Hin Hout].
  destruct (files w !! k) as [ek|] eqn:Hek.
  - pose proof (store_wf_lookup _ _ _ Hwf Hek) as Hidk.
    assert (Hmem : ek ∈ get_all_elements w) by (apply elem_of_get_all_elements; eauto).
    unfold view at 2. rewrite Hek. cbn [fmap option_fmap option_map].
    destruct (decide (touched x ek)) as [Ht|Ht].
    + rewrite (Hin ek Hmem Hidk Ht). f_equal. apply unstamped_scrub.
    + rewrite Hout.
      * unfold view. rewrite Hek. cbn [fmap option_fmap option_map]. f_equal.
        rewrite <- unstamped_scrub. f_equal.
        assert (Hd : x ∉ dependencies ek).
        { intros Hd. apply Ht. split; [congruence | by left]. }
        assert (Hp : x ∉ dependents ek).
        { intros Hp. apply Ht. split; [congruence | by right]. }
        unfold scrub, mem.
        rewrite (bool_decide_false _ Hd). by rewrite (bool_decide_false _ Hp).
      * intros e' He' Hk'. apply elem_of_get_all_elements in He' as [k' Hk''].
        pose proof (store_wf_lookup _ _ _ Hwf Hk'') as Hid'.
        assert (k' = k) by congruence. subst k'.
        assert (e' = ek) by congruence. by subst e'.
  - rewrite Hout.
    + unfold view. by rewrite Hek.
    + intros e' He' Hk'. apply elem_of_get_all_elements in He' as [k' Hk''].
      pose proof (store_wf_lookup _ _ _ Hwf Hk'') as Hid'.
      assert (k' = k) by congruence. subst k'. congruence.
Qed.

(** X3: [remove_element] on an existing id of a plain store: the call
    succeeds and reports the
    removed element's own dependencies and dependents; the record is
    deleted and [get_element] then reports it absent; every other record
    stays, with the first occurrence of the id taken out of its
    dependencies and out of its dependents, so that a list which held the
    id at most once no longer holds it. *)
Theorem remove_element_scrubs x w e :
  plain_store (files w) ->
  files w !! x = Some e ->
  remove_success (remove_element x w).1 = true
  /\ (exists message cleaned,
        (remove_element x w).1
        = RemoveSuccess message cleaned (dependencies e) (dependents e))
  /\ files (remove_element x w).2 !! x = None
  /\ get_success (get_element x (remove_element x w).2) = false
  /\ forall k ek, k <> x -> files w !! k = Some ek ->
       exists ek',
         files (remove_element x w).2 !! k = Some ek'
         /\ dependencies ek' = remove_first x (dependencies ek)
         /\ dependents ek' = remove_first x (dependents ek)
         /\ (NoDup (dependencies ek) -> x ∉ dependencies ek')
         /\ (NoDup (dependents ek) -> x ∉ dependents ek').
Proof.
  intros Hwf%plain_store_wf Hx.
  destruct (remove_element_spec x w e Hwf Hx) as (cleaned & w' & -> & _ & Hgone & Hview).
  cbn [fst snd remove_success]. split; [done|]. split; [eauto|]. split; [done|].
  split; [unfold get_element, load_element; by rewrite Hgone|].
  intros k ek Hk Hek. specialize (Hview k Hk). unfold view in Hview.
  rewrite Hek in Hview. destruct (files w' !! k) as [ek'|]; [|done].
  apply (inj Some) in Hview. rewrite <- unstamped_scrub in Hview.
  destruct (scrub_lists x ek) as (Hd & Hp & _).
  assert (Hd' : dependencies ek' = remove_first x (dependencies ek)).
  { change (dependencies ek') with (dependencies (unstamped ek')).
    rewrite Hview. exact Hd. }
  assert (Hp' : dependents ek' = remove_first x (dependents ek)).
  { change (dependents ek') with (dependents (unstamped ek')).
    rewrite Hview. exact Hp. }
  exists ek'. split; [done|]. split; [done|]. split; [done|]. split.
  - intros Hnd. rewrite Hd'. by apply remove_first_once.
  - intros Hnd. rewrite Hp'. by apply remove_first_once.
Qed.

Lemma remove_element_scrubs_witness :
  let w := added "a" ["b"] (added "b" [] empty_world) in
  let r := remove_element "b" w in
  dependencies <$> files w !! "a" = Some ["b"]
  /\ dependents <$> files w !! "b" = Some ["a"]
  /\ remove_success r.1 = true
  /\ files r.2 !! "b" = None
  /\ get_success (get_element "b" r.2) = false
  /\ dependencies <$> files r.2 !! "a" = Some [].
Proof.
  cbv zeta.
  assert (Hwf : plain_store (files (added "a" ["b"] (added "b" [] empty_world))))
    by (apply plain_store_decide; vm_compute; reflexivity).
  assert (Hb : files (added "a" ["b"] (added "b" [] empty_world)) !! "b"
               = Some (mkCodeElement "b" "function" "pass" "b" [] ["a"] None None
                         (At 2) (At 8))) by (vm_compute; reflexivity).
  destruct (remove_element_scrubs "b" _ _ Hwf Hb) as (Hok & _ & Hgone & Hget & _).
  split; [vm_compute; reflexivity|]. split; [vm_compute; reflexivity|].
  split; [exact Hok|]. split; [exact Hgone|]. split; [exact Hget|].
  vm_compute. reflexivity.
Defined.

(** ** Reciprocity towards the dependencies of the element at hand *)

Lemma gain_elem_of x e : x ∈ dependents (gain x e).
Proof.
  unfold gain, mem. destruct (bool_decide_reflect (x ∈ dependents e)); [done|].
  simpl. apply elem_of_app. right. by apply list_elem_of_singleton.
Qed.

Lemma lose_dependents x e : dependents (lose x e) = remove_first x (dependents e).
Proof.
  unfold lose, mem. destruct (bool_decide_reflect (x ∈ dependents e)); [done|].
  by rewrite remove_first_absent.
Qed.

Lemma lose_iter_once x e n :
  NoDup (dependents e) -> 0 < n -> x ∉ dependents (Nat.iter n (lose x) e).
Proof.
  intros Hnd Hn. destruct n as [|n]; [lia|]. clear Hn.
  rewrite Nat.iter_succ_r.
  assert (Hout : x ∉ dependents (lose x e)).
  { rewrite lose_dependents. by apply remove_first_once. }
  generalize dependent (lose x e). clear e Hnd.
  induction n as [|n IH]; intros e Hout; [done|].
  simpl. rewrite lose_dependents, remove_first_absent; by apply IH.
Qed.

(** X4: after a successful [add_code_element] of a plain id, on a plain
    store and with plain ids for dependencies, every listed dependency
    that has a record lists the new element among its dependents, and the
    records that are neither listed nor the new one are as they were. *)
Theorem add_links_listed_dependencies x ty c ds deps sf lr w :
  plain_store (files w) ->
  plain_id x ->
  Forall plain_id (add_deps_list deps) ->
  add_success (add_code_element x ty c ds deps sf lr w).1 = true ->
  (forall d ed, d ∈ add_deps_list deps ->
     files (add_code_element x ty c ds deps sf lr w).2 !! d = Some ed ->
     x ∈ dependents ed)
  /\ (forall k, k <> x -> k ∉ add_deps_list deps ->
        view (add_code_element x ty c ds deps sf lr w).2 k = view w k).
Proof.
  intros Hwf%plain_store_wf _ _ Hok.
  assert (Hfresh : files w !! x = None).
  { destruct (files w !! x) as [e|] eqn:Hx; [|done].
    unfold add_code_element, load_element in Hok. by rewrite Hx in Hok. }
  destruct (add_code_element_fresh x ty c ds deps sf lr w Hwf Hfresh)
    as (st & w' & -> & _ & Hview).
  cbn [snd]. split.
  - intros d ed Hd Hed. specialize (Hview d). unfold view at 1 in Hview.
    rewrite Hed, bool_decide_true in Hview by done.
    change (dependents ed) with (dependents (unstamped ed)).
    destruct (decide (d = x)); [|destruct (view w d)];
      simpl in Hview; try done; apply (inj Some) in Hview; rewrite Hview;
      apply gain_elem_of.
  - intros k Hk Hout. rewrite Hview, decide_False, bool_decide_false by done.
    by rewrite option_fmap_id.
Qed.

Lemma add_links_listed_dependencies_witness :
  let w := added "b" [] empty_world in
  let r := add_code_element "a" "function" "pass" "A" (DepsList ["b"; "ghost"]) "" "" w in
  add_success r.1 = true
  /\ dependents <$> files w !! "b" = Some []
  /\ forall d ed, d ∈ ["b"; "ghost"] -> files r.2 !! d = Some ed -> "a" ∈ dependents ed.
Proof.
  cbv zeta.
  assert (Hwf : plain_store (files (added "b" [] empty_world)))
    by (apply plain_store_decide; vm_compute; reflexivity).
  assert (Hpx : plain_id "a") by (apply plain_id_decide; vm_compute; reflexivity).
  assert (Hpd : Forall plain_id (add_deps_list (DepsList ["b"; "ghost"])))
    by (apply plain_ids_decide; vm_compute; reflexivity).
  assert (Hok : add_success
                  (add_code_element "a" "function" "pass" "A" (DepsList ["b"; "ghost"])
                     "" "" (added "b" [] empty_world)).1 = true)
    by (vm_compute; reflexivity).
  split; [exact Hok|]. split; [vm_compute; reflexivity|].
  exact (proj1 (add_links_listed_dependencies "a" "function" "pass" "A"
                  (DepsList ["b"; "ghost"]) "" "" _ Hwf Hpx Hpd Hok)).
Defined.

(** X5: after a successful [edit_dependencies] of an element of a plain
    store, with plain ids for dependencies, the operation is one of the
    three, every dependency of the list it gives that has a record lists
    the element among its dependents, and a dependency that was dropped,
    whose record other than the element's own listed its dependents
    without repetition, no longer lists it. *)
Theorem edit_links_new_and_unlinks_dropped x deps op w e :
  plain_store (files w) ->
  deps <> DepsNone ->
  Forall plain_id (edit_deps_list deps) ->
  files w !! x = Some e ->
  edit_success (edit_dependencies x deps op w).1 = true ->
  exists nd,
    apply_operation op (dependencies e) (edit_deps_list deps) = Some nd
    /\ (forall d ed, d ∈ nd ->
          files (edit_dependencies x deps op w).2 !! d = Some ed -> x ∈ dependents ed)
    /\ (forall d ed ed', d ∈ dependencies e -> d ∉ nd -> d <> x ->
          files w !! d = Some ed -> NoDup (dependents ed) ->
          files (edit_dependencies x deps op w).2 !! d = Some ed' -> x ∉ dependents ed').
Proof.
  intros Hwf%plain_store_wf _ _ Hx Hok.
  destruct (apply_operation op (dependencies e) (edit_deps_list deps)) as [nd|] eqn:Hop;
    [|unfold edit_dependencies, load_element in Hok; by rewrite Hx, Hop in Hok].
  clear Hok. exists nd. split; [done|].
  destruct (edit_dependencies_spec x deps op w e nd Hwf Hx Hop)
    as (ex & mi & w' & -> & _ & Hview).
  cbn [fst snd]. split.
  - intros d ed Hd Hed. specialize (Hview d). unfold view at 1 in Hview.
    rewrite Hed, bool_decide_true in Hview by done.
    change (dependents ed) with (dependents (unstamped ed)).
    destruct (decide (d = x)); [|destruct (view w d)];
      simpl in Hview; try done; apply (inj Some) in Hview; rewrite Hview;
      apply gain_elem_of.
  - intros d ed ed' Hd Hout Hne Hed Hnd Hed'. specialize (Hview d).
    unfold view in Hview.
    rewrite Hed', decide_False, bool_decide_false, Hed in Hview by done.
    simpl in Hview. apply (inj Some) in Hview.
    change (dependents ed') with (dependents (unstamped ed')). rewrite Hview.
    apply lose_iter_once; [done|]. unfold dropped.
    assert (Hin : d ∈ filter (fun d0 => d0 = d /\ d0 ∉ nd) (dependencies e)).
    { apply list_elem_of_filter. done. }
    destruct (filter _ (dependencies e)); [by apply elem_of_nil in Hin | simpl; lia].
Qed.

Lemma edit_links_new_and_unlinks_dropped_witness :
  let w := added "e" ["x"] (added "y" [] (added "x" [] empty_world)) in
  let r := edit_dependencies "e" (DepsList ["y"]) "replace" w in
  dependents <$> files w !! "x" = Some ["e"]
  /\ dependents <$> files w !! "y" = Some []
  /\ edit_success r.1 = true
  /\ dependents <$> files r.2 !! "x" = Some []
  /\ dependents <$> files r.2 !! "y" = Some ["e"]
  /\ exists nd,
       apply_operation "replace" ["x"] (edit_deps_list (DepsList ["y"])) = Some nd
       /\ forall d ed, d ∈ nd -> files r.2 !! d = Some ed -> "e" ∈ dependents ed.
Proof.
  cbv zeta.
  assert (Hwf : plain_store
                  (files (added "e" ["x"] (added "y" [] (added "x" [] empty_world)))))
    by (apply plain_store_decide; vm_compute; reflexivity).
  assert (He : files (added "e" ["x"] (added "y" [] (added "x" [] empty_world))) !! "e"
               = Some (mkCodeElement "e" "function" "pass" "e" ["x"] [] None None
                         (At 8) (At 8))) by (vm_compute; reflexivity).
  assert (Hok : edit_success
                  (edit_dependencies "e" (DepsList ["y"]) "replace"
                     (added "e" ["x"] (added "y" [] (added "x" [] empty_world)))).1
                = true) by (vm_compute; reflexivity).
  assert (Hpd : Forall plain_id (edit_deps_list (DepsList ["y"])))
    by (apply plain_ids_decide; vm_compute; reflexivity).
  destruct (edit_links_new_and_unlinks_dropped "e" (DepsList ["y"]) "replace" _ _
              Hwf ltac:(discriminate) Hpd He Hok) as (nd & Hop & Hlink & _).
  split; [vm_compute; reflexivity|]. split; [vm_compute; reflexivity|].
  split; [exact Hok|]. split; [vm_compute; reflexivity|].
  split; [vm_compute; reflexivity|].
  exists nd. split; [exact Hop | exact Hlink].
Defined.

(** ** The empty store *)

Lemma store_wf_empty : store_wf (files empty_world).
Proof. apply map_Forall_empty. Qed.

(** ** list_all_elements *)

Lemma str_lt_trans a b c : str_lt a b = true -> str_lt b c = true -> str_lt a c = true.
Proof.
  unfold str_lt, String.ltb.
  destruct (String.compare a b) eqn:Hab; try discriminate.
  destruct (String.compare b c) eqn:Hbc; try discriminate. intros _ _.
  apply String_as_OT.cmp_lt in Hab, Hbc.
  pose proof (String_as_OT.lt_trans _ _ _ Hab Hbc) as Hac.
  apply String_as_OT.cmp_lt in Hac. unfold String_as_OT.cmp in Hac. by rewrite Hac.
Qed.

Lemma str_lt_total a b : str_lt a b = false -> a <> b -> str_lt b a = true.
Proof.
  unfold str_lt, String.ltb. rewrite (String.compare_antisym a b).
  destruct (String.compare b a) eqn:Hba; simpl; try done.
  apply String.compare_eq_iff in Hba. congruence.
Qed.

Lemma insert_by_id_perm x l : insert_by_id x l ≡ₚ x :: l.
Proof.
  induction l as [|y l IH]; [done|]. simpl.
  destruct (str_lt (id y) (id x)); [|done].
  rewrite IH. apply Permutation_swap.
Qed.

Lemma sorted_by_id_perm l : sorted_by_id l ≡ₚ l.
Proof.
  induction l as [|x l IH]; [done|]. simpl.
  rewrite insert_by_id_perm. by rewrite IH.
Qed.

(** Strictly increasing ids. *)
Lemma insert_by_id_sorted x l :
  x.(id) ∉ id <$> l ->
  StronglySorted (fun a b => str_lt (id a) (id b) = true) l ->
  StronglySorted (fun a b => str_lt (id a) (id b) = true) (insert_by_id x l).
Proof.
  intros Hx Hs. induction Hs as [|y l Hs IH Hy]; simpl.
  - repeat constructor.
  - rewrite fmap_cons in Hx. apply not_elem_of_cons in Hx as [Hne Hx].
    destruct (str_lt (id y) (id x)) eqn:Hyx.
    + constructor; [by apply IH|].
      apply Forall_forall. intros z Hz.
      rewrite insert_by_id_perm in Hz. apply elem_of_cons in Hz as [->|Hz]; [done|].
      by apply (proj1 (Forall_forall _ _) Hy).
    + assert (Hxy : str_lt (id x) (id y) = true) by (by apply str_lt_total).
      constructor; [by constructor|]. constructor; [done|].
      eapply Forall_impl; [exact Hy|]. intros z Hz. simpl in Hz.
      by apply (str_lt_trans _ (id y)).
Qed.

Lemma sorted_by_id_sorted l :
  NoDup (id <$> l) ->
  StronglySorted (fun a b => str_lt (id a) (id b) = true) (sorted_by_id l).
Proof.
  induction l as [|x l IH]; intros Hnd; [constructor|].
  rewrite fmap_cons in Hnd. apply NoDup_cons in Hnd as [Hx Hnd]. simpl.
  apply insert_by_id_sorted; [|by apply IH].
  by rewrite (sorted_by_id_perm l).
Qed.

Lemma StronglySorted_summary l :
  StronglySorted (fun a b => str_lt (id a) (id b) = true) l ->
  StronglySorted (fun a b => str_lt (summary_id a) (summary_id b) = true)
    (map summary l).
Proof.
  induction 1 as [|x l Hs IH Hx]; simpl; constructor; [done|].
  apply Forall_forall. intros s Hs'.
  change (map summary l) with (summary <$> l) in Hs'.
  apply list_elem_of_fmap in Hs' as (e & -> & He).
  by apply (proj1 (Forall_forall _ _) Hx).
Qed.

(** X7: on a plain store, [list_all_elements] returns the empty-tree
    result when there is no record; otherwise it returns one summary per
    record, each with the
    type, description, list lengths and creation stamp of its record, in
    strictly increasing order of id, and [total] is the number of
    records. *)
Theorem list_all_elements_sorted_complete w :
  plain_store (files w) ->
  match list_all_elements w with
  | ListEmpty _ => files w = ∅
  | ListSuccess elems total =>
      files w <> ∅
      /\ total = size (files w)
      /\ length elems = size (files w)
      /\ StronglySorted (fun a b => str_lt (summary_id a) (summary_id b) = true) elems
      /\ forall s, s ∈ elems <->
           exists e, files w !! summary_id s = Some e /\ s = summary e
  end.
Proof.
  intros Hwf%plain_store_wf. unfold list_all_elements.
  pose proof (length_get_all_elements w) as Hlen.
  pose proof (get_all_elements_NoDup w Hwf) as Hnd.
  assert (Hmem : forall e, e ∈ get_all_elements w <-> files w !! id e = Some e).
  { intros e. rewrite elem_of_get_all_elements. split; [|eauto].
    intros [k Hk]. by rewrite (store_wf_lookup _ _ _ Hwf Hk). }
  remember (get_all_elements w) as l eqn:Hl. destruct l as [|e0 l].
  { apply map_size_empty_iff. simpl in Hlen. lia. }
  assert (Hpos : 0 < size (files w)) by (simpl in Hlen; lia).
  cbv beta iota. rewrite Hl in *. clear Hl e0 l.
  split; [apply map_size_non_empty_iff; lia|]. split; [done|].
  split; [by rewrite length_map, (sorted_by_id_perm (get_all_elements w))|].
  split; [by apply StronglySorted_summary, sorted_by_id_sorted|].
  intros s. change (map summary ?l) with (summary <$> l).
  rewrite list_elem_of_fmap. split.
  - intros (e & -> & He). rewrite (sorted_by_id_perm (get_all_elements w)) in He.
    exists e. split; [by apply Hmem | done].
  - intros (e & He & ->). exists e. split; [done|].
    rewrite (sorted_by_id_perm (get_all_elements w)).
    apply elem_of_get_all_elements. eauto.
Qed.

Lemma list_all_elements_sorted_complete_witness :
  let w := added "a" ["b"] (added "b" [] empty_world) in
  list_all_elements w
  = ListSuccess [mkElementSummary "a" "function" "a" 1 0 (At 5);
                 mkElementSummary "b" "function" "b" 0 1 (At 2)] 2
  /\ match list_all_elements w with
     | ListEmpty _ => files w = ∅
     | ListSuccess elems total =>
         files w <> ∅
         /\ total = size (files w)
         /\ length elems = size (files w)
         /\ StronglySorted (fun a b => str_lt (summary_id a) (summary_id b) = true) elems
         /\ forall s, s ∈ elems <->
              exists e, files w !! summary_id s = Some e /\ s = summary e
     end.
Proof.
  split; [vm_compute; reflexivity|].
  apply (list_all_elements_sorted_complete (added "a" ["b"] (added "b" [] empty_world))).
  apply plain_store_decide. vm_compute. reflexivity.
Defined.

(** ** What every write goes through

    The tools change the world only by [save_element] and, for a removal,
    by deleting one file and recomputing the metadata.  A property of
    worlds that these two steps keep is kept by every tool. *)

(** One turn of a left fold, without unfolding its body. *)
Ltac foldl_cons :=
  match goal with
  | |- context [foldl ?f ?a (?x :: ?l)] =>
      change (foldl f a (x :: l)) with (foldl f (f a x) l)
  end.

Section Preservation.
Variable P : World -> Prop.
Hypothesis P_save : forall e w, P w -> P (save_element e w).2.

Lemma link_step_preserves x ex mi w d : P w -> P (link_step x (ex, mi, w) d).2.
Proof.
  intros Hw. unfold link_step. destruct (load_element d w) as [e|]; [|done].
  simpl. destruct (mem x (dependents e)); [done | exact (P_save _ _ Hw)].
Qed.

Lemma link_dependents_preserves x deps w : P w -> P (link_dependents x deps w).2.
Proof.
  unfold link_dependents. generalize (@nil string) at 1. generalize (@nil string) at 1.
  revert w. induction deps as [|d deps IH]; intros w ex mi Hw; [done|].
  foldl_cons. pose proof (link_step_preserves x mi ex w d Hw) as Hstep.
  destruct (link_step x (mi, ex, w) d) as [[ex' mi'] w']. by apply IH.
Qed.

Lemma unlink_dependents_preserves x original new w :
  P w -> P (unlink_dependents x original new w).
Proof.
  unfold unlink_dependents. revert w.
  induction original as [|d original IH]; intros w Hw; [done|].
  foldl_cons. apply IH. unfold unlink_step. destruct (mem d new); [done|].
  destruct (load_element d w) as [e|]; [|done].
  destruct (mem x (dependents e)); [exact (P_save _ _ Hw) | done].
Qed.

Lemma scrub_fold_preserves x l : forall upd w,
  P w -> P (foldl (scrub_step x) (upd, w) l).2.
Proof.
  induction l as [|e l IH]; intros upd w Hw; [done|].
  foldl_cons.
  assert (Hstep : P (scrub_step x (upd, w) e).2).
  { unfold scrub_step. destruct (decide (id e = x)); [done|].
    destruct (mem x (dependencies e)).
    - pose proof (P_save (with_dependencies e (remove_first x (dependencies e))) w Hw)
        as Hw1.
      destruct (save_element _ w) as [e1 w1]. simpl in Hw1.
      destruct (mem x (dependents e1)); [|done].
      pose proof (P_save (with_dependents e1 (remove_first x (dependents e1))) w1 Hw1)
        as Hw2.
      by destruct (save_element _ w1).
    - destruct (mem x (dependents e)); [|done].
      pose proof (P_save (with_dependents e (remove_first x (dependents e))) w Hw)
        as Hw2.
      by destruct (save_element _ w). }
  destruct (scrub_step x (upd, w) e) as [upd' w']. by apply IH.
Qed.

Lemma add_code_element_preserves x ty c ds deps sf lr w :
  P w -> P (add_code_element x ty c ds deps sf lr w).2.
Proof.
  intros Hw. unfold add_code_element. destruct (load_element x w); [done|].
  pose proof (P_save (mkCodeElement x ty (strip c) ds (add_deps_list deps) []
                        (or_None sf) (or_None lr) Unset Unset) w Hw) as Hw1.
  destruct (save_element _ w) as [e1 w1]. simpl in Hw1.
  pose proof (link_dependents_preserves x (add_deps_list deps) w1 Hw1) as Hw2.
  by destruct (link_dependents x (add_deps_list deps) w1) as [[ex mi] w2].
Qed.

Lemma edit_dependencies_preserves x deps op w :
  P w -> P (edit_dependencies x deps op w).2.
Proof.
  intros Hw. unfold edit_dependencies. destruct (load_element x w) as [e|]; [|done].
  destruct (apply_operation op (dependencies e) (edit_deps_list deps)) as [nd|]; [|done].
  pose proof (P_save (with_dependencies e nd) w Hw) as Hw1.
  destruct (save_element _ w) as [e1 w1]. simpl in Hw1.
  pose proof (unlink_dependents_preserves x (dependencies e) (dependencies e1) w1 Hw1)
    as Hw2.
  pose proof (link_dependents_preserves x (dependencies e1) _ Hw2) as Hw3.
  by destruct (link_dependents x (dependencies e1) _) as [[ex mi] w3].
Qed.

Lemma update_code_element_preserves x c ds deps sf lr w :
  P w -> P (update_code_element x c ds deps sf lr w).2.
Proof.
  intros Hw. unfold update_code_element. destruct (load_element x w) as [e|]; [|done].
  destruct (update_text_fields c ds sf lr e) as [e1 fields].
  assert (Hloop : forall nl,
    P (link_dependents x nl (unlink_dependents x (dependencies e) nl w)).2).
  { intros nl. by apply link_dependents_preserves, unlink_dependents_preserves. }
  destruct deps as [|s|l].
  - destruct fields; [done|]. pose proof (P_save e1 w Hw). by destruct (save_element e1 w).
  - specialize (Hloop (edit_deps_list (DepsStr s))).
    destruct (link_dependents x _ _) as [[ex mi] w2]. simpl in Hloop.
    destruct (fields ++ ["dependencies"]); [done|].
    pose proof (P_save (with_dependencies e1 (edit_deps_list (DepsStr s))) w2 Hloop).
    by destruct (save_element _ w2).
  - specialize (Hloop (edit_deps_list (DepsList l))).
    destruct (link_dependents x _ _) as [[ex mi] w2]. simpl in Hloop.
    destruct (fields ++ ["dependencies"]); [done|].
    pose proof (P_save (with_dependencies e1 (edit_deps_list (DepsList l))) w2 Hloop).
    by destruct (save_element _ w2).
Qed.

Hypothesis P_delete : forall x w, P w -> P (update_metadata (unlink x w)).

Lemma remove_element_preserves x w : P w -> P (remove_element x w).2.
Proof.
  intros Hw. unfold remove_element. destruct (load_element x w) as [e|]; [|done].
  pose proof (scrub_fold_preserves x (get_all_elements w) [] w Hw) as Hw1.
  destruct (foldl (scrub_step x) ([], w) (get_all_elements w)) as [upd w1].
  by apply P_delete.
Qed.
End Preservation.

(** ** Failures and the metadata *)

(** X8: on a plain store and with plain ids, a call that does not
    succeed writes nothing: the world it returns (element files, metadata
    file, clock) is the world it was given.  This covers an add on an
    existing id, an edit of an absent id or with an unknown operation, an
    update of an absent id or with no field given, and a removal of an
    absent id. *)
Theorem failed_calls_write_nothing x ty c ds deps sf lr op w :
  plain_store (files w) ->
  plain_id x ->
  Forall plain_id (add_deps_list deps) ->
  Forall plain_id (edit_deps_list deps) ->
  (add_success (add_code_element x ty c ds deps sf lr w).1 = false ->
     (add_code_element x ty c ds deps sf lr w).2 = w)
  /\ (deps <> DepsNone -> edit_success (edit_dependencies x deps op w).1 = false ->
        (edit_dependencies x deps op w).2 = w)
  /\ (update_success (update_code_element x c ds deps sf lr w).1 = false ->
        (update_code_element x c ds deps sf lr w).2 = w)
  /\ (remove_success (remove_element x w).1 = false -> (remove_element x w).2 = w).
Proof.
  intros _ _ _ _. repeat split.
  - unfold add_code_element. destruct (load_element x w); [done|].
    destruct (save_element _ w) as [e1 w1].
    by destruct (link_dependents x (add_deps_list deps) w1) as [[ex mi] w2].
  - intros _. unfold edit_dependencies. destruct (load_element x w) as [e|]; [|done].
    destruct (apply_operation op (dependencies e) (edit_deps_list deps)); [|done].
    destruct (save_element _ w) as [e1 w1].
    by destruct (link_dependents x (dependencies e1) _) as [[ex mi] w3].
  - unfold update_code_element. destruct (load_element x w) as [e|]; [|done].
    destruct (update_text_fields c ds sf lr e) as [e1 fields].
    destruct deps as [|s|l].
    + destruct fields; [done|]. by destruct (save_element e1 w).
    + destruct (link_dependents x _ _) as [[ex mi] w2].
      destruct (fields ++ ["dependencies"]) eqn:Hf; [by destruct fields|].
      by destruct (save_element _ w2).
    + destruct (link_dependents x _ _) as [[ex mi] w2].
      destruct (fields ++ ["dependencies"]) eqn:Hf; [by destruct fields|].
      by destruct (save_element _ w2).
  - unfold remove_element. destruct (load_element x w); [|done].
    by destruct (foldl (scrub_step x) ([], w) (get_all_elements w)).
Qed.

Lemma failed_calls_write_nothing_witness :
  let w := added "a" [] empty_world in
  add_success (add_code_element "a" "function" "pass" "again" (DepsList ["a"]) "" "" w).1
    = false
  /\ edit_success (edit_dependencies "a" (DepsList ["a"]) "swap" w).1 = false
  /\ (add_code_element "a" "function" "pass" "again" (DepsList ["a"]) "" "" w).2 = w
  /\ (edit_dependencies "a" (DepsList ["a"]) "swap" w).2 = w.
Proof.
  cbv zeta.
  assert (Hadd : add_success
                   (add_code_element "a" "function" "pass" "again" (DepsList ["a"])
                      "" "" (added "a" [] empty_world)).1 = false)
    by (vm_compute; reflexivity).
  assert (Hedit : edit_success
                    (edit_dependencies "a" (DepsList ["a"]) "swap"
                       (added "a" [] empty_world)).1 = false)
    by (vm_compute; reflexivity).
  destruct (failed_calls_write_nothing "a" "function" "pass" "again" (DepsList ["a"])
              "" "" "swap" (added "a" [] empty_world)) as (Ha & He & _ & _).
  - apply plain_store_decide. vm_compute. reflexivity.
  - apply plain_id_decide. vm_compute. reflexivity.
  - apply plain_ids_decide. vm_compute. reflexivity.
  - apply plain_ids_decide. vm_compute. reflexivity.
  - split; [exact Hadd|]. split; [exact Hedit|].
    split; [exact (Ha Hadd) | apply He; [discriminate | exact Hedit]].
Defined.

Lemma update_metadata_counted w : meta_counted (update_metadata w).
Proof.
  unfold meta_counted, update_metadata, now. destruct w as [m [md|] c]; simpl; eauto.
Qed.

Lemma save_element_counted e w : meta_counted (save_element e w).2.
Proof. unfold save_element. cbv zeta. simpl. apply update_metadata_counted. Qed.

(** X9: after every successful add, edit, update or removal the metadata
    file exists and its [total_elements] is the number of element files
    in the store the call leaves. *)
Theorem successful_calls_recount x ty c ds deps sf lr op w :
  (add_success (add_code_element x ty c ds deps sf lr w).1 = true ->
     meta_counted (add_code_element x ty c ds deps sf lr w).2)
  /\ (edit_success (edit_dependencies x deps op w).1 = true ->
        meta_counted (edit_dependencies x deps op w).2)
  /\ (update_success (update_code_element x c ds deps sf lr w).1 = true ->
        meta_counted (update_code_element x c ds deps sf lr w).2)
  /\ (remove_success (remove_element x w).1 = true ->
        meta_counted (remove_element x w).2).
Proof.
  pose proof (fun e w (_ : meta_counted w) => save_element_counted e w) as Hsave.
  repeat split.
  - unfold add_code_element. destruct (load_element x w); [done|]. intros _.
    pose proof (save_element_counted
                  (mkCodeElement x ty (strip c) ds (add_deps_list deps) []
                     (or_None sf) (or_None lr) Unset Unset) w) as Hw1.
    destruct (save_element _ w) as [e1 w1]. simpl in Hw1.
    pose proof (link_dependents_preserves _ Hsave x (add_deps_list deps) w1 Hw1) as Hw2.
    by destruct (link_dependents x (add_deps_list deps) w1) as [[ex mi] w2].
  - unfold edit_dependencies. destruct (load_element x w) as [e|]; [|done].
    destruct (apply_operation op (dependencies e) (edit_deps_list deps)) as [nd|];
      [|done]. intros _.
    pose proof (save_element_counted (with_dependencies e nd) w) as Hw1.
    destruct (save_element _ w) as [e1 w1]. simpl in Hw1.
    pose proof (unlink_dependents_preserves _ Hsave x (dependencies e)
                  (dependencies e1) w1 Hw1) as Hw2.
    pose proof (link_dependents_preserves _ Hsave x (dependencies e1) _ Hw2) as Hw3.
    by destruct (link_dependents x (dependencies e1) _) as [[ex mi] w3].
  - unfold update_code_element. destruct (load_element x w) as [e|]; [|done].
    destruct (update_text_fields c ds sf lr e) as [e1 fields].
    destruct deps as [|s|l].
    + destruct fields; [done|]. intros _.
      pose proof (save_element_counted e1 w). by destruct (save_element e1 w).
    + destruct (link_dependents x _ _) as [[ex mi] w2].
      destruct (fields ++ ["dependencies"]); [done|]. intros _.
      pose proof (save_element_counted
                    (with_dependencies e1 (edit_deps_list (DepsStr s))) w2).
      by destruct (save_element _ w2).
    + destruct (link_dependents x _ _) as [[ex mi] w2].
      destruct (fields ++ ["dependencies"]); [done|]. intros _.
      pose proof (save_element_counted
                    (with_dependencies e1 (edit_deps_list (DepsList l))) w2).
      by destruct (save_element _ w2).
  - unfold remove_element. destruct (load_element x w); [|done]. intros _.
    destruct (foldl (scrub_step x) ([], w) (get_all_elements w)) as [upd w1].
    apply update_metadata_counted.
Qed.

(** X10: on a plain store and with plain ids, once the metadata file
    exists and has a creation stamp, no tool changes that stamp: after any
    add, edit, update or removal, successful or not, the file is still
    there with the [created_at] it had.  (A metadata file without the key
    gets the time of the next write.) *)
Theorem metadata_created_at_kept x ty c ds deps sf lr op w m :
  plain_store (files w) ->
  plain_id x ->
  Forall plain_id (add_deps_list deps) ->
  Forall plain_id (edit_deps_list deps) ->
  metadata w = Some m ->
  meta_created_at m <> Unset ->
  let kept w' :=
    exists m', metadata w' = Some m' /\ meta_created_at m' = meta_created_at m in
  kept (add_code_element x ty c ds deps sf lr w).2
  /\ (deps <> DepsNone -> kept (edit_dependencies x deps op w).2)
  /\ kept (update_code_element x c ds deps sf lr w).2
  /\ kept (remove_element x w).2.
Proof.
  intros _ _ _ _ Hm Hset kept.
  assert (Hw : kept w) by (by exists m).
  assert (Hsave : forall e w', kept w' -> kept (save_element e w').2).
  { intros e [f [md|] t] (m' & Hm' & Hc); [|done]. simpl in Hm'.
    injection Hm' as ->. unfold kept, save_element, ensure_knowledge_base,
      update_metadata, now. simpl.
    destruct (meta_created_at m') eqn:Hcr; [congruence|].
    eexists. split; [reflexivity|]. simpl. congruence. }
  assert (Hdel : forall y w', kept w' -> kept (update_metadata (unlink y w'))).
  { intros y [f [md|] t] (m' & Hm' & Hc); [|done]. simpl in Hm'.
    injection Hm' as ->. unfold kept, update_metadata, unlink, now. simpl.
    destruct (meta_created_at m') eqn:Hcr; [congruence|].
    eexists. split; [reflexivity|]. simpl. congruence. }
  split; [by apply add_code_element_preserves|].
  split; [intros _; by apply edit_dependencies_preserves|].
  split; [by apply update_code_element_preserves|].
  by apply remove_element_preserves.
Qed.

Lemma metadata_created_at_kept_witness :
  let w := added "a" ["b"] empty_world in
  metadata w = Some (mkMetadata (At 0) 1 (At 3))
  /\ (exists m', metadata (remove_element "a" w).2 = Some m'
                 /\ meta_created_at m' = At 0)
  /\ (exists m', metadata (edit_dependencies "a" (DepsList []) "replace" w).2 = Some m'
                 /\ meta_created_at m' = At 0).
Proof.
  cbv zeta.
  assert (Hm : metadata (added "a" ["b"] empty_world)
               = Some (mkMetadata (At 0) 1 (At 3))) by (vm_compute; reflexivity).
  destruct (metadata_created_at_kept "a" "function" "pass" "a" (DepsList []) "" ""
              "replace" (added "a" ["b"] empty_world) (mkMetadata (At 0) 1 (At 3)))
    as (_ & Hedit & _ & Hremove).
  - apply plain_store_decide. vm_compute. reflexivity.
  - apply plain_id_decide. vm_compute. reflexivity.
  - apply Forall_nil_2.
  - apply Forall_nil_2.
  - exact Hm.
  - discriminate.
  - split; [exact Hm|]. split; [exact Hremove | apply Hedit; discriminate].
Defined.

(** ** Creation stamps *)

Lemma created_at_save e w :
  created_at (save_element e w).1 <> Unset
  /\ (created_at e <> Unset -> created_at (save_element e w).1 = created_at e).
Proof.
  unfold save_element. simpl. destruct (created_at e); [split; done|].
  split; done.
Qed.

Lemma save_element_stamped e w :
  stamped (files w) -> stamped (files (save_element e w).2).
Proof.
  intros Hs. rewrite save_element_files. apply map_Forall_insert_2; [|done].
  apply created_at_save.
Qed.

Lemma born_save e w k :
  born (save_element e w).2 k =
  if decide (k = id e) then Some (created_at (save_element e w).1) else born w k.
Proof.
  unfold born. rewrite save_element_files. destruct (decide (k = id e)) as [->|Hne].
  - by rewrite lookup_insert_eq.
  - by rewrite lookup_insert_ne.
Qed.

(** Writing back a record with the creation stamp it is filed with. *)
Lemma save_same_births e w :
  store_wf (files w) -> stamped (files w) ->
  born w (id e) = Some (created_at e) ->
  same_births w (save_element e w).2.
Proof.
  intros Hwf Hs Hb. split; [by apply save_element_wf|].
  split; [by apply save_element_stamped|]. intros k. rewrite born_save.
  destruct (decide (k = id e)) as [->|]; [|done]. rewrite Hb. f_equal.
  apply created_at_save. unfold born in Hb.
  destruct (files w !! id e) as [e0|] eqn:He0; [|done]. simpl in Hb.
  injection Hb as <-. by apply (Hs _ _ He0).
Qed.

Lemma same_births_refl w :
  store_wf (files w) -> stamped (files w) -> same_births w w.
Proof. by intros Hwf Hs. Qed.

Lemma same_births_trans w1 w2 w3 :
  same_births w1 w2 -> same_births w2 w3 -> same_births w1 w3.
Proof.
  intros (_ & _ & H12) (Hwf & Hs & H23). split; [done|]. split; [done|].
  intros k. by rewrite H23.
Qed.

Lemma link_step_births x ex mi w d :
  store_wf (files w) -> stamped (files w) ->
  same_births w (link_step x (ex, mi, w) d).2.
Proof.
  intros Hwf Hs. unfold link_step, load_element.
  destruct (files w !! d) as [e|] eqn:Hd; [|by apply same_births_refl].
  simpl. destruct (mem x (dependents e)); [by apply same_births_refl|].
  apply (save_same_births (with_dependents e (dependents e ++ [x])) w); [done..|].
  simpl.
  rewrite (store_wf_lookup _ _ _ Hwf Hd). unfold born. by rewrite Hd.
Qed.

Lemma link_dependents_births x deps w :
  store_wf (files w) -> stamped (files w) ->
  same_births w (link_dependents x deps w).2.
Proof.
  unfold link_dependents. generalize (@nil string) at 1. generalize (@nil string) at 1.
  revert w. induction deps as [|d deps IH]; intros w mi ex Hwf Hs;
    [by apply same_births_refl|].
  foldl_cons. pose proof (link_step_births x ex mi w d Hwf Hs) as Hstep.
  destruct (link_step x (ex, mi, w) d) as [[ex' mi'] w']. simpl in Hstep.
  eapply same_births_trans; [exact Hstep|].
  destruct Hstep as (Hwf' & Hs' & _). by apply IH.
Qed.

Lemma unlink_dependents_births x original new : forall w,
  store_wf (files w) -> stamped (files w) ->
  same_births w (unlink_dependents x original new w).
Proof.
  unfold unlink_dependents.
  induction original as [|d original IH]; intros w Hwf Hs; [by apply same_births_refl|].
  foldl_cons.
  assert (Hstep : same_births w (unlink_step x new w d)).
  { unfold unlink_step, load_element. destruct (mem d new); [by apply same_births_refl|].
    destruct (files w !! d) as [e|] eqn:Hd; [|by apply same_births_refl].
    destruct (mem x (dependents e)); [|by apply same_births_refl].
    apply (save_same_births (with_dependents e (remove_first x (dependents e))) w);
      [done..|]. simpl.
    rewrite (store_wf_lookup _ _ _ Hwf Hd). unfold born. by rewrite Hd. }
  eapply same_births_trans; [exact Hstep|].
  destruct Hstep as (Hwf' & Hs' & _). by apply IH.
Qed.

Lemma scrub_step_births x upd w e :
  store_wf (files w) -> stamped (files w) ->
  born w (id e) = Some (created_at e) ->
  same_births w (scrub_step x (upd, w) e).2.
Proof.
  intros Hwf Hs Hb. unfold scrub_step.
  destruct (decide (id e = x)); [by apply same_births_refl|].
  assert (Hset : created_at e <> Unset).
  { unfold born in Hb. destruct (files w !! id e) as [e0|] eqn:He0; [|done].
    simpl in Hb. injection Hb as <-. by apply (Hs _ _ He0). }
  destruct (mem x (dependencies e)).
  - pose proof (save_same_births
                  (with_dependencies e (remove_first x (dependencies e))) w Hwf Hs Hb)
      as H1.
    pose proof (created_at_save
                  (with_dependencies e (remove_first x (dependencies e))) w) as [_ Hc].
    pose proof (save_element_id
                  (with_dependencies e (remove_first x (dependencies e))) w) as Hi.
    destruct (save_element _ w) as [e1 w1]. simpl in H1, Hc, Hi.
    specialize (Hc Hset).
    destruct (mem x (dependents e1)); [|done].
    destruct H1 as (Hwf1 & Hs1 & Hb1).
    assert (H2 : same_births w1
                   (save_element (with_dependents e1 (remove_first x (dependents e1)))
                      w1).2).
    { apply (save_same_births (with_dependents e1 (remove_first x (dependents e1))) w1);
        [done..|]. simpl. by rewrite Hi, Hb1, Hc. }
    destruct (save_element _ w1) as [e2 w2]. simpl in *.
    by apply (same_births_trans w w1 w2).
  - destruct (mem x (dependents e)); [|by apply same_births_refl].
    pose proof (save_same_births
                  (with_dependents e (remove_first x (dependents e))) w Hwf Hs Hb) as H1.
    by destruct (save_element _ w).
Qed.

Lemma scrub_fold_births x l : forall upd w,
  store_wf (files w) -> stamped (files w) ->
  (forall e, e ∈ l -> born w (id e) = Some (created_at e)) ->
  same_births w (foldl (scrub_step x) (upd, w) l).2.
Proof.
  induction l as [|e l IH]; intros upd w Hwf Hs Hl; [by apply same_births_refl|].
  foldl_cons.
  pose proof (scrub_step_births x upd w e Hwf Hs (Hl e (list_elem_of_here _ _))) as Hstep.
  destruct (scrub_step x (upd, w) e) as [upd' w'].
  eapply same_births_trans; [exact Hstep|]. destruct Hstep as (Hwf' & Hs' & Hb').
  apply IH; [done..|]. intros e' He'. simpl in Hb'. rewrite Hb'.
  apply Hl. by apply list_elem_of_further.
Qed.

(** X11: on a plain store whose records all carry a creation stamp, and
    with plain ids, no tool changes the creation stamp of a record: an edit or an update keeps
    every [created_at], an add keeps those of all records but the new one,
    a removal those of all records but the removed one, and in each case
    every record of the resulting store carries a creation stamp. *)
Theorem creation_stamps_kept x ty c ds deps sf lr op w :
  plain_store (files w) ->
  plain_id x ->
  Forall plain_id (add_deps_list deps) ->
  Forall plain_id (edit_deps_list deps) ->
  stamped (files w) ->
  (stamped (files (add_code_element x ty c ds deps sf lr w).2)
   /\ forall k, k <> x -> born (add_code_element x ty c ds deps sf lr w).2 k = born w k)
  /\ (deps <> DepsNone ->
      stamped (files (edit_dependencies x deps op w).2)
      /\ forall k, born (edit_dependencies x deps op w).2 k = born w k)
  /\ (stamped (files (update_code_element x c ds deps sf lr w).2)
      /\ forall k, born (update_code_element x c ds deps sf lr w).2 k = born w k)
  /\ (stamped (files (remove_element x w).2)
      /\ forall k, k <> x -> born (remove_element x w).2 k = born w k).
Proof.
  intros Hwf%plain_store_wf _ _ _ Hs. split; [|split; [|split]].
  - unfold add_code_element, load_element.
    destruct (files w !! x) as [e|] eqn:Hx; [done|].
    set (e0 := mkCodeElement x ty (strip c) ds (add_deps_list deps) []
                 (or_None sf) (or_None lr) Unset Unset).
    pose proof (save_element_wf e0 w Hwf) as Hwf1.
    pose proof (save_element_stamped e0 w Hs) as Hs1.
    pose proof (born_save e0 w) as Hb1.
    destruct (save_element e0 w) as [e1 w1]. simpl in Hwf1, Hs1, Hb1.
    pose proof (link_dependents_births x (add_deps_list deps) w1 Hwf1 Hs1)
      as (_ & Hs2 & Hb2).
    destruct (link_dependents x (add_deps_list deps) w1) as [[ex mi] w2].
    simpl in *. split; [done|]. intros k Hk. rewrite Hb2, Hb1.
    by rewrite decide_False.
  - intros _. unfold edit_dependencies, load_element.
    destruct (files w !! x) as [e|] eqn:Hx; [|done].
    destruct (apply_operation op (dependencies e) (edit_deps_list deps)) as [nd|];
      [|done].
    pose proof (store_wf_lookup _ _ _ Hwf Hx) as Hid.
    assert (H1 : same_births w (save_element (with_dependencies e nd) w).2).
    { apply (save_same_births (with_dependencies e nd) w); [done..|]. simpl.
      rewrite Hid. unfold born. by rewrite Hx. }
    destruct (save_element (with_dependencies e nd) w) as [e1 w1]. simpl in H1.
    destruct H1 as (Hwf1 & Hs1 & Hb1).
    pose proof (unlink_dependents_births x (dependencies e) (dependencies e1) w1
                  Hwf1 Hs1) as (Hwf2 & Hs2 & Hb2).
    pose proof (link_dependents_births x (dependencies e1) _ Hwf2 Hs2)
      as (_ & Hs3 & Hb3).
    destruct (link_dependents x (dependencies e1) _) as [[ex mi] w3].
    simpl in *. split; [done|]. intros k. by rewrite Hb3, Hb2, Hb1.
  - unfold update_code_element, load_element.
    destruct (files w !! x) as [e|] eqn:Hx; [|done].
    pose proof (store_wf_lookup _ _ _ Hwf Hx) as Hid.
    destruct (update_text_fields_spec c ds sf lr e) as (Hid1 & _).
    assert (Hc1 : created_at (update_text_fields c ds sf lr e).1 = created_at e).
    { unfold update_text_fields.
      by destruct (truthy (strip c)), (truthy (strip ds)), (truthy (strip sf)),
        (truthy (strip lr)). }
    destruct (update_text_fields c ds sf lr e) as [e1 fields]. simpl in Hid1, Hc1.
    assert (Hfinal : forall e2 w2, same_births w w2 -> id e2 = x ->
              created_at e2 = created_at e ->
              same_births w (save_element e2 w2).2).
    { intros e2 w2 H2 Hi Hc. eapply same_births_trans; [exact H2|].
      destruct H2 as (Hwf2 & Hs2 & Hb2).
      apply (save_same_births e2 w2); [done..|].
      rewrite Hb2, Hi, Hc. unfold born. by rewrite Hx. }
    assert (Hloop : forall nl,
      same_births w (link_dependents x nl (unlink_dependents x (dependencies e) nl w)).2).
    { intros nl.
      pose proof (unlink_dependents_births x (dependencies e) nl w Hwf Hs) as H1.
      eapply same_births_trans; [exact H1|]. destruct H1 as (Hwf1 & Hs1 & _).
      by apply link_dependents_births. }
    destruct deps as [|s|l].
    + destruct fields; [done|].
      pose proof (Hfinal e1 w (same_births_refl w Hwf Hs)) as H1.
      destruct (save_element e1 w). simpl in *.
      destruct H1 as (_ & ? & ?); [congruence | done | done].
    + specialize (Hloop (edit_deps_list (DepsStr s))).
      destruct (link_dependents x _ _) as [[ex mi] w2]. simpl in Hloop.
      destruct (fields ++ ["dependencies"]) eqn:Hf; [by destruct fields|].
      pose proof (Hfinal (with_dependencies e1 (edit_deps_list (DepsStr s))) w2 Hloop)
        as H1.
      destruct (save_element _ w2). simpl in *.
      destruct H1 as (_ & ? & ?); [congruence | done | done].
    + specialize (Hloop (edit_deps_list (DepsList l))).
      destruct (link_dependents x _ _) as [[ex mi] w2]. simpl in Hloop.
      destruct (fields ++ ["dependencies"]) eqn:Hf; [by destruct fields|].
      pose proof (Hfinal (with_dependencies e1 (edit_deps_list (DepsList l))) w2 Hloop)
        as H1.
      destruct (save_element _ w2). simpl in *.
      destruct H1 as (_ & ? & ?); [congruence | done | done].
  - unfold remove_element, load_element.
    destruct (files w !! x) as [e|] eqn:Hx; [|done].
    assert (Hl : forall e', e' ∈ get_all_elements w ->
              born w (id e') = Some (created_at e')).
    { intros e' He'. apply elem_of_get_all_elements in He' as [k Hk].
      rewrite (store_wf_lookup _ _ _ Hwf Hk). unfold born. by rewrite Hk. }
    pose proof (scrub_fold_births x (get_all_elements w) [] w Hwf Hs Hl)
      as (_ & Hs1 & Hb1).
    destruct (foldl (scrub_step x) ([], w) (get_all_elements w)) as [upd w1].
    simpl in *. split.
    + rewrite update_metadata_files. simpl. by apply map_Forall_delete.
    + intros k Hk. unfold born at 1. rewrite update_metadata_files. simpl.
      rewrite lookup_delete_ne by done. apply Hb1.
Qed.

Lemma creation_stamps_kept_witness :
  let w := added "a" ["b"] (added "b" [] empty_world) in
  born w "a" = Some (At 5) /\ born w "b" = Some (At 2)
  /\ (forall k, born (edit_dependencies "a" (DepsList []) "replace" w).2 k = born w k)
  /\ (forall k, k <> "a" -> born (remove_element "a" w).2 k = born w k).
Proof.
  cbv zeta.
  assert (Hwf : plain_store (files (added "a" ["b"] (added "b" [] empty_world))))
    by (apply plain_store_decide; vm_compute; reflexivity).
  assert (Hs : stamped (files (added "a" ["b"] (added "b" [] empty_world)))).
  { apply (bool_decide_eq_true_1 (stamped _)). vm_compute. reflexivity. }
  assert (Hpx : plain_id "a") by (apply plain_id_decide; vm_compute; reflexivity).
  destruct (creation_stamps_kept "a" "function" "pass" "a" (DepsList []) "" "" "replace"
              _ Hwf Hpx (Forall_nil_2 _) (Forall_nil_2 _) Hs)
    as (_ & Hedit & _ & (_ & Hremove)).
  split; [vm_compute; reflexivity|]. split; [vm_compute; reflexivity|].
  split; [apply Hedit; discriminate | exact Hremove].
Defined.

(** ** Reading back *)

(** X12: what [get_element] returns for a plain id that has just been
    added to a plain store, with plain ids for dependencies:
    the id and type as given, the code with surrounding white space
    stripped, the description as given, the dependency list as given (a
    bare non-empty string as a one-element list, nothing or an empty string
    as the empty list), a source file and a line range that are absent when
    given as empty strings, and a creation stamp. *)
Theorem add_then_get x ty c ds deps sf lr w :
  plain_store (files w) ->
  plain_id x ->
  Forall plain_id (add_deps_list deps) ->
  files w !! x = None ->
  exists e,
    get_element x (add_code_element x ty c ds deps sf lr w).2 = GetSuccess e
    /\ id e = x /\ type e = ty /\ code e = strip c /\ description e = ds
    /\ dependencies e = add_deps_list deps
    /\ source_file e = or_None sf /\ line_range e = or_None lr
    /\ created_at e <> Unset.
Proof.
  intros Hwf%plain_store_wf _ _ Hfresh.
  destruct (add_code_element_fresh x ty c ds deps sf lr w Hwf Hfresh)
    as (st & w' & Hadd & Hwf' & Hview).
  assert (Hstamped : created_at <$> files w' !! x <> Some Unset).
  { assert (Hsave : forall e0 w0,
              created_at <$> files w0 !! x <> Some Unset ->
              created_at <$> files (save_element e0 w0).2 !! x <> Some Unset).
    { intros e0 w0 H0. rewrite save_element_files.
      destruct (decide (id e0 = x)) as [<-|Hne].
      - rewrite lookup_insert_eq. simpl. intros [=Hq].
        by apply (proj1 (created_at_save e0 w0)).
      - by rewrite lookup_insert_ne. }
    pose proof (add_code_element_preserves _ Hsave x ty c ds deps sf lr w) as Hp.
    rewrite Hadd in Hp. apply Hp. by rewrite Hfresh. }
  rewrite Hadd. simpl. unfold get_element, load_element.
  specialize (Hview x). rewrite decide_True in Hview by done.
  unfold view in Hview. destruct (files w' !! x) as [e|] eqn:He;
    [|by destruct (bool_decide _)].
  assert (Hun : unstamped e =
                (if bool_decide (x ∈ add_deps_list deps) then gain x else fun e => e)
                  (new_element x ty c ds deps sf lr)).
  { apply (inj Some). exact Hview. }
  exists e. split; [done|].
  change (id e) with (id (unstamped e)). change (type e) with (type (unstamped e)).
  change (code e) with (code (unstamped e)).
  change (description e) with (description (unstamped e)).
  change (dependencies e) with (dependencies (unstamped e)).
  change (source_file e) with (source_file (unstamped e)).
  change (line_range e) with (line_range (unstamped e)).
  rewrite Hun. split; [by destruct (bool_decide _)|].
  split; [by destruct (bool_decide _)|]. split; [by destruct (bool_decide _)|].
  split; [by destruct (bool_decide _)|]. split; [by destruct (bool_decide _)|].
  split; [by destruct (bool_decide _)|]. split; [by destruct (bool_decide _)|].
  intros Hu. apply Hstamped. simpl. by rewrite Hu.
Qed.

Lemma add_then_get_witness :
  exists e,
    get_element "a"
      (add_code_element "a" "function" "  return 1 " "one" (DepsStr "b") "" "3-4"
         empty_world).2 = GetSuccess e
    /\ id e = "a" /\ type e = "function" /\ code e = "return 1" /\ description e = "one"
    /\ dependencies e = ["b"]
    /\ source_file e = None /\ line_range e = Some "3-4"
    /\ created_at e <> Unset.
Proof.
  apply (add_then_get "a" "function" "  return 1 " "one" (DepsStr "b") "" "3-4"
           empty_world plain_store_empty).
  - apply plain_id_decide. vm_compute. reflexivity.
  - apply plain_ids_decide. vm_compute. reflexivity.
  - vm_compute. reflexivity.
Defined.

(** ** find_missing_dependencies, exactly *)

Lemma app_refs_app o l1 l2 : app_refs (app_refs o l1) l2 = app_refs o (l1 ++ l2).
Proof.
  destruct l1 as [|r1 l1]; [done|]. destruct l2 as [|r2 l2].
  - by rewrite app_nil_r.
  - simpl. by rewrite <- app_assoc.
Qed.

Lemma missing_inner_lookup ids e deps : forall md d,
  foldl (missing_step ids e) md deps !! d =
  if bool_decide (d ∈ ids) then md !! d
  else app_refs (md !! d) ((fun _ => referencer e) <$> filter (fun d' => d' = d) deps).
Proof.
  induction deps as [|d' deps IH]; intros md d.
  - simpl. by destruct (bool_decide _).
  - foldl_cons. rewrite IH. destruct (bool_decide_reflect (d ∈ ids)) as [Hd|Hd].
    + unfold missing_step. case_bool_decide; [done|].
      rewrite lookup_insert_ne; [done|]. intros ->. done.
    + rewrite filter_cons. unfold missing_step.
      destruct (decide (d' = d)) as [->|Hne].
      * rewrite bool_decide_false by done. rewrite lookup_insert_eq.
        rewrite fmap_cons. 
        change (Some (default [] (md !! d) ++ [referencer e]))
          with (app_refs (md !! d) [referencer e]).
        by rewrite app_refs_app.
      * case_bool_decide; [done|]. by rewrite lookup_insert_ne.
Qed.

(** What the scan files under each key. *)
Lemma missing_scan_lookup ids elems d :
  missing_scan ids elems !! d =
  if bool_decide (d ∈ ids) then None else app_refs None (references d elems).
Proof.
  unfold missing_scan.
  assert (Hgen : forall md,
    foldl (fun md element => foldl (missing_step ids element) md (dependencies element))
      md elems !! d =
    if bool_decide (d ∈ ids) then md !! d else app_refs (md !! d) (references d elems)).
  { induction elems as [|e elems IH]; intros md.
    - simpl. by destruct (bool_decide _).
    - foldl_cons. rewrite IH, missing_inner_lookup.
      destruct (bool_decide (d ∈ ids)); [done|].
      rewrite app_refs_app. done. }
  rewrite Hgen, lookup_empty. by destruct (bool_decide _).
Qed.

Lemma elem_of_references d elems r :
  r ∈ references d elems <-> exists e, e ∈ elems /\ d ∈ dependencies e /\ r = referencer e.
Proof.
  unfold references. rewrite list_elem_of_In, in_flat_map. split.
  - intros (e & He & Hr). apply list_elem_of_In in He, Hr.
    apply list_elem_of_fmap in Hr as (d' & -> & Hd').
    apply list_elem_of_filter in Hd' as [-> Hd']. eauto.
  - intros (e & He & Hd & ->). exists e. rewrite <- !list_elem_of_In.
    split; [done|]. apply list_elem_of_fmap. exists d. split; [done|].
    by apply list_elem_of_filter.
Qed.

Lemma app_refs_None l : app_refs None l = if decide (l = []) then None else Some l.
Proof. by destruct l. Qed.

(** X13: on a plain store, for a plain id or for no id (the empty
    string), [find_missing_dependencies] fails exactly for a non-empty id
    without a record.  Otherwise it reports an id if and only if the id
    has no record and is listed as a dependency by a checked element (the
    named one, or every element when no id is given); the entries under a
    reported id are exactly the checked elements that list it;
    [total_missing] is the number of reported ids and [checked_elements]
    the number of checked elements.  With no id given the reported ids are
    the missing ids the statistics count. *)
Theorem find_missing_sound_complete x w :
  plain_store (files w) ->
  x = "" \/ plain_id x ->
  match find_missing_dependencies x w with
  | MissingNotFound _ => x <> "" /\ files w !! x = None
  | MissingSuccess md total checked =>
      (x = "" \/ is_Some (files w !! x))
      /\ total = size md
      /\ checked = length (checked_scope x w)
      /\ (forall d, is_Some (md !! d) <->
            files w !! d = None
            /\ exists e, e ∈ checked_scope x w /\ d ∈ dependencies e)
      /\ (forall d refs r, md !! d = Some refs ->
            (r ∈ refs <->
             exists e, e ∈ checked_scope x w /\ d ∈ dependencies e /\ r = referencer e))
      /\ (x = "" -> dom md = missing_ids w)
  end.
Proof.
  intros Hwf%plain_store_wf _. unfold find_missing_dependencies, load_element.
  assert (Hscan : forall scope d,
    missing_scan (all_element_ids w) scope !! d =
    if decide (is_Some (files w !! d)) then None
    else if decide (references d scope = []) then None
    else Some (references d scope)).
  { intros scope d. rewrite missing_scan_lookup, all_element_ids_dom by done.
    destruct (decide (is_Some (files w !! d))) as [Hd|Hd].
    - rewrite bool_decide_true; [done|]. by apply elem_of_dom.
    - rewrite bool_decide_false; [apply app_refs_None|]. by rewrite elem_of_dom. }
  assert (Hkeys : forall scope d,
    is_Some (missing_scan (all_element_ids w) scope !! d) <->
    files w !! d = None /\ exists e, e ∈ scope /\ d ∈ dependencies e).
  { intros scope d. rewrite Hscan.
    destruct (decide (is_Some (files w !! d))) as [Hd|Hd].
    - split; [by intros [? ?]|]. intros [Hn _]. rewrite Hn in Hd. by destruct Hd.
    - assert (Hn : files w !! d = None) by (by apply eq_None_not_Some).
      destruct (decide (references d scope = [])) as [Hr|Hr].
      + split; [by intros [? ?]|]. intros (_ & e & He & Hde).
        assert (Hin : referencer e ∈ references d scope)
          by (apply elem_of_references; eauto).
        rewrite Hr in Hin. by apply elem_of_nil in Hin.
      + split; [|eauto]. intros _. split; [done|].
        destruct (references d scope) as [|r rs] eqn:Hrs; [done|].
        assert (Hin : r ∈ references d scope) by (rewrite Hrs; apply list_elem_of_here).
        apply elem_of_references in Hin as (e & He & Hde & _). eauto. }
  assert (Hrefs : forall scope d refs r,
    missing_scan (all_element_ids w) scope !! d = Some refs ->
    (r ∈ refs <-> exists e, e ∈ scope /\ d ∈ dependencies e /\ r = referencer e)).
  { intros scope d refs r. rewrite Hscan.
    destruct (decide _); [done|]. destruct (decide _); [done|].
    intros [= <-]. apply elem_of_references. }
  unfold checked_scope.
  destruct (truthy x) eqn:Htr.
  - assert (Hx : x <> "") by (intros ->; done).
    destruct (files w !! x) as [e|] eqn:He; [|done].
    split; [right; eauto|]. split; [done|]. split; [done|].
    split; [apply Hkeys|]. split; [apply Hrefs|]. done.
  - assert (Hx : x = "") by (by destruct x).
    split; [by left|]. split; [done|]. split; [done|].
    split; [apply Hkeys|]. split; [apply Hrefs|]. intros _.
    apply set_eq. intros d. rewrite elem_of_dom, Hkeys. unfold missing_ids.
    rewrite elem_of_list_to_set, list_elem_of_filter, list_elem_of_In, in_flat_map.
    split.
    + intros (Hn & e & He & Hd). split; [done|]. exists e.
      by rewrite <- !list_elem_of_In.
    + intros (Hn & e & He & Hd). split; [done|]. exists e.
      by rewrite !list_elem_of_In.
Qed.

Lemma find_missing_sound_complete_witness :
  let w := added "b" ["ghost"] (added "a" ["ghost"; "b"; "gone"] empty_world) in
  find_missing_dependencies "" w
  = MissingSuccess
      (<["ghost" := [mkReferencer "a" "function" "a"; mkReferencer "b" "function" "b"]]>
         (<["gone" := [mkReferencer "a" "function" "a"]]> ∅)) 2 2
  /\ find_missing_dependencies "nobody" w = MissingNotFound "Element 'nobody' not found"
  /\ match find_missing_dependencies "b" w with
     | MissingNotFound _ => False
     | MissingSuccess md total checked =>
         total = size md /\ checked = length (checked_scope "b" w)
         /\ forall d, is_Some (md !! d) <->
              files w !! d = None /\ exists e, e ∈ checked_scope "b" w /\ d ∈ dependencies e
     end.
Proof.
  cbv zeta. split; [vm_compute; reflexivity|]. split; [vm_compute; reflexivity|].
  pose proof (find_missing_sound_complete "b"
                (added "b" ["ghost"] (added "a" ["ghost"; "b"; "gone"] empty_world))) as H.
  destruct (find_missing_dependencies "b" _) as [msg|md total checked].
  - exfalso.
    assert (Hwf : plain_store (files (added "b" ["ghost"]
                                        (added "a" ["ghost"; "b"; "gone"] empty_world))))
      by (apply plain_store_decide; vm_compute; reflexivity).
    assert (Hpx : "b" = "" \/ plain_id "b")
      by (right; apply plain_id_decide; vm_compute; reflexivity).
    destruct (H Hwf Hpx) as [_ Hnone]. vm_compute in Hnone. discriminate Hnone.
  - assert (Hwf : plain_store (files (added "b" ["ghost"]
                                        (added "a" ["ghost"; "b"; "gone"] empty_world))))
      by (apply plain_store_decide; vm_compute; reflexivity).
    assert (Hpx : "b" = "" \/ plain_id "b")
      by (right; apply plain_id_decide; vm_compute; reflexivity).
    destruct (H Hwf Hpx) as (_ & Ht & Hc & Hk & _). done.
Defined.

(** ** The counters of the statistics *)

Lemma stats_fold_more ids elems : forall c,
  let c' := foldl (stats_step ids) c elems in
  (forall t,
     c_element_types c' !! t =
     match length (filter (fun e => type e = t) elems) with
     | 0 => c_element_types c !! t
     | S n => Some (default 0 (c_element_types c !! t) + S n)
     end)
  /\ c_max_dependencies c'
     = Nat.max (c_max_dependencies c)
         (max_list_with (fun e => length (dependencies e)) elems)
  /\ c_no_dependencies c'
     = c_no_dependencies c + length (filter (fun e => dependencies e = []) elems)
  /\ c_no_dependents c'
     = c_no_dependents c + length (filter (fun e => dependents e = []) elems).
Proof.
  induction elems as [|e elems IH]; intros c; cbv zeta.
  - simpl. split; [done|]. split; [lia|]. split; lia.
  - foldl_cons. destruct (IH (stats_step ids c e)) as (Hty & Hmax & Hnd & Hnp).
    cbv zeta in Hty, Hmax, Hnd, Hnp. rewrite Hmax, Hnd, Hnp. clear Hmax Hnd Hnp.
    cbn [stats_step c_element_types c_max_dependencies c_no_dependencies
         c_no_dependents max_list_with].
    rewrite !filter_cons. split; [|split; [lia|split]].
    + intros t. rewrite Hty. cbn [stats_step c_element_types].
      destruct (decide (type e = t)) as [<-|Hne].
      * rewrite lookup_insert_eq, filter_cons, decide_True by done. simpl length.
        cbn [default from_option].
        generalize (default 0 (c_element_types c !! type e)). intros k.
        destruct (length (filter (fun e0 => type e0 = type e) elems));
          cbn [default from_option]; unfold Datatypes.id; f_equal; lia.
      * rewrite filter_cons, decide_False by done. by rewrite lookup_insert_ne.
    + destruct (decide (dependencies e = [])) as [He|He].
      * rewrite He. simpl. lia.
      * destruct (dependencies e); [done|]. simpl. lia.
    + destruct (decide (dependents e = [])) as [He|He].
      * rewrite He. simpl. lia.
      * destruct (dependents e); [done|]. simpl. lia.
Qed.

(** X14: the counters of [get_knowledge_tree_stats] on a plain store
    with at least one record: the histogram holds, for each type that occurs, the
    number of elements of that type, and nothing for a type that does not
    occur; [max_dependencies] is the longest dependency list; the two
    zero counters count the elements with an empty dependency list and
    with an empty dependents list; the missing list holds each missing id
    once; and [circular_dependencies] is 0 whatever the store. *)
Theorem stats_counters {F : Type} `{PyNumber F} w :
  plain_store (files w) ->
  files w <> ∅ ->
  exists stats,
    get_knowledge_tree_stats (F := F) w = StatsSuccess stats
    /\ (forall t,
          stats_element_types stats !! t =
          match length (filter (fun e => type e = t) (get_all_elements w)) with
          | 0 => None
          | S n => Some (S n)
          end)
    /\ max_dependencies (dependency_stats stats)
       = max_list_with (fun e => length (dependencies e)) (get_all_elements w)
    /\ elements_with_no_dependencies (dependency_stats stats)
       = length (filter (fun e => dependencies e = []) (get_all_elements w))
    /\ elements_with_no_dependents (dependency_stats stats)
       = length (filter (fun e => dependents e = []) (get_all_elements w))
    /\ NoDup (missing_dependency_list stats)
    /\ (forall d, d ∈ missing_dependency_list stats <-> d ∈ missing_ids w)
    /\ circular_dependencies (health_metrics stats) = 0.
Proof.
  intros Hwf%plain_store_wf Hne. unfold get_knowledge_tree_stats.
  pose proof (length_get_all_elements w) as Hlen.
  assert (Hpos : 0 < size (files w)).
  { apply map_size_non_empty_iff in Hne. lia. }
  remember (get_all_elements w) as l eqn:Hl.
  destruct l as [|e0 elems]; [simpl in Hlen; lia|].
  cbv beta iota zeta. rewrite Hl in *. clear Hl e0 elems.
  destruct (stats_fold (list_to_set (map id (get_all_elements w)))
              (get_all_elements w) Counters0) as (_ & _ & Hmiss).
  destruct (stats_fold_more (list_to_set (map id (get_all_elements w)))
              (get_all_elements w) Counters0) as (Hty & Hmax & Hnd & Hnp).
  cbv zeta in Hty, Hmax, Hnd, Hnp.
  set (c := foldl _ Counters0 (get_all_elements w)) in *.
  fold (all_element_ids w) in Hmiss.
  assert (Hmissing : c_missing_deps c = missing_ids w).
  { rewrite Hmiss. unfold missing_ids. simpl. rewrite union_empty_l_L.
    f_equal. apply list_filter_iff. intros d.
    rewrite all_element_ids_dom by done. apply not_elem_of_dom. }
  eexists. split; [reflexivity|].
  cbn [stats_element_types dependency_stats health_metrics max_dependencies
       elements_with_no_dependencies elements_with_no_dependents
       missing_dependency_list circular_dependencies].
  split.
  { intros t. rewrite Hty. simpl. rewrite lookup_empty.
    by destruct (length (filter _ (get_all_elements w))). }
  split; [by rewrite Hmax|]. split; [by rewrite Hnd|]. split; [by rewrite Hnp|].
  split; [apply NoDup_elements|]. split; [|done].
  intros d. by rewrite elem_of_elements, Hmissing.
Qed.

Lemma stats_counters_witness :
  exists stats,
    get_knowledge_tree_stats (F := float) cycle_world = StatsSuccess stats
    /\ (forall t,
          stats_element_types stats !! t =
          match length (filter (fun e => type e = t) (get_all_elements cycle_world)) with
          | 0 => None
          | S n => Some (S n)
          end)
    /\ max_dependencies (dependency_stats stats)
       = max_list_with (fun e => length (dependencies e)) (get_all_elements cycle_world)
    /\ elements_with_no_dependencies (dependency_stats stats)
       = length (filter (fun e => dependencies e = []) (get_all_elements cycle_world))
    /\ elements_with_no_dependents (dependency_stats stats)
       = length (filter (fun e => dependents e = []) (get_all_elements cycle_world))
    /\ NoDup (missing_dependency_list stats)
    /\ (forall d, d ∈ missing_dependency_list stats <-> d ∈ missing_ids cycle_world)
    /\ circular_dependencies (health_metrics stats) = 0.
Proof.
  apply (stats_counters (F := float) cycle_world).
  - apply plain_store_decide. vm_compute. reflexivity.
  - intros Hempty. apply (f_equal (fun m => m !! "a")) in Hempty.
    vm_compute in Hempty. discriminate Hempty.
Defined.

(** ** The statistics of the tree view *)

Lemma tree_stats_fold ids elems : forall c,
  foldl tree_stats_step
    (c_element_types c, c_total_deps c, c_max_dependencies c, c_orphaned c) elems
  = (c_element_types (foldl (stats_step ids) c elems),
     c_total_deps (foldl (stats_step ids) c elems),
     c_max_dependencies (foldl (stats_step ids) c elems),
     c_orphaned (foldl (stats_step ids) c elems)).
Proof.
  induction elems as [|e elems IH]; intros c; [done|].
  change (foldl (stats_step ids) c (e :: elems))
    with (foldl (stats_step ids) (stats_step ids c e) elems).
  rewrite <- IH.
  change (foldl tree_stats_step ?a (e :: elems))
    with (foldl tree_stats_step (tree_stats_step a e) elems).
  f_equal.
  unfold tree_stats_step, stats_step. cbn [c_element_types c_total_deps
    c_max_dependencies c_orphaned]. f_equal.
  by destruct (dependencies e), (dependents e).
Qed.

(** X15: whenever [get_knowledge_tree_view] renders a tree, the
    statistics it returns are those of [get_knowledge_tree_stats] on the
    same store: the same number of elements, histogram of types, average
    and maximum of the dependency counts, and number of orphans. *)
Theorem tree_view_statistics_agree {F : Type} `{PyNumber F} fuel root max_depth w tree st :
  store_wf (files w) ->
  get_knowledge_tree_view (F := F) fuel root max_depth w = Some (TreeSuccess tree st) ->
  exists stats,
    get_knowledge_tree_stats (F := F) w = StatsSuccess stats
    /\ tree_total_elements st = stats_total_elements stats
    /\ tree_element_types st = stats_element_types stats
    /\ avg_dependencies st = avg_dependencies_per_element (dependency_stats stats)
    /\ tree_max_dependencies st = max_dependencies (dependency_stats stats)
    /\ orphaned_elements st = health_orphaned_elements (health_metrics stats).
Proof.
  intros Hwf Hview. unfold get_knowledge_tree_view in Hview.
  rewrite index_by_id_files in Hview by done.
  destruct (decide (files w = ∅)) as [Hempty|Hne]; [done|].
  assert (Hst : st = tree_statistics (files w)).
  { destruct (if truthy root then _ else _) as [msg|[lines|]]; [done| |done].
    by injection Hview as _ <-. }
  clear Hview. subst st. unfold get_knowledge_tree_stats, tree_statistics.
  pose proof (length_get_all_elements w) as Hlen.
  assert (Hpos : 0 < size (files w)).
  { apply map_size_non_empty_iff in Hne. lia. }
  assert (Hvalues : values (files w) = get_all_elements w)
    by (by rewrite get_all_elements_values).
  rewrite Hvalues.
  remember (get_all_elements w) as l eqn:Hl.
  destruct l as [|e0 elems]; [simpl in Hlen; lia|].
  cbv beta iota zeta. rewrite Hl in *. clear Hl e0 elems.
  pose proof (tree_stats_fold (list_to_set (map id (get_all_elements w)))
                (get_all_elements w) Counters0) as Hfold.
  cbn [Counters0 c_element_types c_total_deps c_max_dependencies c_orphaned] in Hfold.
  rewrite Hfold. eexists. split; [reflexivity|].
  cbn [tree_total_elements tree_element_types avg_dependencies tree_max_dependencies
       orphaned_elements stats_total_elements stats_element_types dependency_stats
       health_metrics avg_dependencies_per_element max_dependencies
       health_orphaned_elements].
  rewrite Hlen. done.
Qed.

Lemma tree_view_statistics_agree_witness :
  exists tree st stats,
    get_knowledge_tree_view (F := float) 5 "" 3 stats_world = Some (TreeSuccess tree st)
    /\ get_knowledge_tree_stats (F := float) stats_world = StatsSuccess stats
    /\ tree_total_elements st = stats_total_elements stats
    /\ tree_element_types st = stats_element_types stats
    /\ avg_dependencies st = avg_dependencies_per_element (dependency_stats stats)
    /\ tree_max_dependencies st = max_dependencies (dependency_stats stats)
    /\ orphaned_elements st = health_orphaned_elements (health_metrics stats).
Proof.
  assert (Hwf : store_wf (files stats_world))
    by (apply store_wf_decide; vm_compute; reflexivity).
  destruct (get_knowledge_tree_view (F := float) 5 "" 3 stats_world)
    as [[msg tr n|msg|tree st]|] eqn:Hview;
    try (vm_compute in Hview; discriminate Hview).
  destruct (tree_view_statistics_agree (F := float) 5 "" 3 stats_world tree st Hwf Hview)
    as (stats & Hstats & Hrest).
  exists tree, st, stats. split; [reflexivity|]. split; [exact Hstats | exact Hrest].
Defined.

(** ** Adding and removing again *)

Lemma remove_first_snoc x l : x ∉ l -> remove_first x (l ++ [x]) = l.
Proof.
  induction l as [|y l IH]; intros Hx; simpl.
  - by rewrite decide_True.
  - apply not_elem_of_cons in Hx as [Hne Hx]. rewrite decide_False by done.
    by rewrite IH.
Qed.

Lemma scrub_absent x e : x ∉ dependencies e -> x ∉ dependents e -> scrub x e = e.
Proof.
  intros Hd Hp. unfold scrub, mem.
  rewrite (bool_decide_false _ Hd). by rewrite (bool_decide_false _ Hp).
Qed.

Lemma scrub_gain x e : x ∉ dependencies e -> x ∉ dependents e -> scrub x (gain x e) = e.
Proof.
  intros Hd Hp. unfold gain, mem. rewrite (bool_decide_false _ Hp).
  unfold scrub, mem. cbn [with_dependents dependencies dependents].
  rewrite (bool_decide_false _ Hd).
  cbn [with_dependents dependencies dependents].
  rewrite bool_decide_true by (apply elem_of_app; right; by apply list_elem_of_singleton).
  rewrite remove_first_snoc by done. by destruct e.
Qed.

(** X16: on a plain store and with plain ids, adding a fresh id that no
    record mentions and removing it again gives back the store, stamps
    apart: both calls succeed, the id has no
    record afterwards, and every other record has the same fields, the
    same dependencies and the same dependents, in the same order, as
    before the add. *)
Theorem add_then_remove_restores x ty c ds deps sf lr w :
  plain_store (files w) ->
  plain_id x ->
  Forall plain_id (add_deps_list deps) ->
  files w !! x = None ->
  unmentioned x (files w) ->
  let w1 := (add_code_element x ty c ds deps sf lr w).2 in
  add_success (add_code_element x ty c ds deps sf lr w).1 = true
  /\ remove_success (remove_element x w1).1 = true
  /\ forall k, view (remove_element x w1).2 k = view w k.
Proof.
  intros Hwf%plain_store_wf _ _ Hfresh Hun w1. subst w1.
  destruct (add_code_element_fresh x ty c ds deps sf lr w Hwf Hfresh)
    as (st & w1 & -> & Hwf1 & Hview1).
  cbn [fst snd add_success]. split; [done|].
  assert (Hx1 : is_Some (files w1 !! x)).
  { apply view_is_Some. rewrite Hview1, decide_True by done.
    by destruct (bool_decide _). }
  destruct Hx1 as [ex Hex].
  destruct (remove_element_spec x w1 ex Hwf1 Hex) as (cl & w2 & -> & _ & Hgone & Hview2).
  cbn [fst snd remove_success]. split; [done|]. intros k.
  destruct (decide (k = x)) as [->|Hk].
  - unfold view. by rewrite Hgone, Hfresh.
  - rewrite (Hview2 k Hk), Hview1, decide_False by done.
    unfold view. destruct (files w !! k) as [e|] eqn:He; [|done].
    destruct (Hun k e He) as [Hd Hp]. simpl. f_equal.
    destruct (bool_decide _).
    + apply scrub_gain; done.
    + apply scrub_absent; done.
Qed.

Lemma add_then_remove_restores_witness :
  let w := added "b" [] empty_world in
  let w1 := (add_code_element "a" "function" "pass" "A" (DepsList ["b"; "a"]) "" "" w).2 in
  dependents <$> files w1 !! "b" = Some ["a"]
  /\ add_success
       (add_code_element "a" "function" "pass" "A" (DepsList ["b"; "a"]) "" "" w).1 = true
  /\ remove_success (remove_element "a" w1).1 = true
  /\ forall k, view (remove_element "a" w1).2 k = view w k.
Proof.
  cbv zeta. split; [vm_compute; reflexivity|].
  apply (add_then_remove_restores "a" "function" "pass" "A" (DepsList ["b"; "a"]) "" ""
           (added "b" [] empty_world)).
  - apply plain_store_decide. vm_compute. reflexivity.
  - apply plain_id_decide. vm_compute. reflexivity.
  - apply plain_ids_decide. vm_compute. reflexivity.
  - vm_compute. reflexivity.
  - intros k e Hk.
    assert (Hfiles : files (added "b" [] empty_world)
                     = {[ "b" := mkCodeElement "b" "function" "pass" "b" [] [] None None
                                   (At 2) (At 2) ]}).
    { apply (bool_decide_eq_true_1 (_ = _)). vm_compute. reflexivity. }
    rewrite Hfiles in Hk. apply lookup_singleton_Some in Hk as [_ <-].
    simpl. split; apply not_elem_of_nil.
Defined.

(** ** Consistency of the store *)

Lemma view_Some w k u :
  view w k = Some u ->
  exists e, files w !! k = Some e /\ dependencies e = dependencies u
            /\ dependents e = dependents u.
Proof.
  unfold view. destruct (files w !! k) as [e|]; [|done]. intros [= <-]. by exists e.
Qed.

Lemma consistent_view w :
  consistent (files w) <-> store_wf (files w) /\ consistent_lists (view w).
Proof.
  unfold consistent, consistent_lists, reciprocal. split.
  - intros (Hwf & Hnd & Hcl & Hrec). split; [done|]. split; [|split].
    + intros k u Hu. apply view_Some in Hu as (e & He & _ & <-). eauto.
    + intros k u a Hu Ha. apply view_Some in Hu as (e & He & _ & Hp).
      rewrite <- Hp in Ha. apply view_is_Some. eauto.
    + intros a b ua ub Ha Hb. apply view_Some in Ha as (ea & Hea & <- & _).
      apply view_Some in Hb as (eb & Heb & _ & <-). eauto.
  - intros (Hwf & Hnd & Hcl & Hrec). split; [done|]. split; [|split].
    + intros k e He. apply (Hnd k (unstamped e)). unfold view. by rewrite He.
    + intros k e a He Ha. apply view_is_Some.
      apply (Hcl k (unstamped e)); [unfold view; by rewrite He | done].
    + intros a b ea eb Hea Heb.
      apply (Hrec a b (unstamped ea) (unstamped eb)); unfold view;
        [by rewrite Hea | by rewrite Heb].
Qed.

Lemma remove_first_other a x l : a <> x -> a ∈ remove_first x l <-> a ∈ l.
Proof.
  intros Hne. induction l as [|y l IH]; simpl; [done|].
  destruct (decide (x = y)) as [<-|Hxy].
  - rewrite elem_of_cons. split; [tauto | intros [?|?]; [congruence | done]].
  - rewrite !elem_of_cons, IH. done.
Qed.

Lemma gain_other a x e : a <> x -> a ∈ dependents (gain x e) <-> a ∈ dependents e.
Proof.
  intros Hne. unfold gain, mem. destruct (bool_decide _); [done|]. simpl.
  rewrite elem_of_app, list_elem_of_singleton. tauto.
Qed.

Lemma gain_NoDup x e : NoDup (dependents e) -> NoDup (dependents (gain x e)).
Proof.
  intros Hnd. unfold gain, mem. destruct (bool_decide_reflect (x ∈ dependents e)); [done|].
  simpl. apply NoDup_app. split; [done|]. split; [|apply NoDup_singleton].
  intros y Hy Hy'. apply list_elem_of_singleton in Hy'. by subst.
Qed.

Lemma lose_iter_facts x n : forall e,
  dependencies (Nat.iter n (lose x) e) = dependencies e
  /\ (NoDup (dependents e) -> NoDup (dependents (Nat.iter n (lose x) e)))
  /\ (forall a, a <> x ->
        (a ∈ dependents (Nat.iter n (lose x) e) <-> a ∈ dependents e))
  /\ (n = 0 -> dependents (Nat.iter n (lose x) e) = dependents e).
Proof.
  induction n as [|n IH]; intros e; [done|]. simpl.
  destruct (IH e) as (Hd & Hnd & Ho & _).
  rewrite lose_dependencies, lose_dependents. split; [done|]. split; [|split; [|done]].
  - intros H. by apply remove_first_NoDup, Hnd.
  - intros a Ha. rewrite remove_first_other by done. by apply Ho.
Qed.

Lemma consistent_decide (m : gmap string CodeElement) :
  bool_decide
    (store_wf m
     /\ map_Forall (fun _ e => NoDup (dependents e)) m
     /\ map_Forall (fun _ e => Forall (fun a => is_Some (m !! a)) (dependents e)) m
     /\ map_Forall (fun a ea =>
          map_Forall (fun b eb => b ∈ dependencies ea <-> a ∈ dependents eb) m) m) = true ->
  consistent m.
Proof.
  intros H. apply bool_decide_eq_true_1 in H as (Hwf & Hnd & Hcl & Hrec).
  split; [done|]. split; [|split].
  - intros k e He. exact (Hnd k e He).
  - intros k e a He Ha. specialize (Hcl k e He). simpl in Hcl.
    rewrite Forall_forall in Hcl. by apply Hcl.
  - intros a b ea eb Ha Hb. exact (Hrec a ea Ha b eb Hb).
Qed.

(** The clean-up turns and the dependents pass on one record. *)
Lemma relink_facts x (nd : list string) (k : string) n u :
  NoDup (dependents u) ->
  let u' := (if bool_decide (k ∈ nd) then gain x else fun e => e)
              (Nat.iter n (lose x) u) in
  dependencies u' = dependencies u
  /\ NoDup (dependents u')
  /\ (forall a, a <> x -> (a ∈ dependents u' <-> a ∈ dependents u))
  /\ (x ∈ dependents u' <-> k ∈ nd \/ (n = 0 /\ x ∈ dependents u)).
Proof.
  intros Hnd. cbv zeta.
  destruct (lose_iter_facts x n u) as (Hd & Hn & Ho & Hz).
  destruct (bool_decide_reflect (k ∈ nd)) as [Hk|Hk].
  - rewrite gain_dependencies. split; [done|]. split; [by apply gain_NoDup, Hn|]. split.
    + intros a Ha. rewrite gain_other by done. by apply Ho.
    + split; [by left | intros _; apply gain_elem_of].
  - split; [done|]. split; [by apply Hn|]. split; [done|]. split.
    + intros Hx. right. destruct n as [|n]; [by split|].
      exfalso. by apply (lose_iter_once x u (S n) Hnd); [lia|].
    + intros [?|[-> Hx]]; done.
Qed.

Lemma dropped_pos (original new : list string) (k : string) :
  k ∈ original -> k ∉ new -> dropped original new k <> 0.
Proof.
  intros Ho Hn. unfold dropped.
  assert (Hin : k ∈ filter (fun d => d = k /\ d ∉ new) original)
    by (by apply list_elem_of_filter).
  destruct (filter _ original); [by apply elem_of_nil in Hin | done].
Qed.

(** Records with the same two lists under the same keys. *)
Lemma consistent_lists_same (look look' : string -> option CodeElement) :
  (forall k, is_Some (look k) -> is_Some (look' k)) ->
  (forall k u', look' k = Some u' ->
     exists u, look k = Some u /\ dependencies u' = dependencies u
               /\ dependents u' = dependents u) ->
  consistent_lists look -> consistent_lists look'.
Proof.
  intros Hdom Hsame (Hnd & Hcl & Hrec). split; [|split].
  - intros k u' Hu'. destruct (Hsame k u' Hu') as (u & Hu & _ & ->). eauto.
  - intros k u' a Hu' Ha. destruct (Hsame k u' Hu') as (u & Hu & _ & Hp).
    rewrite Hp in Ha. eauto.
  - intros a b ua' ub' Ha Hb.
    destruct (Hsame a ua' Ha) as (ua & Hua & -> & _).
    destruct (Hsame b ub' Hb) as (ub & Hub & _ & ->). eauto.
Qed.

(** The element [x] gets the list [nd]; every other record goes through
    the clean-up turns and the dependents pass. *)
Lemma relink_consistent (look look' : string -> option CodeElement) x ux nd :
  consistent_lists look ->
  look x = Some ux ->
  (forall k, is_Some (look k) -> is_Some (look' k)) ->
  (forall k u', look' k = Some u' ->
     exists u, look k = Some u
       /\ dependencies u' = (if decide (k = x) then nd else dependencies u)
       /\ NoDup (dependents u')
       /\ (forall a, a <> x -> (a ∈ dependents u' <-> a ∈ dependents u))
       /\ (k <> x ->
           (x ∈ dependents u' <->
            k ∈ nd \/ (dropped (dependencies ux) nd k = 0 /\ x ∈ dependents u)))) ->
  (forall ux', look' x = Some ux' -> (x ∈ dependents ux' <-> x ∈ nd)) ->
  consistent_lists look'.
Proof.
  intros (Hnd & Hcl & Hrec) Hx Hdom Hrel Hself. split; [|split].
  - intros k u' Hu'. by destruct (Hrel k u' Hu') as (u & _ & _ & ? & _).
  - intros k u' a Hu' Ha. destruct (Hrel k u' Hu') as (u & Hu & _ & _ & Ho & _).
    destruct (decide (a = x)) as [->|Hax]; [apply Hdom; by rewrite Hx|].
    apply Hdom, (Hcl k u a Hu). by apply Ho.
  - intros a b ua' ub' Ha Hb.
    destruct (Hrel a ua' Ha) as (ua & Hua & Hda & _).
    destruct (Hrel b ub' Hb) as (ub & Hub & _ & _ & Hob & Hxb).
    rewrite Hda. destruct (decide (a = x)) as [->|Hax].
    + destruct (decide (b = x)) as [->|Hbx]; [symmetry; by apply Hself|].
      rewrite (Hxb Hbx). split; [by left|]. intros [Hin|[Hz Hin]]; [done|].
      destruct (decide (b ∈ nd)) as [|Hout]; [done|]. exfalso.
      rewrite Hx in Hua. apply (inj Some) in Hua. subst ua.
      apply (dropped_pos (dependencies ux) nd b); [|done..].
      by apply (Hrec x b ux ub Hx Hub).
    + rewrite (Hob a Hax). by apply Hrec.
Qed.

Lemma edit_dependencies_consistent x deps op w :
  consistent (files w) -> consistent (files (edit_dependencies x deps op w).2).
Proof.
  intros Hc.
  destruct (files w !! x) as [e|] eqn:Hx;
    [|unfold edit_dependencies, load_element; by rewrite Hx].
  destruct (apply_operation op (dependencies e) (edit_deps_list deps)) as [nd|] eqn:Hop;
    [|unfold edit_dependencies, load_element; by rewrite Hx, Hop].
  apply consistent_view in Hc as [Hwf Hl].
  destruct (edit_dependencies_spec x deps op w e nd Hwf Hx Hop)
    as (ex & mi & w' & -> & Hwf' & Hview).
  cbn [snd]. apply consistent_view. split; [done|].
  assert (Hvx : view w x = Some (unstamped e)) by (unfold view; by rewrite Hx).
  assert (Hrel : forall k u', view w' k = Some u' ->
     exists u, view w k = Some u
       /\ dependencies u' = (if decide (k = x) then nd else dependencies u)
       /\ NoDup (dependents u')
       /\ (forall a, a <> x -> (a ∈ dependents u' <-> a ∈ dependents u))
       /\ (x ∈ dependents u' <->
           k ∈ nd \/ (dropped (dependencies e) nd k = 0 /\ x ∈ dependents u))).
  { intros k u' Hu'. rewrite Hview in Hu'. destruct (decide (k = x)) as [->|Hk].
    - simpl in Hu'. apply (inj Some) in Hu'. subst u'. exists (unstamped e).
      split; [done|].
      assert (Hn : NoDup (dependents (unstamped (with_dependencies e nd))))
        by exact (proj1 Hl x (unstamped e) Hvx).
      destruct (relink_facts x nd x (dropped (dependencies e) nd x) _ Hn)
        as (Hd & Hn' & Ho & Hxin).
      cbv zeta in Hd, Hn', Ho, Hxin. rewrite Hd. done.
    - destruct (view w k) as [u|] eqn:Hu; [|done]. simpl in Hu'.
      apply (inj Some) in Hu'. subst u'. exists u. split; [done|].
      assert (Hn : NoDup (dependents u)) by exact (proj1 Hl k u Hu).
      destruct (relink_facts x nd k (dropped (dependencies e) nd k) _ Hn)
        as (Hd & Hn' & Ho & Hxin).
      cbv zeta in Hd, Hn', Ho, Hxin. rewrite Hd. done. }
  apply (relink_consistent (view w) (view w') x (unstamped e) nd Hl Hvx).
  - intros k Hk. rewrite Hview. destruct (decide (k = x)); [done|].
    destruct Hk as [u ->]. done.
  - intros k u' Hu'. destruct (Hrel k u' Hu') as (u & ? & ? & ? & ? & ?).
    exists u. done.
  - intros ux' Hux'. destruct (Hrel x ux' Hux') as (u & Hu & _ & _ & _ & Hxin).
    rewrite Hxin. split; [|by left]. intros [Hin|[Hz Hin]]; [done|].
    destruct (decide (x ∈ nd)) as [|Hout]; [done|]. exfalso.
    rewrite Hvx in Hu. apply (inj Some) in Hu. subst u.
    apply (dropped_pos (dependencies e) nd x); [|done..].
    by apply (proj2 (proj2 Hl) x x (unstamped e) (unstamped e) Hvx Hvx).
Qed.

Lemma remove_element_consistent x w :
  consistent (files w) -> consistent (files (remove_element x w).2).
Proof.
  intros Hc.
  destruct (files w !! x) as [e|] eqn:Hx;
    [|unfold remove_element, load_element; by rewrite Hx].
  apply consistent_view in Hc as (Hwf & Hnd & Hcl & Hrec).
  destruct (remove_element_spec x w e Hwf Hx) as (cl & w' & -> & Hwf' & Hgone & Hview).
  cbn [snd]. apply consistent_view. split; [done|].
  assert (Hold : forall k u', view w' k = Some u' ->
            k <> x /\ exists u, view w k = Some u /\ u' = scrub x u).
  { intros k u' Hu'. destruct (decide (k = x)) as [->|Hk].
    - unfold view in Hu'. by rewrite Hgone in Hu'.
    - split; [done|]. rewrite (Hview k Hk) in Hu'.
      destruct (view w k) as [u|]; [|done]. apply (inj Some) in Hu'. by exists u. }
  split; [|split].
  - intros k u' Hu'. destruct (Hold k u' Hu') as (_ & u & Hu & ->).
    destruct (scrub_lists x u) as (_ & -> & _). apply remove_first_NoDup. eauto.
  - intros k u' a Hu' Ha. destruct (Hold k u' Hu') as (_ & u & Hu & ->).
    destruct (scrub_lists x u) as (_ & Hp & _). rewrite Hp in Ha.
    assert (Hax : a <> x).
    { intros ->. by apply (remove_first_once x (dependents u)); [eauto|]. }
    rewrite (Hview a Hax). apply remove_first_elem_of in Ha.
    destruct (Hcl k u a Hu Ha) as [ua ->]. done.
  - intros a b ua' ub' Ha Hb.
    destruct (Hold a ua' Ha) as (Hax & ua & Hua & ->).
    destruct (Hold b ub' Hb) as (Hbx & ub & Hub & ->).
    destruct (scrub_lists x ua) as (-> & _ & _).
    destruct (scrub_lists x ub) as (_ & -> & _).
    rewrite !remove_first_other by done. eauto.
Qed.

Lemma add_code_element_consistent x ty c ds deps sf lr w :
  consistent (files w) ->
  files w !! x = None ->
  consistent (files (add_code_element x ty c ds deps sf lr w).2)
  <-> forall k e, files w !! k = Some e -> x ∉ dependencies e.
Proof.
  intros Hc Hfresh. apply consistent_view in Hc as (Hwf & Hnd & Hcl & Hrec).
  destruct (add_code_element_fresh x ty c ds deps sf lr w Hwf Hfresh)
    as (st & w' & -> & Hwf' & Hview).
  cbn [snd]. rewrite consistent_view.
  assert (Hvx : view w x = None) by (by apply view_None).
  assert (Hrel : forall k u', view w' k = Some u' ->
     exists u, (if decide (k = x) then Some (new_element x ty c ds deps sf lr)
                else view w k) = Some u
       /\ dependencies u' = dependencies u
       /\ NoDup (dependents u')
       /\ (forall a, a <> x -> (a ∈ dependents u' <-> a ∈ dependents u))
       /\ (x ∈ dependents u' <-> k ∈ add_deps_list deps \/ x ∈ dependents u)).
  { intros k u' Hu'. rewrite Hview in Hu'.
    destruct (if decide (k = x) then Some (new_element x ty c ds deps sf lr)
              else view w k) as [u|] eqn:Hu; [|done].
    apply (inj Some) in Hu'. subst u'. exists u. split; [done|].
    assert (Hn : NoDup (dependents u)).
    { destruct (decide (k = x)).
      - apply (inj Some) in Hu. subst u. apply NoDup_nil_2.
      - eauto. }
    destruct (relink_facts x (add_deps_list deps) k 0 u Hn) as (Hd & Hn' & Ho & Hxin).
    cbv zeta in Hd, Hn', Ho, Hxin. simpl in Hd, Hn', Ho, Hxin.
    split; [done|]. split; [done|]. split; [done|]. rewrite Hxin. tauto. }
  assert (Hnew : forall a, a ∉ dependents (new_element x ty c ds deps sf lr))
    by (intros a; apply not_elem_of_nil).
  split.
  - intros (_ & _ & _ & Hrec') k e He Hin.
    assert (Hk : k <> x) by (intros ->; by rewrite Hfresh in He).
    assert (Hvk : is_Some (view w' k)).
    { rewrite Hview, decide_False by done. unfold view. by rewrite He. }
    assert (Hvx' : is_Some (view w' x)) by (rewrite Hview, decide_True; done).
    destruct Hvk as [uk' Hk']. destruct Hvx' as [ux' Hx'].
    destruct (Hrel k uk' Hk') as (uk & Huk & Hdk & _).
    destruct (Hrel x ux' Hx') as (ux & Hux & _ & _ & Hox & _).
    rewrite decide_False in Huk by done. rewrite decide_True in Hux by done.
    apply (inj Some) in Hux. subst ux.
    apply (Hnew k). apply (Hox k Hk). apply (Hrec' k x uk' ux' Hk' Hx').
    rewrite Hdk. unfold view in Huk. rewrite He in Huk.
    apply (inj Some) in Huk. by subst uk.
  - intros Hun. split; [done|]. split; [|split].
    + intros k u' Hu'. by destruct (Hrel k u' Hu') as (u & _ & _ & ? & _).
    + intros k u' a Hu' Ha. destruct (Hrel k u' Hu') as (u & Hu & _ & _ & Ho & _).
      destruct (decide (a = x)) as [->|Hax];
        [rewrite Hview, decide_True by done; done|].
      apply Ho in Ha; [|done]. rewrite Hview, decide_False by done.
      destruct (decide (k = x)) as [->|Hk].
      * apply (inj Some) in Hu. subst u. by apply Hnew in Ha.
      * destruct (Hcl k u a Hu Ha) as [ua ->]. done.
    + intros a b ua' ub' Ha Hb.
      destruct (Hrel a ua' Ha) as (ua & Hua & -> & _).
      destruct (Hrel b ub' Hb) as (ub & Hub & _ & _ & Hob & Hxb).
      destruct (decide (a = x)) as [->|Hax].
      * apply (inj Some) in Hua. subst ua. rewrite Hxb.
        change (dependencies (new_element x ty c ds deps sf lr))
          with (add_deps_list deps).
        split; [by left|]. intros [?|Hin]; [done|]. exfalso.
        destruct (decide (b = x)) as [->|Hbx].
        -- apply (inj Some) in Hub. subst ub. by apply Hnew in Hin.
        -- apply (is_Some_None (A := CodeElement)). rewrite <- Hvx. eauto.
      * rewrite (Hob a Hax). destruct (decide (b = x)) as [->|Hbx].
        -- apply (inj Some) in Hub. subst ub. split; [|by intros ?%Hnew].
           intros Hin. exfalso. unfold view in Hua.
           destruct (files w !! a) as [ea|] eqn:Hea; [|done].
           apply (inj Some) in Hua. subst ua. by apply (Hun a ea Hea).
        -- eauto.
Qed.

Lemma update_code_element_consistent x c ds deps sf lr w e :
  consistent (files w) ->
  files w !! x = Some e ->
  consistent (files (update_code_element x c ds deps sf lr w).2)
  <-> deps = DepsNone \/ (x ∈ edit_deps_list deps <-> x ∈ dependencies e).
Proof.
  intros Hc Hx. pose proof Hc as Hc0.
  apply consistent_view in Hc as [Hwf Hl].
  pose proof (update_code_element_spec x c ds deps sf lr w e Hwf Hx) as Hspec.
  cbv zeta in Hspec.
  destruct (update_text_fields_spec c ds sf lr e) as (_ & _ & Hd1 & Hp1 & _).
  cbv zeta in Hd1, Hp1.
  assert (Hvx : view w x = Some (unstamped e)) by (unfold view; by rewrite Hx).
  assert (Hself : x ∈ dependencies e <-> x ∈ dependents e)
    by exact (proj2 (proj2 Hl) x x (unstamped e) (unstamped e) Hvx Hvx).
  assert (Hcase : deps = DepsNone \/ deps <> DepsNone)
    by (destruct deps; [by left | by right..]).
  destruct Hcase as [->|Hdeps].
  - split; [by left|]. intros _. destruct Hspec as [Hnone Hsome].
    destruct (decide ((update_text_fields c ds sf lr e).2 = [])) as [Hb|Hb];
      [by rewrite (Hnone Hb)|].
    destruct (Hsome Hb) as (_ & Hwf' & Hview).
    apply consistent_view. split; [done|].
    apply (consistent_lists_same (view w)); [| |done].
    + intros k Hk. rewrite Hview. by destruct (decide (k = x)).
    + intros k u' Hu'. rewrite Hview in Hu'. destruct (decide (k = x)) as [->|Hk].
      * apply (inj Some) in Hu'. subst u'. exists (unstamped e). split; [done|].
        simpl. done.
      * by exists u'.
  - set (nl := edit_deps_list deps) in *.
    set (e1 := (update_text_fields c ds sf lr e).1) in *.
    assert (Hs : store_wf (files (update_code_element x c ds deps sf lr w).2)
      /\ forall k, view (update_code_element x c ds deps sf lr w).2 k =
           if decide (k = x) then Some (unstamped (with_dependencies e1 nl))
           else (if bool_decide (k ∈ nl) then gain x else fun e => e) <$>
                  (Nat.iter (dropped (dependencies e) nl k) (lose x) <$> view w k)).
    { destruct deps; [done| |]; by destruct Hspec as (_ & ? & ?). }
    clear Hspec. destruct Hs as [Hwf' Hview].
    rewrite consistent_view. split.
    + intros (_ & _ & _ & Hrec'). right.
      assert (Hx' : view (update_code_element x c ds deps sf lr w).2 x
                    = Some (unstamped (with_dependencies e1 nl)))
        by (rewrite Hview, decide_True; done).
      pose proof (Hrec' x x _ _ Hx' Hx') as Hxx. simpl in Hxx.
      rewrite Hp1 in Hxx. by rewrite Hxx, Hself.
    + intros [?|Hiff]; [done|]. split; [done|].
      apply (relink_consistent (view w) _ x (unstamped e) nl Hl Hvx).
      * intros k Hk. rewrite Hview. destruct (decide (k = x)); [done|].
        destruct Hk as [u ->]. done.
      * intros k u' Hu'. rewrite Hview in Hu'. destruct (decide (k = x)) as [->|Hk].
        -- apply (inj Some) in Hu'. subst u'. exists (unstamped e). split; [done|].
           simpl. rewrite Hp1. split; [done|].
           split; [exact (proj1 Hl x (unstamped e) Hvx)|]. done.
        -- destruct (view w k) as [u|] eqn:Hu; [|done]. simpl in Hu'.
           apply (inj Some) in Hu'. subst u'. exists u. split; [done|].
           assert (Hn : NoDup (dependents u)) by exact (proj1 Hl k u Hu).
           destruct (relink_facts x nl k (dropped (dependencies e) nl k) _ Hn)
             as (Hd & Hn' & Ho & Hxin).
           cbv zeta in Hd, Hn', Ho, Hxin. rewrite Hd. done.
      * intros ux' Hux'. rewrite Hview, decide_True in Hux' by done.
        apply (inj Some) in Hux'. subst ux'. simpl. rewrite Hp1.
        by rewrite Hiff, Hself.
Qed.

(** X17: on a plain store and with plain ids, [edit_dependencies] and
    [remove_element] keep the store consistent, whatever the operation and
    whether the call succeeds or is refused: afterwards no dependents list
    names an id twice or an id without a record, and between any two
    records one lists the other as a dependency exactly when the other
    lists it as a dependent. *)
Theorem consistency_kept x deps op w :
  plain_store (files w) ->
  plain_id x ->
  deps <> DepsNone ->
  Forall plain_id (edit_deps_list deps) ->
  consistent (files w) ->
  consistent (files (edit_dependencies x deps op w).2)
  /\ consistent (files (remove_element x w).2).
Proof.
  intros _ _ _ _ Hc. split.
  - by apply edit_dependencies_consistent.
  - by apply remove_element_consistent.
Qed.

Lemma consistency_kept_witness :
  let w := added "b" ["a"] (added "a" [] empty_world) in
  dependents <$> files w !! "a" = Some ["b"]
  /\ consistent (files (edit_dependencies "b" (DepsList ["a"]) "remove" w).2)
  /\ consistent (files (remove_element "b" w).2).
Proof.
  cbv zeta. split; [vm_compute; reflexivity|].
  apply (consistency_kept "b" (DepsList ["a"]) "remove"
           (added "b" ["a"] (added "a" [] empty_world))).
  - apply plain_store_decide. vm_compute. reflexivity.
  - apply plain_id_decide. vm_compute. reflexivity.
  - discriminate.
  - apply plain_ids_decide. vm_compute. reflexivity.
  - apply consistent_decide. vm_compute. reflexivity.
Defined.

(** X18: on a consistent plain store and with plain ids,
    [add_code_element] leaves a consistent store exactly when the id is
    taken (the call is refused and writes nothing) or no stored record
    lists the new id among its dependencies: the dependents of the new
    record are never filled in from the records that were waiting for
    it. *)
Theorem add_keeps_consistency_iff x ty c ds deps sf lr w :
  plain_store (files w) ->
  plain_id x ->
  Forall plain_id (add_deps_list deps) ->
  consistent (files w) ->
  consistent (files (add_code_element x ty c ds deps sf lr w).2)
  <-> (files w !! x = None ->
       forall k e, files w !! k = Some e -> x ∉ dependencies e).
Proof.
  intros _ _ _ Hc. destruct (files w !! x) as [ex|] eqn:Hx.
  - unfold add_code_element, load_element. rewrite Hx. cbn [snd].
    split; [intros _ ?; done | by intros _].
  - rewrite (add_code_element_consistent x ty c ds deps sf lr w Hc Hx).
    split; [by intros H _ | intros H; by apply H].
Qed.

Lemma add_keeps_consistency_iff_witness :
  let w := added "b" ["a"] (added "a" [] empty_world) in
  consistent (files (add_code_element "c" "function" "pass" "C" (DepsList ["a"; "c"])
                       "" "" w).2)
  <-> (files w !! "c" = None ->
       forall k e, files w !! k = Some e -> "c" ∉ dependencies e).
Proof.
  cbv zeta.
  apply (add_keeps_consistency_iff "c" "function" "pass" "C" (DepsList ["a"; "c"]) "" ""
           (added "b" ["a"] (added "a" [] empty_world))).
  - apply plain_store_decide. vm_compute. reflexivity.
  - apply plain_id_decide. vm_compute. reflexivity.
  - apply plain_ids_decide. vm_compute. reflexivity.
  - apply consistent_decide. vm_compute. reflexivity.
Defined.

(** X19: on a consistent plain store and with plain ids for
    dependencies, [update_code_element] of an existing element leaves a
    consistent store exactly when no dependencies are given or the
    element lists itself in the new list just when it did in the old one:
    the record saved last carries the dependents it was loaded with. *)
Theorem update_keeps_consistency_iff x c ds deps sf lr w e :
  plain_store (files w) ->
  Forall plain_id (edit_deps_list deps) ->
  consistent (files w) ->
  files w !! x = Some e ->
  consistent (files (update_code_element x c ds deps sf lr w).2)
  <-> deps = DepsNone \/ (x ∈ edit_deps_list deps <-> x ∈ dependencies e).
Proof.
  intros _ _ Hc Hx. by apply update_code_element_consistent.
Qed.

Lemma update_keeps_consistency_iff_witness :
  let w := added "b" ["a"] (added "a" [] empty_world) in
  consistent (files (update_code_element "b" "" "" (DepsList ["b"]) "" "" w).2)
  <-> DepsList ["b"] = DepsNone \/ ("b" ∈ ["b"] <-> "b" ∈ ["a"]).
Proof.
  cbv zeta.
  apply (update_keeps_consistency_iff "b" "" "" (DepsList ["b"]) "" ""
           (added "b" ["a"] (added "a" [] empty_world))
           (mkCodeElement "b" "function" "pass" "b" ["a"] [] None None (At 5) (At 5))).
  - apply plain_store_decide. vm_compute. reflexivity.
  - apply plain_ids_decide. vm_compute. reflexivity.
  - apply consistent_decide. vm_compute. reflexivity.
  - vm_compute. reflexivity.
Defined.

(** ** The lines of the tree *)

Lemma tree_line_weaken all_elements lo lo' max_depth (visited visited' : gset string) line :
  lo <= lo' -> visited ⊆ visited' ->
  tree_line all_elements lo' max_depth visited' line ->
  tree_line all_elements lo max_depth visited line.
Proof.
  intros Hlo Hsub (d & k & Hd & Hm & Hk & ->). exists d, k.
  split; [lia|]. split; [done|]. split; [|done]. intros Hin. apply Hk. by apply Hsub.
Qed.

(** X20: what one call of the traversal returns.  It returns no line
    exactly when its depth is beyond [max_depth] or its id was already
    visited on the way down.  Otherwise the first line is the one of its
    own id at its own depth, marked missing when the id has no record, and
    every further line belongs to a strictly deeper level, not beyond
    [max_depth], and to an id that is neither the call's own nor one
    visited on the way down: no id is printed below itself. *)
Theorem tree_lines_sound all_elements max_depth : forall fuel element_id depth visited lines,
  build_tree_recursive fuel all_elements max_depth element_id depth visited = Some lines ->
  match lines with
  | [] => (max_depth < Z.of_nat depth)%Z \/ element_id ∈ visited
  | first :: rest =>
      (Z.of_nat depth <= max_depth)%Z
      /\ (element_id ∉ visited)
      /\ first = line_of all_elements depth element_id
      /\ Forall (tree_line all_elements (S depth) max_depth ({[element_id]} ∪ visited)) rest
  end.
Proof.
  induction fuel as [|fuel IH]; intros element_id depth visited lines Hrun; [done|].
  cbn [build_tree_recursive] in Hrun.
  destruct (Z.gtb_spec (Z.of_nat depth) max_depth) as [Hgt|Hle].
  { apply (inj Some) in Hrun. subst lines. left. lia. }
  destruct (bool_decide_reflect (element_id ∈ visited)) as [Hin|Hout].
  { apply (inj Some) in Hrun. subst lines. by right. }
  cbn [orb] in Hrun. unfold line_of.
  destruct (all_elements !! element_id) as [element|] eqn:Hel.
  - destruct (mapM _ (dependencies element)) as [below|] eqn:Hbelow in Hrun; [|done].
    apply (inj Some) in Hrun. subst lines.
    split; [done|]. split; [done|]. split; [done|].
    apply Forall_concat. apply mapM_Some in Hbelow.
    eapply Forall2_Forall_r; [exact Hbelow|]. apply Forall_forall.
    intros dep_id _ ls Hls. simpl in Hls. specialize (IH _ _ _ _ Hls).
    destruct ls as [|first rest]; [done|].
    destruct IH as (Hd & Hv & -> & Hrest). constructor.
    + exists (S depth), dep_id. done.
    + eapply Forall_impl; [exact Hrest|]. intros line.
      apply tree_line_weaken; [lia | apply union_subseteq_r].
  - apply (inj Some) in Hrun. subst lines. done.
Qed.

Lemma tree_lines_sound_witness :
  let all_elements := files shared_world in
  build_tree_recursive 12 all_elements 10 "r" 0 ∅
    = Some ["r [function] - r"; "  ├── a [function] - a"; "    ├── b [function] - b";
            "  ├── c [function] - c"; "    ├── a [function] - a";
            "      ├── b [function] - b"]
  /\ Forall (tree_line all_elements 1 10 ({["r"]} ∪ ∅))
       ["  ├── a [function] - a"; "    ├── b [function] - b";
        "  ├── c [function] - c"; "    ├── a [function] - a";
        "      ├── b [function] - b"].
Proof.
  cbv zeta.
  assert (Hrun : build_tree_recursive 12 (files shared_world) 10 "r" 0 ∅
    = Some ["r [function] - r"; "  ├── a [function] - a"; "    ├── b [function] - b";
            "  ├── c [function] - c"; "    ├── a [function] - a";
            "      ├── b [function] - b"])
    by (vm_compute; reflexivity).
  split; [exact Hrun|].
  exact (proj2 (proj2 (proj2 (tree_lines_sound (files shared_world) 10 12 "r" 0 ∅ _ Hrun)))).
Defined.

(** ** Plain stores are an invariant of the tools *)

Lemma Forall_sublist_of (P : string -> Prop) (l k : list string) :
  sublist l k -> Forall P k -> Forall P l.
Proof.
  intros Hsub Hk. apply Forall_forall. intros d Hd.
  rewrite Forall_forall in Hk. apply Hk. by apply (elem_of_sublist l).
Qed.

Lemma apply_operation_Forall (P : string -> Prop) op deps new nd :
  Forall P deps -> Forall P new ->
  apply_operation op deps new = Some nd -> Forall P nd.
Proof.
  intros Hd Hn. unfold apply_operation.
  destruct (decide (op = "replace")); [by intros [= <-]|].
  destruct (decide (op = "add")).
  { intros [= <-]. destruct (add_op_spec new deps) as (fresh & -> & _ & _ & Hsub & _).
    apply Forall_app. split; [done|]. by apply (Forall_sublist_of P fresh new). }
  destruct (decide (op = "remove")); [|done].
  intros [= <-]. apply (Forall_sublist_of P _ deps); [apply remove_op_sublist | done].
Qed.

Lemma remove_first_Forall (P : string -> Prop) x l :
  Forall P l -> Forall P (remove_first x l).
Proof.
  intros Hl. apply Forall_forall. intros d Hd. rewrite Forall_forall in Hl.
  apply Hl. by apply (remove_first_elem_of x).
Qed.

Lemma plain_store_view w :
  plain_store (files w)
  <-> store_wf (files w)
      /\ forall k u, view w k = Some u -> plain_id k /\ Forall plain_id (dependencies u).
Proof.
  split.
  - intros Hp. split; [by apply plain_store_wf|].
    intros k u Hu. apply view_Some in Hu as (e & He & <- & _).
    by destruct (Hp k e He) as (_ & ? & ?).
  - intros [Hwf Hv] k e He. split; [by apply Hwf|].
    apply (Hv k (unstamped e)). unfold view. by rewrite He.
Qed.

(** The passes over the dependents leave the dependencies of a record
    alone. *)
Lemma relink_dependencies x (nd : list string) (k : string) n u :
  dependencies ((if bool_decide (k ∈ nd) then gain x else fun e => e)
                  (Nat.iter n (lose x) u)) = dependencies u.
Proof.
  destruct (lose_iter_facts x n u) as (Hd & _).
  destruct (bool_decide _); [by rewrite gain_dependencies|done].
Qed.

(** X6: the tools keep a store plain when the ids they are given are
    plain: after an add, an edit, an update or a removal, successful or
    refused, every file is still named after a plain id and holds the
    record of that id, and every dependency a record lists is a plain
    id.  The store of a fresh knowledge tree is plain. *)
Theorem plain_store_preserved x ty c ds deps sf lr op w :
  plain_store (files w) ->
  plain_id x ->
  (Forall plain_id (add_deps_list deps) ->
     plain_store (files (add_code_element x ty c ds deps sf lr w).2))
  /\ (deps <> DepsNone -> Forall plain_id (edit_deps_list deps) ->
        plain_store (files (edit_dependencies x deps op w).2))
  /\ (Forall plain_id (edit_deps_list deps) ->
        plain_store (files (update_code_element x c ds deps sf lr w).2))
  /\ plain_store (files (remove_element x w).2).
Proof.
  intros Hp Hpx. pose proof Hp as Hp0.
  apply plain_store_view in Hp as [Hwf Hv].
  split; [|split; [|split]].
  - intros Hpd. destruct (files w !! x) as [e|] eqn:Hx.
    { unfold add_code_element, load_element. by rewrite Hx. }
    destruct (add_code_element_fresh x ty c ds deps sf lr w Hwf Hx)
      as (st & w' & -> & Hwf' & Hview).
    cbn [snd]. apply plain_store_view. split; [done|].
    intros k u Hu. rewrite Hview in Hu. destruct (decide (k = x)) as [->|Hk].
    + apply (inj Some) in Hu. subst u. split; [done|].
      by destruct (bool_decide _); [rewrite gain_dependencies|].
    + destruct (view w k) as [u0|] eqn:Hu0; [|done].
      apply (inj Some) in Hu. subst u. destruct (Hv k u0 Hu0) as [Hpk Hpd0].
      split; [done|]. by destruct (bool_decide _); [rewrite gain_dependencies|].
  - intros _ Hpd. destruct (files w !! x) as [e|] eqn:Hx;
      [|unfold edit_dependencies, load_element; by rewrite Hx].
    destruct (apply_operation op (dependencies e) (edit_deps_list deps)) as [nd|] eqn:Hop;
      [|unfold edit_dependencies, load_element; by rewrite Hx, Hop].
    destruct (Hp0 x e Hx) as (_ & _ & Hold).
    pose proof (apply_operation_Forall plain_id _ _ _ _ Hold Hpd Hop) as Hnd.
    destruct (edit_dependencies_spec x deps op w e nd Hwf Hx Hop)
      as (ex & mi & w' & -> & Hwf' & Hview).
    cbn [snd]. apply plain_store_view. split; [done|].
    intros k u Hu. rewrite Hview in Hu. destruct (decide (k = x)) as [->|Hk].
    + simpl in Hu. apply (inj Some) in Hu. subst u. split; [done|].
      by rewrite relink_dependencies.
    + destruct (view w k) as [u0|] eqn:Hu0; [|done]. simpl in Hu.
      apply (inj Some) in Hu. subst u. rewrite relink_dependencies. by apply Hv.
  - intros Hpd. destruct (files w !! x) as [e|] eqn:Hx;
      [|unfold update_code_element, load_element; by rewrite Hx].
    destruct (Hp0 x e Hx) as (_ & _ & Hold).
    pose proof (update_code_element_spec x c ds deps sf lr w e Hwf Hx) as Hspec.
    cbv zeta in Hspec.
    destruct (update_text_fields_spec c ds sf lr e) as (_ & _ & Hd1 & _).
    cbv zeta in Hd1.
    assert (Hcase : deps = DepsNone \/ deps <> DepsNone)
      by (destruct deps; [by left | by right..]).
    destruct Hcase as [->|Hdeps].
    + destruct Hspec as [Hnone Hsome].
      destruct (decide ((update_text_fields c ds sf lr e).2 = [])) as [Hb|Hb];
        [by rewrite (Hnone Hb)|].
      destruct (Hsome Hb) as (_ & Hwf' & Hview).
      apply plain_store_view. split; [done|].
      intros k u Hu. rewrite Hview in Hu. destruct (decide (k = x)) as [->|Hk].
      * apply (inj Some) in Hu. subst u. split; [done|]. simpl. by rewrite Hd1.
      * by apply Hv.
    + assert (Hs : store_wf (files (update_code_element x c ds deps sf lr w).2)
        /\ forall k, view (update_code_element x c ds deps sf lr w).2 k =
             if decide (k = x)
             then Some (unstamped (with_dependencies (update_text_fields c ds sf lr e).1
                                     (edit_deps_list deps)))
             else (if bool_decide (k ∈ edit_deps_list deps) then gain x else fun e => e)
                    <$> (Nat.iter (dropped (dependencies e) (edit_deps_list deps) k)
                           (lose x) <$> view w k)).
      { destruct deps; [done| |]; by destruct Hspec as (_ & ? & ?). }
      destruct Hs as [Hwf' Hview].
      apply plain_store_view. split; [done|].
      intros k u Hu. rewrite Hview in Hu. destruct (decide (k = x)) as [->|Hk].
      * apply (inj Some) in Hu. subst u. split; [done|]. done.
      * destruct (view w k) as [u0|] eqn:Hu0; [|done]. simpl in Hu.
        apply (inj Some) in Hu. subst u. rewrite relink_dependencies. by apply Hv.
  - destruct (files w !! x) as [e|] eqn:Hx;
      [|unfold remove_element, load_element; by rewrite Hx].
    destruct (remove_element_spec x w e Hwf Hx) as (cl & w' & -> & Hwf' & Hgone & Hview).
    cbn [snd]. apply plain_store_view. split; [done|].
    intros k u Hu. destruct (decide (k = x)) as [->|Hk].
    { unfold view in Hu. by rewrite Hgone in Hu. }
    rewrite (Hview k Hk) in Hu. destruct (view w k) as [u0|] eqn:Hu0; [|done].
    apply (inj Some) in Hu. subst u. destruct (Hv k u0 Hu0) as [Hpk Hpd].
    split; [done|]. destruct (scrub_lists x u0) as (-> & _).
    by apply remove_first_Forall.
Qed.

Lemma plain_store_preserved_witness :
  plain_store (files (add_code_element "a" "function" "pass" "A" (DepsList ["b"]) "" ""
                        empty_world).2)
  /\ plain_store (files (edit_dependencies "a" (DepsList ["b"]) "add" empty_world).2)
  /\ plain_store (files (update_code_element "a" "pass" "A" (DepsList ["b"]) "" ""
                           empty_world).2)
  /\ plain_store (files (remove_element "a" empty_world).2).
Proof.
  assert (Hpx : plain_id "a") by (apply plain_id_decide; vm_compute; reflexivity).
  assert (Hpd : Forall plain_id ["b"]) by (apply plain_ids_decide; vm_compute; reflexivity).
  destruct (plain_store_preserved "a" "function" "pass" "A" (DepsList ["b"]) "" "" "add"
              empty_world plain_store_empty Hpx) as (Hadd & Hedit & Hupd & Hrem).
  split; [exact (Hadd Hpd)|]. split; [apply Hedit; [discriminate | exact Hpd]|].
  split; [exact (Hupd Hpd) | exact Hrem].
Defined.
